(** * MPAS-Analysis, [mpas_analysis/shared/plot/plotting.py]

    A shallow embedding of the plotting module and the proofs of the
    properties its specification states.

    The module is a sequence of calls into matplotlib's [pyplot], driven by a
    [ConfigParser] object.  The embedding keeps that shape:

    - the configuration object and the current figure live in a [world]; every
      routine is a computation in a state-and-exception monad [M] over it;
    - every call into pyplot appends an [event] to the world's trace, in
      program order;
    - Python exceptions are results [Raise o e], where [o] records whether
      the exception comes from a [raise] statement of this module, from the
      interpreter (a subscript out of range, an unbound local) or from a
      library;
    - the libraries (ConfigParser, pandas, the colormap registry, the
      time-keeping helpers of the package) are parameters: an interface
      [ConfigParser] and a record [External]. *)

From Stdlib Require Import List ZArith QArith Qabs Qround String Ascii Bool Lia.
From Stdlib Require Import DecimalString.
Import ListNotations.

Close Scope Q_scope.
Local Open Scope string_scope.
Local Open Scope list_scope.

Set Implicit Arguments.

(* ================================================================== *)
(** * Python values *)

(** A float; [None] is NaN.  Rationals stand for the finite floats.  Where
    a result depends on how a float operation rounds (the indices that
    [plot_size_y_axis] picks), the rounded operation is a parameter of the
    embedding, [float_sub]. *)
Definition value := option Q.

(** Exceptions, by class. *)
Inductive exn : Type :=
| ValueError (msg : string)
| IndexError (msg : string)
| UnboundLocalError (name : string)
| NoSectionError (section : string)
| NoOptionError (option section : string)
| LibraryError (msg : string).

(** The result of a library function. *)
Inductive Except (A : Type) : Type :=
| Success (a : A)
| Failure (e : exn).
Arguments Success {A} a.
Arguments Failure {A} e.

(** Where an exception was raised: by a [raise] statement of this module,
    by the interpreter while it ran this module's code, or inside a
    library. *)
Inductive origin : Type := Explicit | Runtime | Library.

Inductive result (A : Type) : Type :=
| Ok (a : A)
| Raise (o : origin) (e : exn).
Arguments Ok {A} a.
Arguments Raise {A} o e.

Definition is_NoOptionError (e : exn) : bool :=
  match e with NoOptionError _ _ => true | _ => false end.

(** ** Sequences *)

(** [l[i]] for [0 <= i]. *)
Definition subscript {A} (l : list A) (i : nat) : Except A :=
  match nth_error l i with
  | Some a => Success a
  | None => Failure (IndexError "list index out of range")
  end.

(** [l[i]] for any integer [i]: a negative index counts from the end. *)
Definition py_index {A} (l : list A) (i : Z) : Except A :=
  let n := Z.of_nat (List.length l) in
  if (0 <=? i)%Z then subscript l (Z.to_nat i)
  else if (0 <=? n + i)%Z then subscript l (Z.to_nat (n + i))
  else Failure (IndexError "list index out of range").

(** A slice bound, brought into [0 .. len]. *)
Definition clamp_bound (len : nat) (i : Z) : nat :=
  let n := Z.of_nat len in
  if (i <? 0)%Z then Z.to_nat (Z.max (n + i) 0)
  else Z.to_nat (Z.min i n).

(** [l[start:stop]]. *)
Definition py_slice {A} (l : list A) (start stop : Z) : list A :=
  let a := clamp_bound (List.length l) start in
  let b := clamp_bound (List.length l) stop in
  firstn (b - a) (skipn a l).

(** [int(N/2.0)]: the quotient truncated towards zero. *)
Definition int_half (N : Z) : Z := Z.quot N 2.

(** [round(N/2.0)] in Python 2: halves are rounded away from zero. *)
Definition round_half (N : Z) : Z :=
  if (0 <=? N)%Z then Z.quot (N + 1) 2 else Z.quot (N - 1) 2.

(** [a[int(N/2.0):-int(round(N/2.0)-1)]] *)
Definition trim_window {A} (N : Z) (a : list A) : list A :=
  py_slice a (int_half N) (- (round_half N - 1))%Z.

(** ** numpy *)

Definition Qmin_list (x : Q) (l : list Q) : Q :=
  fold_left (fun m y => if Qle_bool m y then m else y) l x.

Definition Qmax_list (x : Q) (l : list Q) : Q :=
  fold_left (fun m y => if Qle_bool y m then m else y) l x.

(** The numbers of an array that holds no NaN. *)
Fixpoint numbers (l : list value) : option (list Q) :=
  match l with
  | [] => Some []
  | None :: _ => None
  | Some q :: l' =>
      match numbers l' with
      | Some qs => Some (q :: qs)
      | None => None
      end
  end.

(** [np.amin], [np.amax] and [.min()], [.max()]: an empty array has no
    minimum. *)
Definition np_amin (l : list Q) : Except Q :=
  match l with
  | [] => Failure (ValueError
      "zero-size array to reduction operation minimum which has no identity")
  | x :: l' => Success (Qmin_list x l')
  end.

Definition np_amax (l : list Q) : Except Q :=
  match l with
  | [] => Failure (ValueError
      "zero-size array to reduction operation maximum which has no identity")
  | x :: l' => Success (Qmax_list x l')
  end.

(** [np.arange(start, stop, step)] for a positive step; [fuel] bounds the
    number of points. *)
Fixpoint arange_aux (fuel : nat) (x stop step : Q) : list Q :=
  match fuel with
  | O => []
  | S f => if Qle_bool stop x then [] else x :: arange_aux f (x + step)%Q stop step
  end.

Definition np_arange (start stop step : Q) : list Q :=
  arange_aux 1000 start stop step.

(** Element-wise arithmetic of two one-dimensional arrays, with numpy's
    broadcasting of an array of length one. *)
Definition value_op (f : Q -> Q -> Q) (a b : value) : value :=
  match a, b with
  | Some x, Some y => Some (f x y)
  | _, _ => None
  end.

Definition np_binop (f : Q -> Q -> Q) (a b : list value) : Except (list value) :=
  if Nat.eqb (List.length a) (List.length b) then
    Success (map (fun p => value_op f (fst p) (snd p)) (combine a b))
  else match a, b with
       | [x], _ => Success (map (fun y => value_op f x y) b)
       | _, [y] => Success (map (fun x => value_op f x y) a)
       | _, _ => Failure (ValueError "operands could not be broadcast together")
       end.

(** A two-dimensional array: [shape = (len rows, ncols)]. *)
Record Array2D : Type := mkArray2D {
  ncols : nat;
  rows : list (list value)
}.

Definition shape0 (a : Array2D) : nat := List.length (rows a).
Definition shape1 (a : Array2D) : nat := ncols a.

Definition wf_Array2D (a : Array2D) : Prop :=
  Forall (fun r => List.length r = ncols a) (rows a).

(** [xr.DataArray(slices)]: the slices become the rows. *)
Definition from_rows (slices : list (list value)) : Array2D :=
  {| ncols := match slices with [] => 0 | r :: _ => List.length r end;
     rows := slices |}.

(** [np.meshgrid(x, y)] *)
Definition np_meshgrid (x y : list Q) : list (list Q) * list (list Q) :=
  (map (fun _ => x) y, map (fun v => map (fun _ => v) x) y).

(** A one-dimensional xarray [DataArray] over the coordinate [Time]. *)
Record DataArray : Type := mkDataArray {
  Time : list Q;
  values : list value
}.

(** ** Dates *)

Record datetime : Type := mkDatetime {
  year : Z;
  month : Z
}.

(** ['{:0Wd}'.format(n)] *)
Definition string_of_nat_dec (n : N) : string :=
  NilZero.string_of_uint (N.to_uint n).

Fixpoint zeros (n : nat) : string :=
  match n with O => "" | S k => String "0" (zeros k) end.

Definition format_0d (width : nat) (n : Z) : string :=
  let digits := string_of_nat_dec (Z.abs_N n) in
  if (n <? 0)%Z
  then String "-" (String.append (zeros (width - 1 - String.length digits)) digits)
  else String.append (zeros (width - String.length digits)) digits.

(* ================================================================== *)
(** * matplotlib *)

(** The colour a colormap assigns to an index. *)
Inductive color : Type :=
| ColorAt (cmap : string) (index : Z).

(** A colormap: an entry of the registry, with the size of its lookup
    table, or a [ListedColormap]. *)
Inductive Colormap : Type :=
| Registered (name : string) (lut : Z)
| ListedColormap (colors : list color) (name : string)
                 (under over : option color).

Definition cmap_name (c : Colormap) : string :=
  match c with
  | Registered n _ => n
  | ListedColormap _ n _ _ => n
  end.

(** [colormap.N] *)
Definition cmap_N (c : Colormap) : Z :=
  match c with
  | Registered _ lut => lut
  | ListedColormap cs _ _ _ => Z.of_nat (List.length cs)
  end.

(** [colormap(i)] *)
Definition cmap_call (c : Colormap) (i : Z) : color := ColorAt (cmap_name c) i.

Definition set_under (c : Colormap) (u : color) : Colormap :=
  match c with
  | ListedColormap cs n _ o => ListedColormap cs n (Some u) o
  | Registered _ _ => c
  end.

Definition set_over (c : Colormap) (o : color) : Colormap :=
  match c with
  | ListedColormap cs n u _ => ListedColormap cs n u (Some o)
  | Registered _ _ => c
  end.

(** [cols.BoundaryNorm(boundaries, ncolors)] *)
Record BoundaryNorm : Type := mkBoundaryNorm {
  boundaries : list Z;
  ncolors : Z
}.

(** A font size is the caller's number or the configuration's string. *)
Inductive fontsize : Type :=
| SizeNum (n : Z)
| SizeStr (s : string).

(** The keyword dictionaries [axis_font] and [title_font]. *)
Record font_dict : Type := mkFont {
  fd_size : fontsize;
  fd_color : option string;
  fd_weight : option string
}.

Inductive subplot_spec : Type :=
| SubplotCode (code : Z)
| SubplotGrid (nrows_ ncols_ index : Z).

(** One constructor per pyplot, axes or Basemap call the module makes. *)
Inductive event : Type :=
| EFigure (figsize : Q * Q) (dpi : Z)
| EPlot (x : list Q) (y : list value) (fmt color : option string)
        (linewidth : Q) (label : option string)
| EPolar (theta_over_pi : list Q) (r : list value) (fmt : string)
         (linewidth : Q) (label : string)
| ELegend (loc : option string)
| EGca
| ESetXticks (locs_over_pi : list Q) (minor : bool)
| ESetXticklabels (labels : list string) (minor : bool)
| ETitle (text : string) (y : option Q) (font : font_dict)
| ESuptitle (text : string) (y : Q) (font : font_dict)
| ESetTitle (text : string) (y : Q) (font : font_dict)
| EXlabel (text : string) (font : font_dict)
| EYlabel (text : string) (font : font_dict)
| ESubplot (spec : subplot_spec)
| EBasemap (projection : string) (bounds : list Q)
| EDrawCoastlines
| EFillContinents (color lake_color : string)
| EDrawParallels (circles : list Q) (labels : option (list bool))
| EDrawMeridians (meridians : list Q) (labels : list bool)
| EMapContourf (lons lats field : Array2D) (cmap : Colormap)
               (norm : BoundaryNorm) (levels : list Z) (extend : option string)
| EContourf (x : list (list Q)) (y : list (list Q)) (field : Array2D)
            (cmap : Colormap) (norm : option BoundaryNorm)
            (levels : option (list Z)) (extend : string)
| EContour (x : list (list Q)) (y : list (list Q)) (field : Array2D)
           (levels : option (list Z)) (colors : string) (linewidths : Q)
| EColorbar (place : string) (pad : option string)
            (ticks boundaries_ : option (list Z))
| ECbarLabel (text : string)
| ETightLayout (pad : Q)
| ESubplotsAdjust (top : Q)
| EFillBetween (x : list Q) (y1 y2 : list value) (facecolor : string) (alpha : Q)
| EGrid
| EAxhline (y : Q) (linestyle color : string)
| EInvertYaxis
| EXlim (lim : list Q)
| EYlim (lim : list Q)
| ESetMajorLocator (major : list Q) (maxXTicks : Z)
| ESetMajorFormatter (calendar : string) (includeMonth : bool)
| ESetpRotation (rotation : Z)
| EAutoscale (axis : string)
| ESavefig (fileout : string) (dpi : Z)
| EClose.

(* ================================================================== *)
(** * The libraries the module calls *)

(** [ConfigParser], with [getExpression] of the package's subclass.  Every
    method reads the configuration and returns a value or raises. *)
Class ConfigParser (Config : Type) : Type := {
  get : Config -> string -> string -> Except string;
  getint : Config -> string -> string -> Except Z;
  getboolean : Config -> string -> string -> Except bool;
  getExpression : Config -> string -> string -> bool -> Except (list Z)
}.

(** What the module takes from pandas, pyplot's figure state, the colormap
    registry, the package's time-keeping helpers and its constants. *)
Record External : Type := mkExternal {
  (** [pd.Series.rolling(series, N, center=True).mean()] on the values *)
  rolling_mean : Z -> list value -> Except (list value);
  (** [ax.get_ylim()] and [ax.get_xlim()] of the current axes *)
  ax_get_ylim : list event -> Q * Q;
  ax_get_xlim : list event -> Q * Q;
  (** [plt.get_cmap(name)] *)
  get_cmap : string -> Except Colormap;
  (** [days_to_datetime(days, calendar)] *)
  days_to_datetime : Q -> string -> Except datetime;
  (** [date_to_days(year=, month=, calendar=)] *)
  date_to_days : Z -> Z -> string -> Except Q;
  (** [constants.daysInMonth] and [constants.abrevMonthNames] *)
  daysInMonth : list Q;
  abrevMonthNames : list string;
  (** [x - a] on two floats: the double nearest to the difference *)
  float_sub : Q -> Q -> Q
}.

(* ================================================================== *)
(** * The monad of the module's routines *)

(** The configuration object the caller passes in, and the calls pyplot
    has received so far. *)
Record world (Config : Type) : Type := mkWorld {
  w_config : Config;
  w_trace : list event
}.
Arguments mkWorld {Config} _ _.

Definition M (Config A : Type) : Type := world Config -> result A * world Config.

Definition ret {Config A} (a : A) : M Config A := fun w => (Ok a, w).

Definition bind {Config A B} (m : M Config A) (k : A -> M Config B) : M Config B :=
  fun w =>
    match m w with
    | (Ok a, w') => k a w'
    | (Raise o e, w') => (Raise o e, w')
    end.

Declare Scope py_scope.
Delimit Scope py_scope with py.
Notation "x <- m ;; k" := (bind m (fun x => k))
  (at level 61, m at next level, right associativity) : py_scope.
Notation "' p <- m ;; k" := (bind m (fun x => let 'p := x in k))
  (at level 61, p pattern, m at next level, right associativity) : py_scope.
Notation "m ;; k" := (bind m (fun _ => k))
  (at level 61, right associativity) : py_scope.
Local Open Scope py_scope.

(** [raise e] *)
Definition raise {Config A} (e : exn) : M Config A := fun w => (Raise Explicit e, w).

(** A failure of the interpreter or of a library becomes an exception. *)
Definition tag {A} (o : origin) (r : Except A) : result A :=
  match r with
  | Success a => Ok a
  | Failure e => Raise o e
  end.

(** A subscript or a local variable: the interpreter may raise. *)
Definition runtime {Config A} (r : Except A) : M Config A := fun w => (tag Runtime r, w).

(** A library call that leaves figure and configuration alone. *)
Definition lib {Config A} (r : Except A) : M Config A := fun w => (tag Library r, w).

(** A call into pyplot. *)
Definition emit {Config} (e : event) : M Config unit :=
  fun w => (Ok tt, mkWorld (w_config w) (w_trace w ++ [e])).

(** A local variable that an earlier statement may not have bound. *)
Definition local {Config A} (name : string) (v : option A) : M Config A :=
  match v with
  | Some a => ret a
  | None => runtime (Failure (UnboundLocalError name))
  end.

(** [if x is not None: body] *)
Definition if_not_None {Config A} (x : option A) (body : A -> M Config unit) : M Config unit :=
  match x with
  | Some a => body a
  | None => ret tt
  end.

(** [try: m  except(E): handler], for the exception classes [handles]
    accepts. *)
Definition try_except {Config A} (m : M Config A) (handles : exn -> bool)
    (handler : M Config A) : M Config A :=
  fun w =>
    match m w with
    | (Raise o e, w') => if handles e then handler w' else (Raise o e, w')
    | ok => ok
    end.

(** [for x in xs: s = body(x, s)] *)
Fixpoint for_each {Config X S} (xs : list X) (body : X -> S -> M Config S) (s : S)
    : M Config S :=
  match xs with
  | [] => ret s
  | x :: xs' => s' <- body x s ;; for_each xs' body s'
  end.

(** [range(n)] and [range(a, b)] *)
Definition range (n : nat) : list nat := seq 0 n.

Definition zrange (a b : Z) : list Z :=
  map (fun i => (a + Z.of_nat i)%Z) (seq 0 (Z.to_nat (b - a))).

(** [if x: body], for an optional sequence [x]: [None] and the empty
    sequence are false. *)
Definition if_truthy {Config A} (x : option (list A)) (body : list A -> M Config unit)
    : M Config unit :=
  match x with
  | Some (a :: l) => body (a :: l)
  | _ => ret tt
  end.

Definition Qltb (a b : Q) : bool := negb (Qle_bool b a).

Definition Qmax0 (a : Q) : Q := if Qle_bool a 0 then 0%Q else a.

Definition update_nth {A} (l : list A) (i : nat) (a : A) : list A :=
  firstn i l ++ a :: skipn (S i) l.

(** The times at which the series is not NaN:
    [mean['Time'][np.where(np.logical_not(np.isnan(mean)))]] *)
Definition good_times (mean : DataArray) : list Q :=
  map fst (filter (fun p => match snd p with Some _ => true | None => false end)
                  (combine (Time mean) (values mean))).

(* ================================================================== *)
(** * The module *)

Section Plotting.

Context {Config : Type} {CP : ConfigParser Config}.
Variable ext : External.

(** ** Reading the configuration *)

Definition config_get (section option : string) : M Config string :=
  fun w => (tag Library (get (w_config w) section option), w).

Definition config_getint (section option : string) : M Config Z :=
  fun w => (tag Library (getint (w_config w) section option), w).

Definition config_getboolean (section option : string) : M Config bool :=
  fun w => (tag Library (getboolean (w_config w) section option), w).

Definition config_getExpression (section option : string) (usenumpyfunc : bool)
    : M Config (list Z) :=
  fun w => (tag Library (getExpression (w_config w) section option usenumpyfunc), w).

(** [ax.get_ylim()], [ax.get_xlim()] *)
Definition get_ylim : M Config (Q * Q) :=
  fun w => (Ok (ax_get_ylim ext (w_trace w)), w).

Definition get_xlim : M Config (Q * Q) :=
  fun w => (Ok (ax_get_xlim ext (w_trace w)), w).

(** ** [_date_tick] *)

Definition _date_tick (days : Q) (pos : Z) (calendar : string) (includeMonth : bool)
    : Except string :=
  let days := Qmax0 days in
  match days_to_datetime ext days calendar with
  | Failure e => Failure e
  | Success date =>
      if includeMonth
      then Success (String.append (format_0d 4 (year date))
                      (String.append "-" (format_0d 2 (month date))))
      else Success (format_0d 4 (year date))
  end.

(** ** [plot_xtick_format] *)

Definition plot_xtick_format (calendar : string) (minDays maxDays : list Q)
    (maxXTicks : Z) : M Config unit :=
  emit EGca ;;
  lo <- lib (np_amin minDays) ;;
  start <- lib (days_to_datetime ext lo calendar) ;;
  hi <- lib (np_amax maxDays) ;;
  end_ <- lib (days_to_datetime ext hi calendar) ;;
  '(major, includeMonth) <-
    (if (year end_ - year start >? maxXTicks / 2)%Z then
       major <- for_each (zrange (year start) (year end_ + 1))
                  (fun year major =>
                     d <- lib (date_to_days ext year 1 calendar) ;;
                     ret (major ++ [d])) [] ;;
       ret (major, false)
     else
       (* add ticks for months *)
       major <- for_each (zrange (year start) (year end_ + 1))
                  (fun year major =>
                     for_each (zrange 1 13)
                       (fun month major =>
                          d <- lib (date_to_days ext year month calendar) ;;
                          ret (major ++ [d])) major) [] ;;
       ret (major, true)) ;;
  emit (ESetMajorLocator major maxXTicks) ;;
  emit (ESetMajorFormatter calendar includeMonth) ;;
  emit (ESetpRotation 30) ;;
  emit (EAutoscale "x").

(** ** [timeseries_analysis_plot] *)

Definition timeseries_analysis_plot
    (dsvalues : list (option DataArray)) (N : Z)
    (title xlabel ylabel fileout : option string)
    (lineStyles : list string) (lineWidths : list Q) (legendText : list string)
    (calendar : string) (titleFontSize : option Z) (figsize : Q * Q)
    (dpi : option Z) (maxXTicks : Z) : M Config unit :=
  dpi <- match dpi with
         | None => config_getint "plot" "dpi"
         | Some dpi => ret dpi
         end ;;
  emit (EFigure figsize dpi) ;;
  '(minDays, maxDays, mean) <-
    for_each (range (List.length dsvalues))
      (fun dsIndex st =>
         let '(minDays, maxDays, _) := st in
         dsvalue <- runtime (subscript dsvalues dsIndex) ;;
         match dsvalue with
         | None => ret st
         | Some dsvalue =>
             vals <- lib (rolling_mean ext N (values dsvalue)) ;;
             let mean := mkDataArray (Time dsvalue) vals in
             lo <- lib (np_amin (Time mean)) ;;
             let minDays := minDays ++ [lo] in
             hi <- lib (np_amax (Time mean)) ;;
             let maxDays := maxDays ++ [hi] in
             style <- runtime (subscript lineStyles dsIndex) ;;
             width <- runtime (subscript lineWidths dsIndex) ;;
             label <- runtime (subscript legendText dsIndex) ;;
             emit (EPlot (Time mean) (values mean) (Some style) None width
                         (Some label)) ;;
             ret (minDays, maxDays, Some mean)
         end)
      ([], [], None) ;;
  emit (ELegend (Some "lower left")) ;;
  emit EGca ;;
  titleFontSize <- match titleFontSize with
                   | None => s <- config_get "plot" "titleFontSize" ;; ret (SizeStr s)
                   | Some n => ret (SizeNum n)
                   end ;;
  axisSize <- config_get "plot" "axisFontSize" ;;
  let axis_font := mkFont (SizeStr axisSize) None None in
  titleColor <- config_get "plot" "titleFontColor" ;;
  titleWeight <- config_get "plot" "titleFontWeight" ;;
  let title_font := mkFont titleFontSize (Some titleColor) (Some titleWeight) in
  (* Add a y=0 line if y ranges between positive and negative values *)
  yaxLimits <- get_ylim ;;
  (if Qltb (fst yaxLimits * snd yaxLimits) 0 then
     mean <- local "mean" mean ;;
     let x := good_times mean in
     emit (EPlot x (map (fun _ => Some 0%Q) x) (Some "k-") None (12 # 10) None)
   else ret tt) ;;
  plot_xtick_format calendar minDays maxDays maxXTicks ;;
  if_not_None title (fun title => emit (ETitle title None title_font)) ;;
  if_not_None xlabel (fun xlabel => emit (EXlabel xlabel axis_font)) ;;
  if_not_None ylabel (fun ylabel => emit (EYlabel ylabel axis_font)) ;;
  if_not_None fileout (fun fileout => emit (ESavefig fileout dpi)) ;;
  displayToScreen <- config_getboolean "plot" "displayToScreen" ;;
  if negb displayToScreen then emit EClose else ret tt.

(** ** [timeseries_analysis_plot_polar] *)

(** The azimuthal tick positions, in units of pi. *)
Definition polar_tick_locs : M Config (list Q * list Q) :=
  let majorTickLocs := repeat 0%Q 12 in
  let minorTickLocs := repeat 0%Q 12 in
  let majorTickLocs := update_nth majorTickLocs 0 0%Q in
  d0 <- runtime (subscript (daysInMonth ext) 0) ;;
  let minorTickLocs := update_nth minorTickLocs 0 (d0 / 365)%Q in
  for_each (seq 1 11)
    (fun month st =>
       let '(majorTickLocs, minorTickLocs) := st in
       dprev <- runtime (subscript (daysInMonth ext) (month - 1)) ;;
       let majorTickLocs :=
         update_nth majorTickLocs month
           (nth (month - 1) majorTickLocs 0 + (dprev * 2) / 365)%Q in
       dprev' <- runtime (subscript (daysInMonth ext) (month - 1)) ;;
       dcur <- runtime (subscript (daysInMonth ext) month) ;;
       let minorTickLocs :=
         update_nth minorTickLocs month
           (nth (month - 1) minorTickLocs 0 + (dprev' + dcur) / 365)%Q in
       ret (majorTickLocs, minorTickLocs))
    (majorTickLocs, minorTickLocs).

Definition timeseries_analysis_plot_polar
    (dsvalues : list (option DataArray)) (N : Z)
    (title fileout : option string)
    (lineStyles : list string) (lineWidths : list Q) (legendText : list string)
    (titleFontSize : option Z) (figsize : Q * Q) (dpi : option Z) : M Config unit :=
  dpi <- match dpi with
         | None => config_getint "plot" "dpi"
         | Some dpi => ret dpi
         end ;;
  emit (EFigure figsize dpi) ;;
  _ <-
    for_each (range (List.length dsvalues))
      (fun dsIndex st =>
         let '(minDays, maxDays, _) := st in
         dsvalue <- runtime (subscript dsvalues dsIndex) ;;
         match dsvalue with
         | None => ret st
         | Some dsvalue =>
             vals <- lib (rolling_mean ext N (values dsvalue)) ;;
             let mean := mkDataArray (Time dsvalue) vals in
             lo <- lib (np_amin (Time mean)) ;;
             let minDays := minDays ++ [lo] in
             hi <- lib (np_amax (Time mean)) ;;
             let maxDays := maxDays ++ [hi] in
             style <- runtime (subscript lineStyles dsIndex) ;;
             width <- runtime (subscript lineWidths dsIndex) ;;
             label <- runtime (subscript legendText dsIndex) ;;
             emit (EPolar (map (fun t => (t / 365) * 2)%Q (Time mean)) (values mean)
                          style width label) ;;
             ret (minDays, maxDays, Some mean)
         end)
      (@nil Q, @nil Q, @None DataArray) ;;
  emit (ELegend (Some "lower left")) ;;
  emit EGca ;;
  (* set azimuthal axis formatting *)
  '(majorTickLocs, minorTickLocs) <- polar_tick_locs ;;
  emit (ESetXticks majorTickLocs false) ;;
  emit (ESetXticklabels [] false) ;;
  emit (ESetXticks minorTickLocs true) ;;
  emit (ESetXticklabels (abrevMonthNames ext) true) ;;
  titleFontSize <- match titleFontSize with
                   | None => s <- config_get "plot" "titleFontSize" ;; ret (SizeStr s)
                   | Some n => ret (SizeNum n)
                   end ;;
  axisSize <- config_get "plot" "axisFontSize" ;;
  titleColor <- config_get "plot" "titleFontColor" ;;
  titleWeight <- config_get "plot" "titleFontWeight" ;;
  let title_font := mkFont titleFontSize (Some titleColor) (Some titleWeight) in
  if_not_None title (fun title => emit (ETitle title None title_font)) ;;
  if_not_None fileout (fun fileout => emit (ESavefig fileout dpi)) ;;
  displayToScreen <- config_getboolean "plot" "displayToScreen" ;;
  if negb displayToScreen then emit EClose else ret tt.

(** ** [plot_polar_comparison] *)

(** The nested function [do_subplot]; the variables of the enclosing call
    it reads are its first arguments. *)
Definition do_subplot (Lons Lats : Array2D) (plotProjection : string)
    (latmin lon0 : Q) (cbarlabel : string) (axis_font : font_dict)
    (field : Array2D) (title : string) (cmap : Colormap) (norm : BoundaryNorm)
    (levels : list Z) : M Config unit :=
  emit (EBasemap plotProjection [latmin; lon0]) ;;
  emit (ESetTitle title (106 # 100) axis_font) ;;
  emit EDrawCoastlines ;;
  emit (EFillContinents "grey" "white") ;;
  emit (EDrawParallels (np_arange (-80) 81 10) None) ;;
  emit (EDrawMeridians (np_arange (-180) 181 20) [true; false; true; true]) ;;
  emit (EMapContourf Lons Lats field cmap norm levels None) ;;
  emit (EColorbar "right" (Some "3%") (Some levels) (Some levels)) ;;
  emit (ECbarLabel cbarlabel).

Definition plot_polar_comparison
    (Lons Lats modelArray obsArray diffArray : Array2D)
    (cmapModelObs : Colormap) (clevsModelObs : list Z)
    (cmapDiff : Colormap) (clevsDiff : list Z)
    (fileout title : option string) (plotProjection : string) (latmin lon0 : Q)
    (modelTitle obsTitle diffTitle cbarlabel : string)
    (titleFontSize : option Z) (figsize : option (Q * Q)) (dpi : option Z)
    (vertical : bool) : M Config unit :=
  dpi <- match dpi with
         | None => config_getint "plot" "dpi"
         | Some dpi => ret dpi
         end ;;
  let '(figsize, subplots) :=
    if vertical then
      (match figsize with None => (8, 22)%Q | Some f => f end, [311; 312; 313]%Z)
    else
      (match figsize with None => (22, 85 # 10)%Q | Some f => f end, [131; 132; 133]%Z) in
  emit (EFigure figsize dpi) ;;
  if_not_None title
    (fun title =>
       titleFontSize <- match titleFontSize with
                        | None => s <- config_get "plot" "titleFontSize" ;; ret (SizeStr s)
                        | Some n => ret (SizeNum n)
                        end ;;
       titleColor <- config_get "plot" "titleFontColor" ;;
       titleWeight <- config_get "plot" "titleFontWeight" ;;
       let title_font := mkFont titleFontSize (Some titleColor) (Some titleWeight) in
       emit (ESuptitle title (95 # 100) title_font)) ;;
  axisSize <- config_get "plot" "axisFontSize" ;;
  let axis_font := mkFont (SizeStr axisSize) None None in
  let normModelObs := mkBoundaryNorm clevsModelObs (cmap_N cmapModelObs) in
  let normDiff := mkBoundaryNorm clevsDiff (cmap_N cmapDiff) in
  sp <- runtime (subscript subplots 0) ;;
  emit (ESubplot (SubplotCode sp)) ;;
  do_subplot Lons Lats plotProjection latmin lon0 cbarlabel axis_font
    modelArray modelTitle cmapModelObs normModelObs clevsModelObs ;;
  sp <- runtime (subscript subplots 1) ;;
  emit (ESubplot (SubplotCode sp)) ;;
  do_subplot Lons Lats plotProjection latmin lon0 cbarlabel axis_font
    obsArray obsTitle cmapModelObs normModelObs clevsModelObs ;;
  sp <- runtime (subscript subplots 2) ;;
  emit (ESubplot (SubplotCode sp)) ;;
  do_subplot Lons Lats plotProjection latmin lon0 cbarlabel axis_font
    diffArray diffTitle cmapDiff normDiff clevsDiff ;;
  emit (ETightLayout 4) ;;
  (if vertical then emit (ESubplotsAdjust (9 # 10)) else ret tt) ;;
  if_not_None fileout (fun fileout => emit (ESavefig fileout dpi)) ;;
  displayToScreen <- config_getboolean "plot" "displayToScreen" ;;
  if negb displayToScreen then emit EClose else ret tt.

(** ** [plot_global_comparison] *)

Definition plot_global_comparison
    (Lons Lats modelArray obsArray diffArray : Array2D)
    (cmapModelObs : Colormap) (clevsModelObs : list Z)
    (cmapDiff : Colormap) (clevsDiff : list Z)
    (fileout title : option string)
    (modelTitle obsTitle diffTitle cbarlabel : string)
    (titleFontSize : option Z) (figsize : Q * Q) (dpi : option Z) : M Config unit :=
  (* set up figure *)
  dpi <- match dpi with
         | None => config_getint "plot" "dpi"
         | Some dpi => ret dpi
         end ;;
  emit (EFigure figsize dpi) ;;
  if_not_None title
    (fun title =>
       titleFontSize <- match titleFontSize with
                        | None => s <- config_get "plot" "titleFontSize" ;; ret (SizeStr s)
                        | Some n => ret (SizeNum n)
                        end ;;
       titleColor <- config_get "plot" "titleFontColor" ;;
       titleWeight <- config_get "plot" "titleFontWeight" ;;
       let title_font := mkFont titleFontSize (Some titleColor) (Some titleWeight) in
       emit (ESuptitle title (95 # 100) title_font)) ;;
  axisSize <- config_get "plot" "axisFontSize" ;;
  let axis_font := mkFont (SizeStr axisSize) None None in
  emit (EBasemap "cyl" [-85; 86; -180; 181]%Q) ;;
  let normModelObs := mkBoundaryNorm clevsModelObs (cmap_N cmapModelObs) in
  let normDiff := mkBoundaryNorm clevsDiff (cmap_N cmapDiff) in

  emit (ESubplot (SubplotGrid 3 1 1)) ;;
  emit (ETitle modelTitle (Some (106 # 100)%Q) axis_font) ;;
  emit EDrawCoastlines ;;
  emit (EFillContinents "grey" "white") ;;
  emit (EDrawParallels (np_arange (-80) 80 20) (Some [true; false; false; false])) ;;
  emit (EDrawMeridians (np_arange (-180) 180 60) [false; false; false; true]) ;;
  emit (EMapContourf Lons Lats modelArray cmapModelObs normModelObs clevsModelObs
          (Some "both")) ;;
  emit (EColorbar "right" (Some "5%") (Some clevsModelObs) (Some clevsModelObs)) ;;
  emit (ECbarLabel cbarlabel) ;;

  emit (ESubplot (SubplotGrid 3 1 2)) ;;
  emit (ETitle obsTitle (Some (106 # 100)%Q) axis_font) ;;
  emit EDrawCoastlines ;;
  emit (EFillContinents "grey" "white") ;;
  emit (EDrawParallels (np_arange (-80) 80 20) (Some [true; false; false; false])) ;;
  emit (EDrawMeridians (np_arange (-180) 180 40) [false; false; false; true]) ;;
  emit (EMapContourf Lons Lats obsArray cmapModelObs normModelObs clevsModelObs
          (Some "both")) ;;
  emit (EColorbar "right" (Some "5%") (Some clevsModelObs) (Some clevsModelObs)) ;;
  emit (ECbarLabel cbarlabel) ;;

  emit (ESubplot (SubplotGrid 3 1 3)) ;;
  emit (ETitle diffTitle (Some (106 # 100)%Q) axis_font) ;;
  emit EDrawCoastlines ;;
  emit (EFillContinents "grey" "white") ;;
  emit (EDrawParallels (np_arange (-80) 80 20) (Some [true; false; false; false])) ;;
  emit (EDrawMeridians (np_arange (-180) 180 40) [false; false; false; true]) ;;
  emit (EMapContourf Lons Lats diffArray cmapDiff normDiff clevsDiff (Some "both")) ;;
  emit (EColorbar "right" (Some "5%") (Some clevsDiff) (Some clevsModelObs)) ;;
  emit (ECbarLabel cbarlabel) ;;

  if_not_None fileout (fun fileout => emit (ESavefig fileout dpi)) ;;
  displayToScreen <- config_getboolean "plot" "displayToScreen" ;;
  if negb displayToScreen then emit EClose else ret tt.

(** ** [plot_1D] *)

Definition plot_1D
    (xArrays : list (option (list Q))) (fieldArrays : list (list value))
    (errArrays : list (option (list value)))
    (lineColors : list string) (lineWidths : list Q) (legendText : list string)
    (title xlabel ylabel fileout : option string)
    (figsize : Q * Q) (dpi : option Z) (xLim yLim : option (list Q))
    (invertYAxis : bool) : M Config unit :=
  (* set up figure *)
  dpi <- match dpi with
         | None => config_getint "plot" "dpi"
         | Some dpi => ret dpi
         end ;;
  emit (EFigure figsize dpi) ;;
  dsIndex <-
    for_each (range (List.length xArrays))
      (fun dsIndex _ =>
         xArray <- runtime (subscript xArrays dsIndex) ;;
         fieldArray <- runtime (subscript fieldArrays dsIndex) ;;
         errArray <- runtime (subscript errArrays dsIndex) ;;
         match xArray with
         | None => ret (Some dsIndex)
         | Some xArray =>
             match errArray with
             | None =>
                 color <- runtime (subscript lineColors dsIndex) ;;
                 width <- runtime (subscript lineWidths dsIndex) ;;
                 label <- runtime (subscript legendText dsIndex) ;;
                 emit (EPlot xArray fieldArray None (Some color) width (Some label))
             | Some errArray =>
                 color <- runtime (subscript lineColors dsIndex) ;;
                 width <- runtime (subscript lineWidths dsIndex) ;;
                 label <- runtime (subscript legendText dsIndex) ;;
                 emit (EPlot xArray fieldArray None (Some color) width (Some label)) ;;
                 upper <- lib (np_binop Qplus fieldArray errArray) ;;
                 color <- runtime (subscript lineColors dsIndex) ;;
                 emit (EFillBetween xArray fieldArray upper color (2 # 10)) ;;
                 lower <- lib (np_binop Qminus fieldArray errArray) ;;
                 color <- runtime (subscript lineColors dsIndex) ;;
                 emit (EFillBetween xArray fieldArray lower color (2 # 10))
             end ;;
             ret (Some dsIndex)
         end)
      None ;;
  emit EGrid ;;
  emit (EAxhline 0 "-" "k") ;;  (* horizontal lines *)
  dsIndex <- local "dsIndex" dsIndex ;;
  (if Nat.ltb 0 dsIndex then emit (ELegend None) else ret tt) ;;
  axisSize <- config_get "plot" "axisFontSize" ;;
  let axis_font := mkFont (SizeStr axisSize) None None in
  titleSize <- config_get "plot" "titleFontSize" ;;
  titleColor <- config_get "plot" "titleFontColor" ;;
  titleWeight <- config_get "plot" "titleFontWeight" ;;
  let title_font := mkFont (SizeStr titleSize) (Some titleColor) (Some titleWeight) in
  if_not_None title (fun title => emit (ETitle title None title_font)) ;;
  if_not_None xlabel (fun xlabel => emit (EXlabel xlabel axis_font)) ;;
  if_not_None ylabel (fun ylabel => emit (EYlabel ylabel axis_font)) ;;
  (if invertYAxis then emit EGca ;; emit EInvertYaxis else ret tt) ;;
  if_truthy xLim (fun xLim => emit (EXlim xLim)) ;;
  if_truthy yLim (fun yLim => emit (EYlim yLim)) ;;
  if_not_None fileout (fun fileout => emit (ESavefig fileout dpi)) ;;
  displayToScreen <- config_getboolean "plot" "displayToScreen" ;;
  if negb displayToScreen then emit EClose else ret tt.

(** ** [plot_vertical_section] *)

(** The moving averages with respect to the x dimension (the body of
    [if N is not None and N != 1]): the new [xArray] and [fieldArray]. *)
Definition moving_average (N : Z) (xArray depthArray : list Q) (fieldArray : Array2D)
    : M Config (list Q * Array2D) :=
  movingAverageDepthSlices <-
    for_each (range (List.length depthArray))
      (fun nVertLevel movingAverageDepthSlices =>
         depthSlice <- lib (subscript (rows fieldArray) nVertLevel) ;;
         mean <- lib (rolling_mean ext N depthSlice) ;;
         let mean := trim_window N mean in
         ret (movingAverageDepthSlices ++ [mean]))
      [] ;;
  let xArray := trim_window N xArray in
  ret (xArray, from_rows movingAverageDepthSlices).

Definition plot_vertical_section
    (xArray depthArray : list Q) (fieldArray : Array2D)
    (colormapName : Colormap) (colorbarLevels contourLevels : option (list Z))
    (colorbarLabel title xlabel ylabel fileout : option string)
    (figsize : Q * Q) (dpi : option Z) (xLim yLim : option (list Q))
    (linewidths : Q) (invertYAxis xArrayIsTime : bool) (N : option Z)
    (maxXTicks : Z) (calendar : string) : M Config unit :=
  (* verify that the dimensions of fieldArray are consistent with those of
     xArray and depthArray *)
  (if negb (Nat.eqb (List.length xArray) (shape1 fieldArray)) then
     raise (ValueError "size mismatch between xArray and fieldArray")
   else if negb (Nat.eqb (List.length depthArray) (shape0 fieldArray)) then
     raise (ValueError "size mismatch between depthArray and fieldArray")
   else ret tt) ;;
  (* set up figure *)
  dpi <- match dpi with
         | None => config_getint "plot" "dpi"
         | Some dpi => ret dpi
         end ;;
  emit (EFigure figsize dpi) ;;
  '(xArray, fieldArray) <-
    match N with
    | Some N =>
        if negb (N =? 1)%Z
        then moving_average N xArray depthArray fieldArray
        else ret (xArray, fieldArray)
    | None => ret (xArray, fieldArray)
    end ;;
  let '(x, y) := np_meshgrid xArray depthArray in  (* change to zMid *)
  let normModelObs :=
    match colorbarLevels with
    | None => None
    | Some levels => Some (mkBoundaryNorm levels (cmap_N colormapName))
    end in
  emit (EContourf x y fieldArray colormapName normModelObs colorbarLevels "both") ;;
  if_not_None contourLevels
    (fun contourLevels =>
       let contourLevels :=
         if Nat.eqb (List.length contourLevels) 0
         then None  (* automatic calculation of contour levels *)
         else Some contourLevels in
       emit (EContour x y fieldArray contourLevels "k" linewidths)) ;;
  emit (EColorbar "vertical" None colorbarLevels colorbarLevels) ;;
  if_not_None colorbarLabel (fun colorbarLabel => emit (ECbarLabel colorbarLabel)) ;;
  axisSize <- config_get "plot" "axisFontSize" ;;
  let axis_font := mkFont (SizeStr axisSize) None None in
  titleSize <- config_get "plot" "titleFontSize" ;;
  titleColor <- config_get "plot" "titleFontColor" ;;
  titleWeight <- config_get "plot" "titleFontWeight" ;;
  let title_font := mkFont (SizeStr titleSize) (Some titleColor) (Some titleWeight) in
  if_not_None title (fun title => emit (ETitle title None title_font)) ;;
  if_not_None xlabel (fun xlabel => emit (EXlabel xlabel axis_font)) ;;
  if_not_None ylabel (fun ylabel => emit (EYlabel ylabel axis_font)) ;;
  (if invertYAxis then emit EGca ;; emit EInvertYaxis else ret tt) ;;
  if_truthy xLim (fun xLim => emit (EXlim xLim)) ;;
  if_truthy yLim (fun yLim => emit (EYlim yLim)) ;;
  (if xArrayIsTime then
     first <- runtime (py_index xArray 0) ;;
     let minDays := [first] in
     last_ <- runtime (py_index xArray (-1)) ;;
     let maxDays := [last_] in
     plot_xtick_format calendar minDays maxDays maxXTicks
   else ret tt) ;;
  if_not_None fileout (fun fileout => emit (ESavefig fileout dpi)) ;;
  displayToScreen <- config_getboolean "plot" "displayToScreen" ;;
  if negb displayToScreen then emit EClose else ret tt.

(** ** [setup_colormap] *)

Definition setup_colormap (configSectionName suffix : string)
    : M Config (Colormap * option (list Z)) :=
  name <- config_get configSectionName (String.append "colormapName" suffix) ;;
  colormap <- lib (get_cmap ext name) ;;
  indices <- config_getExpression configSectionName
               (String.append "colormapIndices" suffix) true ;;
  colorbarLevels <-
    try_except
      (levels <- config_getExpression configSectionName
                   (String.append "colorbarLevels" suffix) true ;;
       ret (Some levels))
      is_NoOptionError
      (ret None) ;;
  match colorbarLevels with
  | Some levels =>
      (* set under/over values based on the first/last indices in the
         colormap *)
      first <- runtime (py_index indices 0) ;;
      let underColor := cmap_call colormap first in
      last_ <- runtime (py_index indices (-1)) ;;
      let overColor := cmap_call colormap last_ in
      indices <-
        (if Nat.eqb (List.length levels + 1) (List.length indices) then
           (* we have 2 extra values for the under/over so make the colormap
              without these values *)
           ret (py_slice indices 1 (-1))
         else if negb (Z.eqb (Z.of_nat (List.length levels) - 1)
                             (Z.of_nat (List.length indices))) then
           (* indices list must be either one element shorter
              or one element longer than colorbarLevels list *)
           raise (ValueError "length mismatch between indices and colorbarLevels")
         else ret indices) ;;
      let colormap := ListedColormap (map (cmap_call colormap) indices)
                        (String.append "colormapName" suffix) None None in
      let colormap := set_under colormap underColor in
      let colormap := set_over colormap overColor in
      ret (colormap, colorbarLevels)
  | None => ret (colormap, colorbarLevels)
  end.

(** ** [plot_size_y_axis] *)

(** [a - x] for an array and a scalar: NaN stays NaN, and the difference
    of two floats is rounded. *)
Definition np_sub_scalar (a : list value) (x : Q) : list value :=
  map (option_map (fun y => float_sub ext y x)) a.

(** [np.abs(a)]; the absolute value of a float is exact. *)
Definition np_abs (a : list value) : list value := map (option_map Qabs) a.

(** [a.argmin()]: the index of the first NaN if there is one, else of the
    first smallest element. *)
Fixpoint argmin_from (i best : nat) (m : Q) (l : list value) : nat :=
  match l with
  | [] => best
  | None :: _ => i
  | Some x :: l' =>
      if Qltb x m then argmin_from (S i) i x l' else argmin_from (S i) best m l'
  end.

Definition argmin (l : list value) : Except nat :=
  match l with
  | [] => Failure (ValueError "attempt to get argmin of an empty sequence")
  | None :: _ => Success 0%nat
  | Some x :: l' => Success (argmin_from 1 0 x l')
  end.

(** [a.max()]: NaN if the array holds one; an empty array has no maximum. *)
Definition np_max (l : list value) : Except value :=
  match l, numbers l with
  | [], _ => Failure (ValueError
      "zero-size array to reduction operation maximum which has no identity")
  | _, Some (x :: l') => Success (Some (Qmax_list x l'))
  | _, _ => Success None
  end.

(** Python's [max(a, b)]: [b] if [b > a], else [a]; a comparison with NaN
    is false. *)
Definition py_max (a b : value) : value :=
  match a, b with
  | Some x, Some y => if Qltb x y then b else a
  | _, _ => a
  end.

Definition plot_size_y_axis (xaxisValues : list value)
    (data : list (string * list value)) : M Config value :=
  emit EGca ;;
  xlim <- get_xlim ;;
  let xmin := fst xlim in
  xlim' <- get_xlim ;;
  let xmax := snd xlim' in
  (* find period/frequency bounds for chosen xmin/xmax *)
  minIndex <- lib (argmin (np_abs (np_sub_scalar xaxisValues xmin))) ;;
  maxIndex <- lib (argmin (np_abs (np_sub_scalar xaxisValues xmax))) ;;
  (* find maximum value of three curves plotted *)
  let maxCurveVal := Some (- (100000000000000000000))%Q in
  for_each data
    (fun entry maxCurveVal =>
       maxTemp <- lib (np_max (py_slice (snd entry)
                                 (Z.of_nat minIndex) (Z.of_nat maxIndex))) ;;
       ret (py_max maxTemp maxCurveVal))
    maxCurveVal.

End Plotting.

(* ================================================================== *)
(** * Calls into the module *)

(** A call of one of the six plotting routines, with its arguments. *)
Inductive plot_call : Type :=
| TimeseriesAnalysisPlot
    (dsvalues : list (option DataArray)) (N : Z)
    (title xlabel ylabel fileout : option string)
    (lineStyles : list string) (lineWidths : list Q) (legendText : list string)
    (calendar : string) (titleFontSize : option Z) (figsize : Q * Q)
    (dpi : option Z) (maxXTicks : Z)
| TimeseriesAnalysisPlotPolar
    (dsvalues : list (option DataArray)) (N : Z)
    (title fileout : option string)
    (lineStyles : list string) (lineWidths : list Q) (legendText : list string)
    (titleFontSize : option Z) (figsize : Q * Q) (dpi : option Z)
| PlotPolarComparison
    (Lons Lats modelArray obsArray diffArray : Array2D)
    (cmapModelObs : Colormap) (clevsModelObs : list Z)
    (cmapDiff : Colormap) (clevsDiff : list Z)
    (fileout title : option string) (plotProjection : string) (latmin lon0 : Q)
    (modelTitle obsTitle diffTitle cbarlabel : string)
    (titleFontSize : option Z) (figsize : option (Q * Q)) (dpi : option Z)
    (vertical : bool)
| PlotGlobalComparison
    (Lons Lats modelArray obsArray diffArray : Array2D)
    (cmapModelObs : Colormap) (clevsModelObs : list Z)
    (cmapDiff : Colormap) (clevsDiff : list Z)
    (fileout title : option string)
    (modelTitle obsTitle diffTitle cbarlabel : string)
    (titleFontSize : option Z) (figsize : Q * Q) (dpi : option Z)
| Plot1D
    (xArrays : list (option (list Q))) (fieldArrays : list (list value))
    (errArrays : list (option (list value)))
    (lineColors : list string) (lineWidths : list Q) (legendText : list string)
    (title xlabel ylabel fileout : option string)
    (figsize : Q * Q) (dpi : option Z) (xLim yLim : option (list Q))
    (invertYAxis : bool)
| PlotVerticalSection
    (xArray depthArray : list Q) (fieldArray : Array2D)
    (colormapName : Colormap) (colorbarLevels contourLevels : option (list Z))
    (colorbarLabel title xlabel ylabel fileout : option string)
    (figsize : Q * Q) (dpi : option Z) (xLim yLim : option (list Q))
    (linewidths : Q) (invertYAxis xArrayIsTime : bool) (N : option Z)
    (maxXTicks : Z) (calendar : string).

Definition run_plot_call {Config} {CP : ConfigParser Config} (ext : External)
    (c : plot_call) : M Config unit :=
  match c with
  | TimeseriesAnalysisPlot dsvalues N title xlabel ylabel fileout lineStyles
      lineWidths legendText calendar titleFontSize figsize dpi maxXTicks =>
      timeseries_analysis_plot ext dsvalues N title xlabel ylabel fileout lineStyles
        lineWidths legendText calendar titleFontSize figsize dpi maxXTicks
  | TimeseriesAnalysisPlotPolar dsvalues N title fileout lineStyles lineWidths
      legendText titleFontSize figsize dpi =>
      timeseries_analysis_plot_polar ext dsvalues N title fileout lineStyles
        lineWidths legendText titleFontSize figsize dpi
  | PlotPolarComparison Lons Lats modelArray obsArray diffArray cmapModelObs
      clevsModelObs cmapDiff clevsDiff fileout title plotProjection latmin lon0
      modelTitle obsTitle diffTitle cbarlabel titleFontSize figsize dpi vertical =>
      plot_polar_comparison Lons Lats modelArray obsArray diffArray cmapModelObs
        clevsModelObs cmapDiff clevsDiff fileout title plotProjection latmin lon0
        modelTitle obsTitle diffTitle cbarlabel titleFontSize figsize dpi vertical
  | PlotGlobalComparison Lons Lats modelArray obsArray diffArray cmapModelObs
      clevsModelObs cmapDiff clevsDiff fileout title modelTitle obsTitle diffTitle
      cbarlabel titleFontSize figsize dpi =>
      plot_global_comparison Lons Lats modelArray obsArray diffArray cmapModelObs
        clevsModelObs cmapDiff clevsDiff fileout title modelTitle obsTitle diffTitle
        cbarlabel titleFontSize figsize dpi
  | Plot1D xArrays fieldArrays errArrays lineColors lineWidths legendText title
      xlabel ylabel fileout figsize dpi xLim yLim invertYAxis =>
      plot_1D xArrays fieldArrays errArrays lineColors lineWidths legendText title
        xlabel ylabel fileout figsize dpi xLim yLim invertYAxis
  | PlotVerticalSection xArray depthArray fieldArray colormapName colorbarLevels
      contourLevels colorbarLabel title xlabel ylabel fileout figsize dpi xLim yLim
      linewidths invertYAxis xArrayIsTime N maxXTicks calendar =>
      plot_vertical_section ext xArray depthArray fieldArray colormapName
        colorbarLevels contourLevels colorbarLabel title xlabel ylabel fileout
        figsize dpi xLim yLim linewidths invertYAxis xArrayIsTime N maxXTicks
        calendar
  end.

(** The arguments the properties below speak about. *)
Definition call_fileout (c : plot_call) : option string :=
  match c with
  | TimeseriesAnalysisPlot _ _ _ _ _ fileout _ _ _ _ _ _ _ _ => fileout
  | TimeseriesAnalysisPlotPolar _ _ _ fileout _ _ _ _ _ _ => fileout
  | PlotPolarComparison _ _ _ _ _ _ _ _ _ fileout _ _ _ _ _ _ _ _ _ _ _ _ => fileout
  | PlotGlobalComparison _ _ _ _ _ _ _ _ _ fileout _ _ _ _ _ _ _ _ => fileout
  | Plot1D _ _ _ _ _ _ _ _ _ fileout _ _ _ _ _ => fileout
  | PlotVerticalSection _ _ _ _ _ _ _ _ _ _ fileout _ _ _ _ _ _ _ _ _ _ => fileout
  end.

Definition call_dpi (c : plot_call) : option Z :=
  match c with
  | TimeseriesAnalysisPlot _ _ _ _ _ _ _ _ _ _ _ _ dpi _ => dpi
  | TimeseriesAnalysisPlotPolar _ _ _ _ _ _ _ _ _ dpi => dpi
  | PlotPolarComparison _ _ _ _ _ _ _ _ _ _ _ _ _ _ _ _ _ _ _ _ dpi _ => dpi
  | PlotGlobalComparison _ _ _ _ _ _ _ _ _ _ _ _ _ _ _ _ _ dpi => dpi
  | Plot1D _ _ _ _ _ _ _ _ _ _ _ dpi _ _ _ => dpi
  | PlotVerticalSection _ _ _ _ _ _ _ _ _ _ _ _ dpi _ _ _ _ _ _ _ _ => dpi
  end.

(** The [titleFontSize] argument; [plot_1D] and [plot_vertical_section]
    have none and always read the configuration. *)
Definition call_titleFontSize (c : plot_call) : option Z :=
  match c with
  | TimeseriesAnalysisPlot _ _ _ _ _ _ _ _ _ _ titleFontSize _ _ _ => titleFontSize
  | TimeseriesAnalysisPlotPolar _ _ _ _ _ _ _ titleFontSize _ _ => titleFontSize
  | PlotPolarComparison _ _ _ _ _ _ _ _ _ _ _ _ _ _ _ _ _ _ titleFontSize _ _ _ =>
      titleFontSize
  | PlotGlobalComparison _ _ _ _ _ _ _ _ _ _ _ _ _ _ _ titleFontSize _ _ =>
      titleFontSize
  | Plot1D _ _ _ _ _ _ _ _ _ _ _ _ _ _ _ => None
  | PlotVerticalSection _ _ _ _ _ _ _ _ _ _ _ _ _ _ _ _ _ _ _ _ _ => None
  end.

(** The [title] argument. *)
Definition call_title (c : plot_call) : option string :=
  match c with
  | TimeseriesAnalysisPlot _ _ title _ _ _ _ _ _ _ _ _ _ _ => title
  | TimeseriesAnalysisPlotPolar _ _ title _ _ _ _ _ _ _ => title
  | PlotPolarComparison _ _ _ _ _ _ _ _ _ _ title _ _ _ _ _ _ _ _ _ _ _ => title
  | PlotGlobalComparison _ _ _ _ _ _ _ _ _ _ title _ _ _ _ _ _ _ => title
  | Plot1D _ _ _ _ _ _ title _ _ _ _ _ _ _ _ => title
  | PlotVerticalSection _ _ _ _ _ _ _ title _ _ _ _ _ _ _ _ _ _ _ _ _ => title
  end.

(** The error [plot_vertical_section] raises on its arguments, if any. *)
Definition shape_error (c : plot_call) : option exn :=
  match c with
  | PlotVerticalSection xArray depthArray fieldArray _ _ _ _ _ _ _ _ _ _ _ _ _ _ _ _ _ _ =>
      if negb (Nat.eqb (List.length xArray) (shape1 fieldArray)) then
        Some (ValueError "size mismatch between xArray and fieldArray")
      else if negb (Nat.eqb (List.length depthArray) (shape0 fieldArray)) then
        Some (ValueError "size mismatch between depthArray and fieldArray")
      else None
  | _ => None
  end.

(** A call of any routine of the module that takes the configuration or
    the plot handle. *)
Inductive module_call : Type :=
| Plotting (c : plot_call)
| SetupColormap (configSectionName suffix : string)
| PlotXtickFormat (calendar : string) (minDays maxDays : list Q) (maxXTicks : Z)
| PlotSizeYAxis (xaxisValues : list value) (data : list (string * list value)).

(** Run a call and forget the value it returns. *)
Definition void {Config A} (m : M Config A) : M Config unit := _ <- m ;; ret tt.

Definition run_module_call {Config} {CP : ConfigParser Config} (ext : External)
    (c : module_call) : M Config unit :=
  match c with
  | Plotting c => run_plot_call ext c
  | SetupColormap configSectionName suffix =>
      void (setup_colormap ext configSectionName suffix)
  | PlotXtickFormat calendar minDays maxDays maxXTicks =>
      plot_xtick_format ext calendar minDays maxDays maxXTicks
  | PlotSizeYAxis xaxisValues data => void (plot_size_y_axis ext xaxisValues data)
  end.

(* ================================================================== *)
(** * What a trace shows *)

(** The files written: one per [savefig]. *)
Definition saved_files (evs : list event) : list string :=
  flat_map (fun e => match e with ESavefig f _ => [f] | _ => [] end) evs.

(** The dots per inch of the figures created and the files saved. *)
Definition dpis (evs : list event) : list Z :=
  flat_map (fun e => match e with
                     | EFigure _ d => [d]
                     | ESavefig _ d => [d]
                     | _ => []
                     end) evs.

(** The sizes of the titles drawn with a [title_font], the dictionary with
    colour and weight. *)
Definition title_font_sizes (evs : list event) : list fontsize :=
  flat_map (fun e => match e with
                     | ETitle _ _ (mkFont s (Some _) _) => [s]
                     | ESuptitle _ _ (mkFont s (Some _) _) => [s]
                     | _ => []
                     end) evs.

Definition figure_sizes (evs : list event) : list (Q * Q) :=
  flat_map (fun e => match e with EFigure s _ => [s] | _ => [] end) evs.


(** The number of figures open after the calls, from [n] open before:
    [plt.figure] opens one, [plt.close()] closes the current one. *)
Fixpoint open_figures (n : nat) (evs : list event) : nat :=
  match evs with
  | [] => n
  | EFigure _ _ :: evs' => open_figures (S n) evs'
  | EClose :: evs' => open_figures (pred n) evs'
  | _ :: evs' => open_figures n evs'
  end.

(** The events the properties are about: figure, panels, titles, file and
    close. *)
Inductive kev : Type :=
| KFigure (figsize : Q * Q) (dpi : Z)
| KSubplot (spec : subplot_spec)
| KTitle (font : font_dict)
| KSavefig (fileout : string) (dpi : Z)
| KClose.

Definition key (e : event) : list kev :=
  match e with
  | EFigure s d => [KFigure s d]
  | ESubplot s => [KSubplot s]
  | ETitle _ _ f => [KTitle f]
  | ESuptitle _ _ f => [KTitle f]
  | ESavefig f d => [KSavefig f d]
  | EClose => [KClose]
  | _ => []
  end.

Definition keyevs (evs : list event) : list kev := flat_map key evs.

Definition k_saved_files (ks : list kev) : list string :=
  flat_map (fun k => match k with KSavefig f _ => [f] | _ => [] end) ks.

Definition k_dpis (ks : list kev) : list Z :=
  flat_map (fun k => match k with
                     | KFigure _ d => [d]
                     | KSavefig _ d => [d]
                     | _ => []
                     end) ks.

Definition k_title_font_sizes (ks : list kev) : list fontsize :=
  flat_map (fun k => match k with
                     | KTitle (mkFont s (Some _) _) => [s]
                     | _ => []
                     end) ks.

Definition k_figure_sizes (ks : list kev) : list (Q * Q) :=
  flat_map (fun k => match k with KFigure s _ => [s] | _ => [] end) ks.


Fixpoint k_open_figures (n : nat) (ks : list kev) : nat :=
  match ks with
  | [] => n
  | KFigure _ _ :: ks' => k_open_figures (S n) ks'
  | KClose :: ks' => k_open_figures (pred n) ks'
  | _ :: ks' => k_open_figures n ks'
  end.

(** ** The key events a plotting call is expected to produce *)

Section Expected.

Context {Config : Type} {CP : ConfigParser Config}.
Variable c : Config.

Definition cfg_str (option : string) : string :=
  match get c "plot" option with
  | Success s => s
  | Failure _ => ""
  end.

Definition cfg_dpi : Z :=
  match getint c "plot" "dpi" with
  | Success d => d
  | Failure _ => 0%Z
  end.

Definition eff_dpi (dpi : option Z) : Z :=
  match dpi with
  | Some d => d
  | None => cfg_dpi
  end.

Definition eff_title_font (titleFontSize : option Z) : font_dict :=
  mkFont (match titleFontSize with
          | Some n => SizeNum n
          | None => SizeStr (cfg_str "titleFontSize")
          end)
         (Some (cfg_str "titleFontColor")) (Some (cfg_str "titleFontWeight")).

Definition eff_axis_font : font_dict :=
  mkFont (SizeStr (cfg_str "axisFontSize")) None None.

Definition k_title (title : option string) (titleFontSize : option Z) : list kev :=
  match title with
  | Some _ => [KTitle (eff_title_font titleFontSize)]
  | None => []
  end.

Definition k_epilogue (fileout : option string) (dpi : Z) : list kev :=
  match fileout with
  | Some f => [KSavefig f dpi]
  | None => []
  end ++
  match getboolean c "plot" "displayToScreen" with
  | Success false => [KClose]
  | _ => []
  end.

Definition polar_figsize (figsize : option (Q * Q)) (vertical : bool) : Q * Q :=
  match figsize with
  | Some f => f
  | None => if vertical then (8, 22)%Q else (22, 85 # 10)%Q
  end.

Definition polar_subplots (vertical : bool) : list subplot_spec :=
  if vertical
  then [SubplotCode 311; SubplotCode 312; SubplotCode 313]
  else [SubplotCode 131; SubplotCode 132; SubplotCode 133].

Definition expected_keys (call : plot_call) : list kev :=
  match call with
  | TimeseriesAnalysisPlot _ _ title _ _ fileout _ _ _ _ titleFontSize figsize dpi _ =>
      KFigure figsize (eff_dpi dpi) :: k_title title titleFontSize
        ++ k_epilogue fileout (eff_dpi dpi)
  | TimeseriesAnalysisPlotPolar _ _ title fileout _ _ _ titleFontSize figsize dpi =>
      KFigure figsize (eff_dpi dpi) :: k_title title titleFontSize
        ++ k_epilogue fileout (eff_dpi dpi)
  | PlotPolarComparison _ _ _ _ _ _ _ _ _ fileout title _ _ _ _ _ _ _
      titleFontSize figsize dpi vertical =>
      KFigure (polar_figsize figsize vertical) (eff_dpi dpi)
        :: k_title title titleFontSize
        ++ map KSubplot (polar_subplots vertical)
        ++ k_epilogue fileout (eff_dpi dpi)
  | PlotGlobalComparison _ _ _ _ _ _ _ _ _ fileout title _ _ _ _
      titleFontSize figsize dpi =>
      KFigure figsize (eff_dpi dpi) :: k_title title titleFontSize
        ++ [KSubplot (SubplotGrid 3 1 1); KTitle eff_axis_font;
            KSubplot (SubplotGrid 3 1 2); KTitle eff_axis_font;
            KSubplot (SubplotGrid 3 1 3); KTitle eff_axis_font]
        ++ k_epilogue fileout (eff_dpi dpi)
  | Plot1D _ _ _ _ _ _ title _ _ fileout figsize dpi _ _ _ =>
      KFigure figsize (eff_dpi dpi) :: k_title title None
        ++ k_epilogue fileout (eff_dpi dpi)
  | PlotVerticalSection _ _ _ _ _ _ _ title _ _ fileout figsize dpi _ _ _ _ _ _ _ _ =>
      KFigure figsize (eff_dpi dpi) :: k_title title None
        ++ k_epilogue fileout (eff_dpi dpi)
  end.

(** ** A logic of key events *)

(** From a world with configuration [c], [m] leaves the configuration as it
    is, appends events to the trace, and the key events among them and the
    result satisfy [Q]. *)
Definition runs {A} (m : M Config A) (Q : list kev -> result A -> Prop) : Prop :=
  forall w, w_config w = c ->
    w_config (snd (m w)) = c /\
    exists evs, w_trace (snd (m w)) = w_trace w ++ evs /\
                Q (keyevs evs) (fst (m w)).

(** [m] produces no key event and no exception of the module's own. *)
Definition neutral {A} (m : M Config A) : Prop :=
  runs m (fun ks r => ks = [] /\ forall e, r <> Raise Explicit e).

(** The result of a plotting call: all the expected key events on
    completion, which takes a readable [displayToScreen]; a prefix of them
    on an exception, and no event at all before an exception the module
    raises itself. *)
Definition post {A} (full : list kev) (allowed : option exn)
    (ks : list kev) (r : result A) : Prop :=
  match r with
  | Ok _ => ks = full /\ exists b, getboolean c "plot" "displayToScreen" = Success b
  | Raise o e =>
      (exists rest, full = ks ++ rest) /\
      (o = Explicit -> allowed = Some e /\ ks = [])
  end.

End Expected.

(** The key events of a call are a prefix of the expected ones. *)
Definition key_prefix {Config} {CP : ConfigParser Config}
    (c : Config) (call : plot_call) (evs : list event) : Prop :=
  exists rest, expected_keys c call = keyevs evs ++ rest.

(** ** Accessors of a colormap *)

Definition cmap_colors (c : Colormap) : list color :=
  match c with
  | ListedColormap cs _ _ _ => cs
  | Registered _ _ => []
  end.

Definition cmap_under (c : Colormap) : option color :=
  match c with
  | ListedColormap _ _ u _ => u
  | Registered _ _ => None
  end.

Definition cmap_over (c : Colormap) : option color :=
  match c with
  | ListedColormap _ _ _ o => o
  | Registered _ _ => None
  end.

(** The errors the module raises itself: the shape check of
    [plot_vertical_section] and the length check of [setup_colormap]. *)
Definition explicit_error (call : module_call) (e : exn) : Prop :=
  match call with
  | Plotting c => shape_error c = Some e
  | SetupColormap _ _ =>
      e = ValueError "length mismatch between indices and colorbarLevels"
  | PlotXtickFormat _ _ _ _ => False
  | PlotSizeYAxis _ _ => False
  end.

(* ================================================================== *)
(** * Statements of the specification, as they are written *)

(** "The only explicit error condition is a shape mismatch between
    coordinate arrays and field arrays." *)
Definition is_shape_mismatch (e : exn) : Prop :=
  e = ValueError "size mismatch between xArray and fieldArray" \/
  e = ValueError "size mismatch between depthArray and fieldArray".

Definition only_shape_mismatch_is_raised : Prop :=
  forall (Config : Type) (CP : ConfigParser Config) (ext : External)
         (call : module_call) (w : world Config) (e : exn),
    fst (run_module_call ext call w) = Raise Explicit e -> is_shape_mismatch e.

(** "When colorbarLevels is present, setup_colormap raises a ValueError
    unless len(indices) is len(colorbarLevels)+1 or len(colorbarLevels)-1." *)
Definition setup_colormap_raises_ValueError_unless_lengths_fit : Prop :=
  forall (Config : Type) (CP : ConfigParser Config) (ext : External)
         (section suffix : string) (w : world Config)
         (name : string) (cm : Colormap) (indices levels : list Z),
    get (w_config w) section (String.append "colormapName" suffix) = Success name ->
    get_cmap ext name = Success cm ->
    getExpression (w_config w) section (String.append "colormapIndices" suffix) true
      = Success indices ->
    getExpression (w_config w) section (String.append "colorbarLevels" suffix) true
      = Success levels ->
    List.length indices <> List.length levels + 1 ->
    Z.of_nat (List.length indices) <> (Z.of_nat (List.length levels) - 1)%Z ->
    exists o msg,
      fst (setup_colormap ext section suffix w) = Raise o (ValueError msg).

(** "For every plotting call, the figure is left open for on-screen
    display if and only if the option displayToScreen is true." *)
Definition every_call_leaves_figure_open_iff_displayToScreen : Prop :=
  forall (Config : Type) (CP : ConfigParser Config) (ext : External)
         (call : plot_call) (w : world Config) (b : bool),
    getboolean (w_config w) "plot" "displayToScreen" = Success b ->
    exists evs,
      w_trace (snd (run_plot_call ext call w)) = w_trace w ++ evs /\
      forall n, open_figures n evs = if b then S n else n.

(** What the module relies on from pandas: a rolling mean has the length
    of its series. *)
Definition rolling_preserves_length (ext : External) : Prop :=
  forall N s s', rolling_mean ext N s = Success s' -> List.length s' = List.length s.

(** "For every N greater than 1, the moving average removes exactly N-1
    points from xArray and from each depth slice." *)
Definition moving_average_removes_N_minus_1_points : Prop :=
  forall (Config : Type) (CP : ConfigParser Config) (ext : External)
         (N : Z) (xArray depthArray : list Q) (fieldArray : Array2D)
         (w w' : world Config) (xArray' : list Q) (fieldArray' : Array2D),
    rolling_preserves_length ext ->
    (1 < N)%Z ->
    List.length xArray = shape1 fieldArray ->
    List.length depthArray = shape0 fieldArray ->
    wf_Array2D fieldArray ->
    moving_average ext N xArray depthArray fieldArray w
      = (Ok (xArray', fieldArray'), w') ->
    Forall (fun slice => List.length slice = List.length xArray') (rows fieldArray') /\
    Z.of_nat (List.length xArray') = (Z.of_nat (List.length xArray) - (N - 1))%Z /\
    Forall (fun slice => Z.of_nat (List.length slice)
                         = (Z.of_nat (shape1 fieldArray) - (N - 1))%Z)
           (rows fieldArray').

(* ================================================================== *)
(** * A configuration and libraries to run the module on *)

Module Sample.

(** A configuration as a table of sections and options.  An entry records
    how the option's text reads. *)
Inductive entry : Type :=
| EntStr (s : string)
| EntInt (n : Z)
| EntBool (b : bool)
| EntExpr (l : list Z).

Definition TableConfig : Type := list (string * list (string * entry)).

Fixpoint assoc {A} (k : string) (l : list (string * A)) : option A :=
  match l with
  | [] => None
  | (k', a) :: l' => if String.eqb k k' then Some a else assoc k l'
  end.

Definition lookup (c : TableConfig) (section option : string) : Except entry :=
  match assoc section c with
  | None => Failure (NoSectionError section)
  | Some opts =>
      match assoc option opts with
      | None => Failure (NoOptionError option section)
      | Some e => Success e
      end
  end.

Definition and_then {A B} (r : Except A) (f : A -> Except B) : Except B :=
  match r with
  | Success a => f a
  | Failure e => Failure e
  end.

Definition show_list (l : list Z) : string :=
  String.append "[" (String.append (String.concat ", " (map (format_0d 0) l)) "]").

Definition table_get (c : TableConfig) (section option : string) : Except string :=
  and_then (lookup c section option)
    (fun e => match e with
              | EntStr s => Success s
              | EntInt n => Success (format_0d 0 n)
              | EntBool true => Success "True"
              | EntBool false => Success "False"
              | EntExpr l => Success (show_list l)
              end).

Definition table_getint (c : TableConfig) (section option : string) : Except Z :=
  and_then (lookup c section option)
    (fun e => match e with
              | EntInt n => Success n
              | _ => Failure (ValueError "invalid literal for int() with base 10")
              end).

Definition table_getboolean (c : TableConfig) (section option : string) : Except bool :=
  and_then (lookup c section option)
    (fun e => match e with
              | EntBool b => Success b
              | _ => Failure (ValueError "Not a boolean")
              end).

Definition table_getExpression (c : TableConfig) (section option : string)
    (usenumpyfunc : bool) : Except (list Z) :=
  and_then (lookup c section option)
    (fun e => match e with
              | EntExpr l => Success l
              | _ => Failure (LibraryError "the expression is not a list of integers")
              end).

#[global] Instance TableConfigParser : ConfigParser TableConfig := {
  get := table_get;
  getint := table_getint;
  getboolean := table_getboolean;
  getExpression := table_getExpression
}.

(** A centred moving average over [N] points: the value at [i] is the mean
    of the window that ends [(N-1)//2] points after [i], and NaN where the
    window leaves the series or holds a NaN. *)
Fixpoint all_values (l : list value) : option (list Q) :=
  match l with
  | [] => Some []
  | None :: _ => None
  | Some q :: l' =>
      match all_values l' with
      | Some qs => Some (q :: qs)
      | None => None
      end
  end.

Definition window_mean (n : nat) (w : list value) : value :=
  if Nat.eqb (List.length w) n then
    match all_values w with
    | Some qs => Some (Qred (fold_left Qplus qs 0 / inject_Z (Z.of_nat n)))%Q
    | None => None
    end
  else None.

Definition rolling_center (N : Z) (vals : list value) : Except (list value) :=
  if (N <? 1)%Z then Failure (ValueError "window must be a positive integer")
  else
    let n := Z.to_nat N in
    let offset := ((n - 1) / 2)%nat in
    Success (map (fun i =>
                    let j := (i + offset)%nat in
                    if Nat.ltb (j + 1) n then None
                    else window_mean n (firstn n (skipn (j + 1 - n) vals)))
                 (seq 0 (List.length vals))).

(** A calendar of 365-day years and twelve months of 31 days, the last one
    shorter. *)
Definition days_to_datetime_365 (days : Q) (calendar : string) : Except datetime :=
  let d := Qfloor days in
  Success (mkDatetime (d / 365 + 1) (Z.min 12 ((d mod 365) / 31 + 1)))%Z.

Definition date_to_days_365 (year month : Z) (calendar : string) : Except Q :=
  Success (inject_Z ((year - 1) * 365 + (month - 1) * 31)).

(** The double nearest to a rational, ties to the even mantissa; no
    overflow. *)
Definition round_double (q : Q) : Q :=
  let n := Z.abs (Qnum q) in
  let d := Zpos (Qden q) in
  if (n =? 0)%Z then 0%Q
  else
    let e0 := (Z.log2 n - Z.log2 d - 52)%Z in
    let scaled (e : Z) : Z * Z :=
      if (0 <=? e)%Z then (n, d * 2 ^ e)%Z else (n * 2 ^ (- e), d)%Z in
    let e1 := if (fst (scaled e0) <? snd (scaled e0) * 2 ^ 52)%Z
              then (e0 - 1)%Z else e0 in
    let e := Z.max e1 (-1074) in
    let '(a, b) := scaled e in
    let m := (a / b)%Z in
    let r := (a mod b)%Z in
    let m' := if (2 * r <? b)%Z then m
              else if (b <? 2 * r)%Z then (m + 1)%Z
              else if Z.even m then m else (m + 1)%Z in
    let sign := if (Qnum q <? 0)%Z then (-1)%Z else 1%Z in
    if (0 <=? e)%Z then inject_Z (sign * m' * 2 ^ e)
    else Qred (Qmake (sign * m') (Z.to_pos (2 ^ (- e)))).

Definition registry (name : string) : Except Colormap :=
  if String.eqb name "RdYlBu_r" then Success (Registered "RdYlBu_r" 256)
  else if String.eqb name "viridis" then Success (Registered "viridis" 256)
  else Failure (ValueError "Colormap is not recognized").

Definition ext : External := {|
  rolling_mean := rolling_center;
  ax_get_ylim := fun _ => (0, 1)%Q;
  ax_get_xlim := fun _ => (0, 1)%Q;
  get_cmap := registry;
  days_to_datetime := days_to_datetime_365;
  date_to_days := date_to_days_365;
  daysInMonth := [31; 28; 31; 30; 31; 30; 31; 31; 30; 31; 30; 31]%Q;
  abrevMonthNames := ["Jan"; "Feb"; "Mar"; "Apr"; "May"; "Jun";
                      "Jul"; "Aug"; "Sep"; "Oct"; "Nov"; "Dec"];
  float_sub := fun x a => round_double (x - a)
|}.

Definition plot_section : list (string * entry) :=
  [("dpi", EntInt 200); ("titleFontSize", EntStr "20");
   ("titleFontColor", EntStr "black"); ("titleFontWeight", EntStr "normal");
   ("axisFontSize", EntStr "16"); ("displayToScreen", EntBool false)].

(** Sections for [setup_colormap]: indices two longer than they may be,
    indices that fit, no indices at all, and no levels. *)
Definition config : TableConfig :=
  [("plot", plot_section);
   ("tooManyIndices",
    [("colormapName", EntStr "RdYlBu_r");
     ("colormapIndices", EntExpr [0; 40; 80; 120; 160]%Z);
     ("colorbarLevels", EntExpr [-2; 0; 2]%Z)]);
   ("fitting",
    [("colormapName", EntStr "RdYlBu_r");
     ("colormapIndices", EntExpr [0; 40; 80; 120]%Z);
     ("colorbarLevels", EntExpr [-2; 0; 2]%Z)]);
   ("noIndices",
    [("colormapName", EntStr "RdYlBu_r");
     ("colormapIndices", EntExpr []%Z);
     ("colorbarLevels", EntExpr [0; 1]%Z)]);
   ("noLevels",
    [("colormapName", EntStr "viridis");
     ("colormapIndices", EntExpr [0; 255]%Z)])].

Definition screen_config : TableConfig :=
  [("plot",
    [("dpi", EntInt 200); ("titleFontSize", EntStr "20");
     ("titleFontColor", EntStr "black"); ("titleFontWeight", EntStr "normal");
     ("axisFontSize", EntStr "16"); ("displayToScreen", EntBool true)])].

Definition w0 : world TableConfig := mkWorld config [].

Definition series : DataArray :=
  mkDataArray [0; 365; 730; 1095]%Q [Some 1; Some 2; Some 3; Some 4]%Q.

Definition field : Array2D :=
  mkArray2D 3 [[Some 1; Some 2; Some 3]; [Some 4; Some 5; Some 6]]%Q.

Definition grid : Array2D := mkArray2D 2 [[Some 0; Some 1]; [Some 0; Some 1]]%Q.

(** One call of each plotting routine. *)
Definition timeseries_call : plot_call :=
  TimeseriesAnalysisPlot [Some series; None] 1 (Some "SST") (Some "Time") None
    (Some "sst.png") ["r-"; "b-"] [2; 2]%Q ["model"; "obs"] "gregorian"
    None (15, 6)%Q None 20.

Definition polar_call : plot_call :=
  TimeseriesAnalysisPlotPolar [Some series] 1 (Some "Ice area") (Some "ice.png")
    ["r-"] [2]%Q ["model"] None (15, 6)%Q None.

Definition polar_comparison_call (vertical : bool) : plot_call :=
  PlotPolarComparison grid grid grid grid grid
    (Registered "viridis" 256) [0; 1; 2]%Z (Registered "RdYlBu_r" 256) [-1; 0; 1]%Z
    (Some "polar.png") (Some "Ice concentration") "npstere" 50 0
    "Model" "Observations" "Model-Observations" "units" None None None vertical.

Definition global_call : plot_call :=
  PlotGlobalComparison grid grid grid grid grid
    (Registered "viridis" 256) [0; 1; 2]%Z (Registered "RdYlBu_r" 256) [-1; 0; 1]%Z
    (Some "global.png") (Some "SST") "Model" "Observations" "Model-Observations"
    "units" None (8, 12)%Q None.

Definition plot_1D_call : plot_call :=
  Plot1D [Some [0; 1; 2]%Q] [[Some 1; Some 2; Some 3]%Q] [None] ["k"] [2]%Q ["moc"]
    (Some "MOC") None None (Some "plot_1D.png") (10, 4)%Q None None None false.

Definition vertical_section_call : plot_call :=
  PlotVerticalSection [0; 1; 2]%Q [10; 20]%Q field (Registered "viridis" 256)
    (Some [0; 2; 4; 6]%Z) None None (Some "MOC") None None (Some "moc.png")
    (10, 4)%Q None None None 2 true false None 20 "gregorian".

(** A field of three columns against two x values. *)
Definition mismatched_call : plot_call :=
  PlotVerticalSection [0; 1]%Q [10; 20]%Q field (Registered "viridis" 256)
    None None None None None None (Some "moc.png")
    (10, 4)%Q None None None 2 true false None 20 "gregorian".

End Sample.


(* ================================================================== *)
(** * More observations of a trace *)

(** What an observation keeps of one event. *)
Definition see_all (e : event) : list event := [e].

Definition see_none (e : event) : list unit := [].

(** The dots per inch of the figures created. *)
Definition see_figure_dpi (e : event) : list Z :=
  match e with EFigure _ d => [d] | _ => [] end.

Definition figure_dpis (evs : list event) : list Z := flat_map see_figure_dpi evs.

(** The lines drawn with a label: format, colour, width and label. *)
Definition see_line (e : event) : list (option string * option string * Q * string) :=
  match e with
  | EPlot _ _ fmt color width (Some label) => [(fmt, color, width, label)]
  | _ => []
  end.

Definition labelled_lines (evs : list event)
    : list (option string * option string * Q * string) :=
  flat_map see_line evs.

(** The polar lines: format, width and label. *)
Definition see_polar (e : event) : list (string * Q * string) :=
  match e with
  | EPolar _ _ fmt width label => [(fmt, width, label)]
  | _ => []
  end.

Definition polar_lines (evs : list event) : list (string * Q * string) :=
  flat_map see_polar evs.

Definition see_legend (e : event) : list (option string) :=
  match e with ELegend loc => [loc] | _ => [] end.

Definition legends (evs : list event) : list (option string) :=
  flat_map see_legend evs.

(** The error bands: x, lower and upper curve. *)
Definition see_band (e : event) : list (list Q * list value * list value) :=
  match e with
  | EFillBetween x y1 y2 _ _ => [(x, y1, y2)]
  | _ => []
  end.

Definition bands (evs : list event) : list (list Q * list value * list value) :=
  flat_map see_band evs.

(** The colorbars: ticks and boundaries. *)
Definition see_colorbar (e : event) : list (option (list Z) * option (list Z)) :=
  match e with
  | EColorbar _ _ ticks bounds => [(ticks, bounds)]
  | _ => []
  end.

Definition colorbars (evs : list event) : list (option (list Z) * option (list Z)) :=
  flat_map see_colorbar evs.

(** The contour lines: their levels, [None] for automatic levels. *)
Definition see_contour (e : event) : list (option (list Z)) :=
  match e with
  | EContour _ _ _ levels _ _ => [levels]
  | _ => []
  end.

Definition contours (evs : list event) : list (option (list Z)) :=
  flat_map see_contour evs.



(** ** A logic of observations *)

Section Observations.

Context {Config : Type} {CP : ConfigParser Config} {K : Type}.
Variable see : event -> list K.
Variable c : Config.

(** From a world with configuration [c], [m] leaves the configuration as it
    is and appends events to the trace; what [see] keeps of them and the
    result satisfy [Q]. *)
Definition sees {A} (m : M Config A) (Q : list K -> result A -> Prop) : Prop :=
  forall w, w_config w = c ->
    w_config (snd (m w)) = c /\
    exists evs, w_trace (snd (m w)) = w_trace w ++ evs /\
                Q (flat_map see evs) (fst (m w)).

(** [m] does nothing that [see] keeps. *)
Definition unseen {A} (m : M Config A) : Prop :=
  sees m (fun ks _ => ks = []).

End Observations.

(** ** What the loops of the routines plot *)

(** The line of data set [i] of [timeseries_analysis_plot]. *)
Definition timeseries_line (dsvalues : list (option DataArray))
    (lineStyles : list string) (lineWidths : list Q) (legendText : list string)
    (i : nat) : list (option string * option string * Q * string) :=
  match nth_error dsvalues i with
  | Some (Some _) =>
      [(Some (nth i lineStyles ""), None, nth i lineWidths 0%Q, nth i legendText "")]
  | _ => []
  end.

Definition timeseries_polar_line (dsvalues : list (option DataArray))
    (lineStyles : list string) (lineWidths : list Q) (legendText : list string)
    (i : nat) : list (string * Q * string) :=
  match nth_error dsvalues i with
  | Some (Some _) => [(nth i lineStyles "", nth i lineWidths 0%Q, nth i legendText "")]
  | _ => []
  end.

(** The line of entry [i] of [plot_1D]. *)
Definition plot_1D_line (xArrays : list (option (list Q)))
    (lineColors : list string) (lineWidths : list Q) (legendText : list string)
    (i : nat) : list (option string * option string * Q * string) :=
  match nth_error xArrays i with
  | Some (Some _) =>
      [(None, Some (nth i lineColors ""), nth i lineWidths 0%Q, nth i legendText "")]
  | _ => []
  end.

(** The two error bands of entry [i] of [plot_1D]: from the field up to
    field plus error and down to field minus error. *)
Definition plot_1D_band (xArrays : list (option (list Q)))
    (fieldArrays : list (list value)) (errArrays : list (option (list value)))
    (i : nat) : list (list Q * list value * list value) :=
  match nth_error xArrays i, nth_error fieldArrays i, nth_error errArrays i with
  | Some (Some x), Some field, Some (Some err) =>
      match np_binop Qplus field err, np_binop Qminus field err with
      | Success upper, Success lower => [(x, field, upper); (x, field, lower)]
      | _, _ => []
      end
  | _, _, _ => []
  end.

Definition is_Some_b {A} (x : option A) : bool :=
  match x with Some _ => true | None => false end.

(** ** More configurations *)

Module Sample2.

(** The sample configuration without one option of section [plot]. *)
Definition without (option : string) : Sample.TableConfig :=
  [("plot", filter (fun p => negb (String.eqb (fst p) option)) Sample.plot_section)].

Definition world_without (option : string) : world Sample.TableConfig :=
  mkWorld (without option) [].

(** Axes whose x limits are the two ends of [0, 1, 2, 3]. *)
Definition wide_axes : External := {|
  rolling_mean := Sample.rolling_center;
  ax_get_ylim := fun _ => (0, 1)%Q;
  ax_get_xlim := fun _ => (0, 3)%Q;
  get_cmap := Sample.registry;
  days_to_datetime := Sample.days_to_datetime_365;
  date_to_days := Sample.date_to_days_365;
  daysInMonth := daysInMonth Sample.ext;
  abrevMonthNames := abrevMonthNames Sample.ext;
  float_sub := float_sub Sample.ext
|}.

(** Axes whose x limits are far from the small x value of
    [2e16, 0.5, 3e16]. *)
Definition far_axes : External := {|
  rolling_mean := Sample.rolling_center;
  ax_get_ylim := fun _ => (0, 1)%Q;
  ax_get_xlim := fun _ => (10000000000000000, 30000000000000000)%Q;
  get_cmap := Sample.registry;
  days_to_datetime := Sample.days_to_datetime_365;
  date_to_days := Sample.date_to_days_365;
  daysInMonth := daysInMonth Sample.ext;
  abrevMonthNames := abrevMonthNames Sample.ext;
  float_sub := float_sub Sample.ext
|}.

(** The sample configuration with [displayToScreen] true. *)
Definition screen_world : world Sample.TableConfig :=
  mkWorld Sample.screen_config [].

(** A section whose colormap pyplot does not know, and one without
    indices. *)
Definition colormap_config : Sample.TableConfig :=
  [("unknownName", [("colormapName", Sample.EntStr "jet2")]);
   ("nameOnly", [("colormapName", Sample.EntStr "viridis")])].

(** Two curves, the first with an error array. *)
Definition plot_1D_two : plot_call :=
  Plot1D [Some [0; 1]%Q; Some [0; 1]%Q] [[Some 1; Some 2]%Q; [Some 3; Some 4]%Q]
    [Some [Some 1; Some 1]%Q; None] ["r"; "b"] [2; 1]%Q ["model"; "obs"]
    (Some "MOC") None None (Some "plot_1D.png") (10, 4)%Q None None None false.

Definition hovmoller_call (N : option Z) : plot_call :=
  PlotVerticalSection [0; 365; 730]%Q [10; 20]%Q Sample.field
    (Registered "viridis" 256) None (Some []) None (Some "T") None None
    (Some "hovmoller.png") (10, 4)%Q None None None 2 true true N 20 "gregorian".

End Sample2.
Unset Implicit Arguments.

(* ================================================================== *)
(** * Python sequences and slices *)

Lemma clamp_bound_le (len : nat) (i : Z) : clamp_bound len i <= len.
Proof.
  unfold clamp_bound. destruct (Z.ltb_spec i 0); lia.
Qed.

Lemma py_slice_length {A} (l : list A) (start stop : Z) :
  List.length (py_slice l start stop)
  = clamp_bound (List.length l) stop - clamp_bound (List.length l) start.
Proof.
  unfold py_slice.
  pose proof (clamp_bound_le (List.length l) start).
  pose proof (clamp_bound_le (List.length l) stop).
  rewrite length_firstn, length_skipn. lia.
Qed.

(** Two sequences of one length are trimmed to one length. *)
Lemma trim_window_length_eq {A B} (N : Z) (a : list A) (b : list B) :
  List.length a = List.length b ->
  List.length (trim_window N a) = List.length (trim_window N b).
Proof.
  intros E. unfold trim_window. rewrite !py_slice_length, E. reflexivity.
Qed.

Lemma int_half_round_half (N : Z) :
  (0 <= N)%Z -> (int_half N + (round_half N - 1) = N - 1)%Z.
Proof.
  intros HN. unfold int_half, round_half.
  destruct (Z.leb_spec 0 N); [|lia].
  rewrite !Z.quot_div_nonneg by lia.
  pose proof (Z.div_mod N 2 ltac:(lia)).
  pose proof (Z.mod_pos_bound N 2 ltac:(lia)).
  pose proof (Z.div_mod (N + 1) 2 ltac:(lia)).
  pose proof (Z.mod_pos_bound (N + 1) 2 ltac:(lia)).
  assert (N mod 2 = 0 \/ N mod 2 = 1)%Z as [E|E] by lia.
  - assert ((N + 1) mod 2 = 1)%Z.
    { rewrite Z.add_mod, E by lia. reflexivity. }
    lia.
  - assert ((N + 1) mod 2 = 0)%Z.
    { rewrite Z.add_mod, E by lia. reflexivity. }
    lia.
Qed.

(** A window of three points or more takes [N - 1] points away, or all of
    them when there are fewer. *)
Lemma trim_window_length {A} (N : Z) (a : list A) :
  (3 <= N)%Z ->
  List.length (trim_window N a) = List.length a - Z.to_nat (N - 1).
Proof.
  intros HN. unfold trim_window. rewrite py_slice_length.
  pose proof (int_half_round_half N ltac:(lia)) as Hsum.
  assert (1 <= int_half N)%Z.
  { unfold int_half. rewrite Z.quot_div_nonneg by lia.
    apply Z.div_le_lower_bound; lia. }
  assert (1 <= round_half N - 1)%Z.
  { unfold round_half. destruct (Z.leb_spec 0 N); [|lia].
    rewrite Z.quot_div_nonneg by lia.
    assert (2 <= (N + 1) / 2)%Z by (apply Z.div_le_lower_bound; lia). lia. }
  unfold clamp_bound.
  destruct (Z.ltb_spec (- (round_half N - 1)) 0); [|lia].
  destruct (Z.ltb_spec (int_half N) 0); [lia|].
  lia.
Qed.

(** With a window of two points the stop index is [-0]: the slice is
    empty. *)
Lemma trim_window_2 {A} (a : list A) : trim_window 2 a = [].
Proof.
  apply length_zero_iff_nil.
  unfold trim_window. rewrite py_slice_length.
  unfold clamp_bound. cbn. lia.
Qed.

(* ================================================================== *)
(** * Rules of the logic of key events *)

Lemma keyevs_app (a b : list event) : keyevs (a ++ b) = keyevs a ++ keyevs b.
Proof.
  unfold keyevs. apply flat_map_app.
Qed.

Lemma tag_not_explicit {A} (o : origin) (r : Except A) (e : exn) :
  o <> Explicit -> tag o r <> Raise Explicit e.
Proof.
  intros Ho. destruct r; cbn; congruence.
Qed.

Section Rules.

Context {Config : Type} {CP : ConfigParser Config}.
Variable c : Config.

Lemma runs_conseq {A} (m : M Config A) (Q Q' : list kev -> result A -> Prop) :
  runs c m Q -> (forall ks r, Q ks r -> Q' ks r) -> runs c m Q'.
Proof.
  intros H HQ w Hw. destruct (H w Hw) as [Hc [evs [Ht Hq]]].
  split; [assumption|]. exists evs. auto.
Qed.

Lemma runs_pure {A} (r : result A) (Q : list kev -> result A -> Prop) :
  Q [] r -> runs c (fun w => (r, w)) Q.
Proof.
  intros HQ w Hw. cbn. split; [assumption|].
  exists []. rewrite app_nil_r. auto.
Qed.

Lemma runs_ret {A} (a : A) (Q : list kev -> result A -> Prop) :
  Q [] (Ok a) -> runs c (ret a) Q.
Proof. apply runs_pure. Qed.

Lemma runs_raise {A} (e : exn) (Q : list kev -> result A -> Prop) :
  Q [] (Raise Explicit e) -> runs c (raise e) Q.
Proof. apply runs_pure. Qed.

Lemma runs_runtime {A} (r : Except A) (Q : list kev -> result A -> Prop) :
  Q [] (tag Runtime r) -> runs c (runtime r) Q.
Proof. apply runs_pure. Qed.

Lemma runs_lib {A} (r : Except A) (Q : list kev -> result A -> Prop) :
  Q [] (tag Library r) -> runs c (lib r) Q.
Proof. apply runs_pure. Qed.

Lemma runs_emit (e : event) (Q : list kev -> result unit -> Prop) :
  Q (key e) (Ok tt) -> runs c (emit e) Q.
Proof.
  intros HQ w Hw. cbn. split; [assumption|].
  exists [e]. split; [reflexivity|].
  unfold keyevs. cbn. rewrite app_nil_r. assumption.
Qed.

Lemma runs_config_get (s o : string) (Q : list kev -> result string -> Prop) :
  Q [] (tag Library (get c s o)) -> runs c (config_get s o) Q.
Proof.
  intros HQ w Hw. unfold config_get. cbn. rewrite Hw. split; [reflexivity|].
  exists []. rewrite app_nil_r. auto.
Qed.

Lemma runs_config_getint (s o : string) (Q : list kev -> result Z -> Prop) :
  Q [] (tag Library (getint c s o)) -> runs c (config_getint s o) Q.
Proof.
  intros HQ w Hw. unfold config_getint. cbn. rewrite Hw. split; [reflexivity|].
  exists []. rewrite app_nil_r. auto.
Qed.

Lemma runs_config_getboolean (s o : string) (Q : list kev -> result bool -> Prop) :
  Q [] (tag Library (getboolean c s o)) -> runs c (config_getboolean s o) Q.
Proof.
  intros HQ w Hw. unfold config_getboolean. cbn. rewrite Hw. split; [reflexivity|].
  exists []. rewrite app_nil_r. auto.
Qed.

Lemma runs_config_getExpression (s o : string) (b : bool)
    (Q : list kev -> result (list Z) -> Prop) :
  Q [] (tag Library (getExpression c s o b)) ->
  runs c (config_getExpression s o b) Q.
Proof.
  intros HQ w Hw. unfold config_getExpression. cbn. rewrite Hw.
  split; [reflexivity|].
  exists []. rewrite app_nil_r. auto.
Qed.

(** Sequencing, in weakest-precondition form. *)
Lemma runs_bind {A B} (m : M Config A) (k : A -> M Config B)
    (Q : list kev -> result B -> Prop) :
  runs c m (fun k1 r =>
              match r with
              | Ok a => runs c (k a) (fun k2 r' => Q (k1 ++ k2) r')
              | Raise o e => Q k1 (Raise o e)
              end) ->
  runs c (bind m k) Q.
Proof.
  intros H w Hw. destruct (H w Hw) as [Hc [evs [Ht HQ]]].
  unfold bind. destruct (m w) as [[a|o e] w1]; cbn in *.
  - destruct (HQ w1 Hc) as [Hc2 [evs2 [Ht2 HQ2]]].
    split; [assumption|]. exists (evs ++ evs2).
    rewrite Ht2, Ht, app_assoc, keyevs_app. auto.
  - split; [assumption|]. exists evs. auto.
Qed.

(** ** Neutral statements *)

Lemma neutral_pure {A} (r : result A) :
  (forall e, r <> Raise Explicit e) -> neutral c (fun w => (r, w)).
Proof.
  intros Hr. apply runs_pure. auto.
Qed.

Lemma neutral_ret {A} (a : A) : neutral c (ret a).
Proof. apply neutral_pure. congruence. Qed.

Lemma neutral_runtime {A} (r : Except A) : neutral c (runtime r).
Proof. apply neutral_pure. intros e. apply tag_not_explicit. congruence. Qed.

Lemma neutral_lib {A} (r : Except A) : neutral c (lib r).
Proof. apply neutral_pure. intros e. apply tag_not_explicit. congruence. Qed.

Lemma neutral_local {A} (name : string) (v : option A) : neutral c (local name v).
Proof.
  destruct v; [apply neutral_ret | apply neutral_runtime].
Qed.

Lemma neutral_emit (e : event) : key e = [] -> neutral c (emit e).
Proof.
  intros He. apply runs_emit. split; [assumption | congruence].
Qed.

Lemma neutral_get_ylim (ext : External) : neutral c (get_ylim ext).
Proof.
  intros w Hw. cbn. split; [assumption|]. exists [].
  rewrite app_nil_r. repeat split. congruence.
Qed.

Lemma neutral_get_xlim (ext : External) : neutral c (get_xlim ext).
Proof.
  intros w Hw. cbn. split; [assumption|]. exists [].
  rewrite app_nil_r. repeat split. congruence.
Qed.

Lemma neutral_bind {A B} (m : M Config A) (k : A -> M Config B) :
  neutral c m -> (forall a, neutral c (k a)) -> neutral c (bind m k).
Proof.
  intros Hm Hk. apply runs_bind. eapply runs_conseq; [exact Hm|].
  intros ks [a|o e] [Hks Hr]; subst ks.
  - eapply runs_conseq; [apply Hk|]. intros ks r H. exact H.
  - split; [reflexivity|]. intros e0 E. apply (Hr e0). congruence.
Qed.

Lemma neutral_for_each {X S} (xs : list X) (body : X -> S -> M Config S) (s : S) :
  (forall x s', neutral c (body x s')) -> neutral c (for_each xs body s).
Proof.
  intros Hbody. revert s.
  induction xs as [|x xs IH]; intros s; cbn [for_each].
  - apply neutral_ret.
  - apply neutral_bind; [apply Hbody | exact IH].
Qed.

Lemma neutral_if_not_None {A} (x : option A) (body : A -> M Config unit) :
  (forall a, neutral c (body a)) -> neutral c (if_not_None x body).
Proof.
  intros Hbody. destruct x; cbn; [apply Hbody | apply neutral_ret].
Qed.

Lemma neutral_if_truthy {A} (x : option (list A)) (body : list A -> M Config unit) :
  (forall l, neutral c (body l)) -> neutral c (if_truthy x body).
Proof.
  intros Hbody. destruct x as [[|a l]|]; cbn;
    [apply neutral_ret | apply Hbody | apply neutral_ret].
Qed.

Lemma neutral_void {A} (m : M Config A) : neutral c m -> neutral c (void m).
Proof.
  intros Hm. apply neutral_bind; [assumption|]. intros a. apply neutral_ret.
Qed.

(** A neutral statement in front of [k] leaves [k]'s obligations as they
    are. *)
Lemma runs_neutral_bind {A B} (m : M Config A) (k : A -> M Config B)
    (Q : list kev -> result B -> Prop) :
  neutral c m ->
  (forall a, runs c (k a) Q) ->
  (forall o e, o <> Explicit -> Q [] (Raise o e)) ->
  runs c (bind m k) Q.
Proof.
  intros Hm Hk HQ. apply runs_bind. eapply runs_conseq; [exact Hm|].
  intros ks [a|o e] [Hks Hr]; subst ks.
  - apply Hk.
  - apply HQ. intros ->. eapply Hr. reflexivity.
Qed.

End Rules.

Create HintDb neutral.

#[export] Hint Resolve neutral_ret neutral_runtime neutral_lib neutral_local
  neutral_get_ylim neutral_get_xlim : neutral.

(** One step of a proof that a block is neutral: the rule of its head, or a
    case distinction on what it inspects. *)
Ltac neutral_step :=
  lazymatch goal with
  | |- neutral _ (ret _) => apply neutral_ret
  | |- neutral _ (runtime _) => apply neutral_runtime
  | |- neutral _ (lib _) => apply neutral_lib
  | |- neutral _ (local _ _) => apply neutral_local
  | |- neutral _ (get_ylim _) => apply neutral_get_ylim
  | |- neutral _ (get_xlim _) => apply neutral_get_xlim
  | |- neutral _ (emit _) => apply neutral_emit; reflexivity
  | |- neutral _ (bind _ _) => apply neutral_bind; [|intros]
  | |- neutral _ (for_each _ _ _) => apply neutral_for_each; intros
  | |- neutral _ (if_not_None _ _) => apply neutral_if_not_None; intros
  | |- neutral _ (if_truthy _ _) => apply neutral_if_truthy; intros
  | |- neutral _ (void _) => apply neutral_void
  | |- neutral _ (match ?x with _ => _ end) => destruct x
  | |- neutral _ _ => solve [auto with neutral]
  end.

Ltac prove_neutral := repeat neutral_step.

Section NeutralBlocks.

Context {Config : Type} {CP : ConfigParser Config}.
Variable c : Config.
Variable ext : External.

Lemma neutral_plot_xtick_format (calendar : string) (minDays maxDays : list Q)
    (maxXTicks : Z) :
  neutral c (plot_xtick_format ext calendar minDays maxDays maxXTicks).
Proof.
  unfold plot_xtick_format. prove_neutral.
Qed.

Lemma neutral_polar_tick_locs : neutral c (polar_tick_locs ext).
Proof.
  unfold polar_tick_locs. prove_neutral.
Qed.

Lemma neutral_do_subplot (Lons Lats : Array2D) (plotProjection : string)
    (latmin lon0 : Q) (cbarlabel : string) (axis_font : font_dict)
    (field : Array2D) (title : string) (cmap : Colormap) (norm : BoundaryNorm)
    (levels : list Z) :
  neutral c (do_subplot Lons Lats plotProjection latmin lon0 cbarlabel axis_font
               field title cmap norm levels).
Proof.
  unfold do_subplot. prove_neutral.
Qed.

Lemma neutral_moving_average (N : Z) (xArray depthArray : list Q)
    (fieldArray : Array2D) :
  neutral c (moving_average ext N xArray depthArray fieldArray).
Proof.
  unfold moving_average. prove_neutral.
Qed.

Lemma neutral_plot_size_y_axis (xaxisValues : list value)
    (data : list (string * list value)) :
  neutral c (plot_size_y_axis ext xaxisValues data).
Proof.
  unfold plot_size_y_axis. prove_neutral.
Qed.

End NeutralBlocks.

#[export] Hint Resolve neutral_plot_xtick_format neutral_polar_tick_locs
  neutral_do_subplot neutral_moving_average neutral_plot_size_y_axis : neutral.

(* ================================================================== *)
(** * The key events of the plotting routines *)

(** The innermost term a nest of case distinctions inspects. *)
Ltac split_on x :=
  lazymatch x with
  | match ?y with _ => _ end => split_on y
  | negb ?y => split_on y
  | _ => destruct x
  end; cbn [negb].

(** Close a leaf: the key events seen so far are the expected ones, or a
    prefix of them before an exception. *)
Ltac leaf :=
  cbv beta iota; cbn [app];
  lazymatch goal with
  | |- (exists _, _) /\ _ =>
      split; [eexists; cbn [app map]; reflexivity
             | intros; first [discriminate | congruence | (split; reflexivity)]]
  | |- _ = _ /\ _ =>
      split; [cbn [app map]; reflexivity | eexists; reflexivity]
  end.

(** One statement of a routine. *)
Ltac run_step :=
  cbv beta iota;
  lazymatch goal with
  | |- runs _ (bind (config_get _ _) _) _ =>
      apply runs_bind, runs_config_get;
      lazymatch goal with
      | |- context [tag Library ?r] => destruct r eqn:?; cbn [tag]
      end
  | |- runs _ (bind (config_getint _ _) _) _ =>
      apply runs_bind, runs_config_getint;
      lazymatch goal with
      | |- context [tag Library ?r] => destruct r eqn:?; cbn [tag]
      end
  | |- runs _ (bind (config_getboolean _ _) _) _ =>
      apply runs_bind, runs_config_getboolean;
      lazymatch goal with
      | |- context [tag Library ?r] => destruct r eqn:?; cbn [tag]
      end
  | |- runs _ (bind (emit _) _) _ => apply runs_bind, runs_emit; cbn [key]
  | |- runs _ (bind (ret _) _) _ => apply runs_bind, runs_ret
  | |- runs _ (bind (raise _) _) _ => apply runs_bind, runs_raise
  | |- runs _ (bind (runtime (subscript (_ :: _) _)) _) _ =>
      apply runs_bind, runs_runtime; cbn [subscript nth_error tag]
  | |- runs _ (bind (runtime (Success _)) _) _ =>
      apply runs_bind, runs_runtime; cbn [tag]
  | |- runs _ (bind (bind _ _) _) _ => apply runs_bind
  | |- runs _ (bind ?m _) _ =>
      first
        [ apply runs_neutral_bind; [solve [prove_neutral] | intros | intros]
        | lazymatch m with
          | if_not_None ?x _ => destruct x; cbn [if_not_None]
          | match ?x with _ => _ end => split_on x
          end ]
  | |- runs _ (emit _) _ => apply runs_emit; cbn [key]
  | |- runs _ (ret _) _ => apply runs_ret
  | |- runs _ (raise _) _ => apply runs_raise
  | |- runs _ (match ?x with _ => _ end) _ => split_on x
  | |- _ => leaf
  end.

Ltac run_routine :=
  unfold post, shape_error, expected_keys, k_title, k_epilogue,
    eff_title_font, eff_axis_font, eff_dpi, cfg_dpi, cfg_str,
    polar_figsize, polar_subplots;
  repeat run_step.

Section KeyEvents.

Context {Config : Type} {CP : ConfigParser Config}.
Variable c : Config.
Variable ext : External.

Lemma timeseries_analysis_plot_runs dsvalues N title xlabel ylabel fileout
    lineStyles lineWidths legendText calendar titleFontSize figsize dpi maxXTicks :
  let call := TimeseriesAnalysisPlot dsvalues N title xlabel ylabel fileout
                lineStyles lineWidths legendText calendar titleFontSize figsize
                dpi maxXTicks in
  runs c (run_plot_call ext call) (post c (expected_keys c call) (shape_error call)).
Proof.
  cbv zeta. cbn [run_plot_call]. unfold timeseries_analysis_plot.
  run_routine.
Qed.

Lemma timeseries_analysis_plot_polar_runs dsvalues N title fileout lineStyles
    lineWidths legendText titleFontSize figsize dpi :
  let call := TimeseriesAnalysisPlotPolar dsvalues N title fileout lineStyles
                lineWidths legendText titleFontSize figsize dpi in
  runs c (run_plot_call ext call) (post c (expected_keys c call) (shape_error call)).
Proof.
  cbv zeta. cbn [run_plot_call]. unfold timeseries_analysis_plot_polar.
  run_routine.
Qed.

Lemma plot_polar_comparison_runs Lons Lats modelArray obsArray diffArray
    cmapModelObs clevsModelObs cmapDiff clevsDiff fileout title plotProjection
    latmin lon0 modelTitle obsTitle diffTitle cbarlabel titleFontSize figsize dpi
    vertical :
  let call := PlotPolarComparison Lons Lats modelArray obsArray diffArray
                cmapModelObs clevsModelObs cmapDiff clevsDiff fileout title
                plotProjection latmin lon0 modelTitle obsTitle diffTitle cbarlabel
                titleFontSize figsize dpi vertical in
  runs c (run_plot_call ext call) (post c (expected_keys c call) (shape_error call)).
Proof.
  cbv zeta. cbn [run_plot_call]. unfold plot_polar_comparison.
  run_routine.
Qed.

Lemma plot_global_comparison_runs Lons Lats modelArray obsArray diffArray
    cmapModelObs clevsModelObs cmapDiff clevsDiff fileout title modelTitle
    obsTitle diffTitle cbarlabel titleFontSize figsize dpi :
  let call := PlotGlobalComparison Lons Lats modelArray obsArray diffArray
                cmapModelObs clevsModelObs cmapDiff clevsDiff fileout title
                modelTitle obsTitle diffTitle cbarlabel titleFontSize figsize dpi in
  runs c (run_plot_call ext call) (post c (expected_keys c call) (shape_error call)).
Proof.
  cbv zeta. cbn [run_plot_call]. unfold plot_global_comparison.
  run_routine.
Qed.

Lemma plot_1D_runs xArrays fieldArrays errArrays lineColors lineWidths legendText
    title xlabel ylabel fileout figsize dpi xLim yLim invertYAxis :
  let call := Plot1D xArrays fieldArrays errArrays lineColors lineWidths
                legendText title xlabel ylabel fileout figsize dpi xLim yLim
                invertYAxis in
  runs c (run_plot_call ext call) (post c (expected_keys c call) (shape_error call)).
Proof.
  cbv zeta. cbn [run_plot_call]. unfold plot_1D.
  run_routine.
Qed.

Lemma plot_vertical_section_runs xArray depthArray fieldArray colormapName
    colorbarLevels contourLevels colorbarLabel title xlabel ylabel fileout figsize
    dpi xLim yLim linewidths invertYAxis xArrayIsTime N maxXTicks calendar :
  let call := PlotVerticalSection xArray depthArray fieldArray colormapName
                colorbarLevels contourLevels colorbarLabel title xlabel ylabel
                fileout figsize dpi xLim yLim linewidths invertYAxis xArrayIsTime
                N maxXTicks calendar in
  runs c (run_plot_call ext call) (post c (expected_keys c call) (shape_error call)).
Proof.
  cbv zeta. cbn [run_plot_call]. unfold plot_vertical_section.
  run_routine.
Qed.

(** Every plotting call produces its expected key events. *)
Lemma run_plot_call_runs (call : plot_call) :
  runs c (run_plot_call ext call) (post c (expected_keys c call) (shape_error call)).
Proof.
  destruct call.
  - apply timeseries_analysis_plot_runs.
  - apply timeseries_analysis_plot_polar_runs.
  - apply plot_polar_comparison_runs.
  - apply plot_global_comparison_runs.
  - apply plot_1D_runs.
  - apply plot_vertical_section_runs.
Qed.

End KeyEvents.

(* ================================================================== *)
(** * What the key events say about a trace *)

Lemma k_saved_files_app (a b : list kev) :
  k_saved_files (a ++ b) = k_saved_files a ++ k_saved_files b.
Proof. apply flat_map_app. Qed.

Lemma k_dpis_app (a b : list kev) : k_dpis (a ++ b) = k_dpis a ++ k_dpis b.
Proof. apply flat_map_app. Qed.

Lemma k_title_font_sizes_app (a b : list kev) :
  k_title_font_sizes (a ++ b) = k_title_font_sizes a ++ k_title_font_sizes b.
Proof. apply flat_map_app. Qed.

Lemma k_figure_sizes_app (a b : list kev) :
  k_figure_sizes (a ++ b) = k_figure_sizes a ++ k_figure_sizes b.
Proof. apply flat_map_app. Qed.


(** An observation of the trace that only looks at key events can be made
    on the key events. *)
Lemma flat_map_keyevs {B} (f : event -> list B) (g : kev -> list B) :
  (forall e, f e = flat_map g (key e)) ->
  forall evs, flat_map f evs = flat_map g (keyevs evs).
Proof.
  intros Hfg evs. induction evs as [|e evs IH]; [reflexivity|].
  unfold keyevs in *. cbn [flat_map]. rewrite flat_map_app, IH, Hfg. reflexivity.
Qed.

Lemma saved_files_keyevs (evs : list event) :
  saved_files evs = k_saved_files (keyevs evs).
Proof.
  apply flat_map_keyevs. intros e. destruct e; reflexivity.
Qed.

Lemma dpis_keyevs (evs : list event) : dpis evs = k_dpis (keyevs evs).
Proof.
  apply flat_map_keyevs. intros e. destruct e; reflexivity.
Qed.

Lemma title_font_sizes_keyevs (evs : list event) :
  title_font_sizes evs = k_title_font_sizes (keyevs evs).
Proof.
  apply flat_map_keyevs. intros e.
  destruct e; try reflexivity; destruct font as [s [col|] wt]; reflexivity.
Qed.

Lemma figure_sizes_keyevs (evs : list event) :
  figure_sizes evs = k_figure_sizes (keyevs evs).
Proof.
  apply flat_map_keyevs. intros e. destruct e; reflexivity.
Qed.


Lemma open_figures_keyevs (evs : list event) (n : nat) :
  open_figures n evs = k_open_figures n (keyevs evs).
Proof.
  revert n. induction evs as [|e evs IH]; intros n; [reflexivity|].
  destruct e; cbn; apply IH.
Qed.

(** ** The expected key events *)

Section ExpectedFacts.

Context {Config : Type} {CP : ConfigParser Config}.
Variable c : Config.

Ltac by_cases call :=
  destruct call; cbn [expected_keys call_dpi call_fileout call_titleFontSize];
  unfold k_title, k_epilogue, eff_title_font, eff_axis_font, polar_subplots;
  repeat match goal with
         | |- context [match ?x with _ => _ end] => destruct x
         end;
  cbn.

Lemma expected_dpis (call : plot_call) :
  Forall (eq (eff_dpi c (call_dpi call))) (k_dpis (expected_keys c call)).
Proof.
  by_cases call; repeat constructor.
Qed.

Lemma expected_title_font_sizes (call : plot_call) :
  Forall (eq (fd_size (eff_title_font c (call_titleFontSize call))))
         (k_title_font_sizes (expected_keys c call)).
Proof.
  by_cases call; repeat constructor.
Qed.

Lemma expected_saved_files (call : plot_call) :
  k_saved_files (expected_keys c call)
  = match call_fileout call with Some f => [f] | None => [] end.
Proof.
  by_cases call; reflexivity.
Qed.

Lemma expected_open_figures (call : plot_call) (n : nat) (b : bool) :
  getboolean c "plot" "displayToScreen" = Success b ->
  k_open_figures n (expected_keys c call) = if b then S n else n.
Proof.
  intros Hb.
  destruct call; cbn [expected_keys]; unfold k_title, k_epilogue, polar_subplots;
    rewrite Hb;
    repeat match goal with
           | |- context [match ?x with _ => _ end] => destruct x
           end;
    reflexivity.
Qed.

Lemma expected_figure (call : plot_call) :
  exists figsize, exists ks,
    expected_keys c call = KFigure figsize (eff_dpi c (call_dpi call)) :: ks.
Proof.
  destruct call; cbn [expected_keys call_dpi]; eexists; eexists; reflexivity.
Qed.

End ExpectedFacts.

(** ** The effect of a plotting call *)

Lemma plot_call_effect {Config} {CP : ConfigParser Config} (ext : External)
    (call : plot_call) (w : world Config) :
  exists evs,
    w_trace (snd (run_plot_call ext call w)) = w_trace w ++ evs /\
    w_config (snd (run_plot_call ext call w)) = w_config w /\
    key_prefix (w_config w) call evs /\
    post (w_config w) (expected_keys (w_config w) call) (shape_error call)
         (keyevs evs) (fst (run_plot_call ext call w)).
Proof.
  destruct (run_plot_call_runs (w_config w) ext call w eq_refl)
    as [Hc [evs [Ht Hp]]].
  exists evs. repeat split; try assumption.
  unfold key_prefix.
  destruct (fst (run_plot_call ext call w)) as [u|o e]; cbn in Hp.
  - destruct Hp as [Hk _]. exists []. rewrite app_nil_r. symmetry. exact Hk.
  - destruct Hp as [Hk _]. exact Hk.
Qed.

(* ================================================================== *)
(** * The properties of the specification *)

(** C2.  If [len(xArray) != fieldArray.shape[1]] or
    [len(depthArray) != fieldArray.shape[0]], [plot_vertical_section]
    raises a [ValueError] at once: the world is as before the call, so no
    figure has been created and no file written. *)
Theorem plot_vertical_section_shape_mismatch
    {Config : Type} {CP : ConfigParser Config} (ext : External)
    xArray depthArray fieldArray colormapName colorbarLevels contourLevels
    colorbarLabel title xlabel ylabel fileout figsize dpi xLim yLim linewidths
    invertYAxis xArrayIsTime N maxXTicks calendar (w : world Config) :
  List.length xArray <> shape1 fieldArray \/
  List.length depthArray <> shape0 fieldArray ->
  exists msg,
    plot_vertical_section ext xArray depthArray fieldArray colormapName
      colorbarLevels contourLevels colorbarLabel title xlabel ylabel fileout
      figsize dpi xLim yLim linewidths invertYAxis xArrayIsTime N maxXTicks
      calendar w
    = (Raise Explicit (ValueError msg), w).
Proof.
  intros H. unfold plot_vertical_section, bind.
  destruct (Nat.eqb_spec (List.length xArray) (shape1 fieldArray)) as [Ex|Ex]; cbn.
  - destruct (Nat.eqb_spec (List.length depthArray) (shape0 fieldArray)) as [Ed|Ed];
      cbn.
    + exfalso. destruct H; contradiction.
    + eexists. reflexivity.
  - eexists. reflexivity.
Qed.

Lemma plot_vertical_section_shape_mismatch_witness :
  exists msg,
    run_plot_call Sample.ext Sample.mismatched_call Sample.w0
    = (Raise Explicit (ValueError msg), Sample.w0).
Proof.
  apply (plot_vertical_section_shape_mismatch Sample.ext).
  left. cbn. discriminate.
Defined.

(** C5.  A plotting call writes at most one file, the one its [fileout]
    names, and none when [fileout] is [None]. *)
Theorem plot_call_writes_only_fileout
    {Config : Type} {CP : ConfigParser Config} (ext : External)
    (call : plot_call) (w : world Config) :
  exists evs,
    w_trace (snd (run_plot_call ext call w)) = w_trace w ++ evs /\
    match call_fileout call with
    | None => saved_files evs = []
    | Some f => saved_files evs = [] \/ saved_files evs = [f]
    end.
Proof.
  destruct (plot_call_effect ext call w) as [evs [Ht [_ [[rest Hk] _]]]].
  exists evs. split; [exact Ht|].
  pose proof (expected_saved_files (w_config w) call) as Hs.
  rewrite Hk, k_saved_files_app, <- saved_files_keyevs in Hs.
  destruct (call_fileout call) as [f|].
  - destruct (saved_files evs) as [|f' l]; [left; reflexivity|].
    right. cbn in Hs. injection Hs as -> Hl.
    apply app_eq_nil in Hl. destruct Hl as [-> _]. reflexivity.
  - apply app_eq_nil in Hs. tauto.
Qed.

(** C6, as the code has it.  When a plotting call returns,
    [displayToScreen] could be read, and the figure the call opened is
    still open if and only if it is true: the call has closed its figure
    when it is false. *)
Theorem figure_open_iff_displayToScreen
    {Config : Type} {CP : ConfigParser Config} (ext : External)
    (call : plot_call) (w : world Config) :
  fst (run_plot_call ext call w) = Ok tt ->
  exists evs b,
    w_trace (snd (run_plot_call ext call w)) = w_trace w ++ evs /\
    getboolean (w_config w) "plot" "displayToScreen" = Success b /\
    forall n, open_figures n evs = if b then S n else n.
Proof.
  intros Hok.
  destruct (plot_call_effect ext call w) as [evs [Ht [_ [_ Hp]]]].
  rewrite Hok in Hp. cbn in Hp. destruct Hp as [Hk [b Hb]].
  exists evs, b. repeat split; try assumption.
  intros n. rewrite open_figures_keyevs, Hk.
  apply expected_open_figures. exact Hb.
Qed.

Lemma figure_open_iff_displayToScreen_witness :
  Forall (fun call =>
            exists evs b,
              w_trace (snd (run_plot_call Sample.ext call Sample.w0))
                = w_trace Sample.w0 ++ evs /\
              getboolean (w_config Sample.w0) "plot" "displayToScreen" = Success b /\
              forall n, open_figures n evs = if b then S n else n)
         [Sample.timeseries_call; Sample.polar_call;
          Sample.polar_comparison_call false; Sample.global_call;
          Sample.plot_1D_call; Sample.vertical_section_call] /\
  exists evs,
    w_trace (snd (run_plot_call Sample.ext Sample.timeseries_call
                    Sample2.screen_world))
      = w_trace Sample2.screen_world ++ evs /\
    forall n, open_figures n evs = S n.
Proof.
  split.
  - repeat constructor;
      apply (figure_open_iff_displayToScreen Sample.ext _ Sample.w0);
      vm_compute; reflexivity.
  - destruct (figure_open_iff_displayToScreen Sample.ext Sample.timeseries_call
                Sample2.screen_world) as [evs [b [Ht [Hb Hopen]]]].
    + vm_compute. reflexivity.
    + exists evs. split; [exact Ht|].
      vm_compute in Hb. injection Hb as <-. exact Hopen.
Defined.

(** C6 as stated fails, for a call that does not return:
    [plot_vertical_section] raises the [ValueError] of its shape check
    before a figure exists, so with [displayToScreen] true no figure is left
    open. *)
Lemma not_every_call_leaves_figure_open_iff_displayToScreen :
  ~ every_call_leaves_figure_open_iff_displayToScreen.
Proof.
  intros H.
  destruct (H Sample.TableConfig Sample.TableConfigParser Sample.ext
              Sample.mismatched_call Sample2.screen_world true eq_refl)
    as [evs [Ht Hopen]].
  vm_compute in Ht. subst evs.
  specialize (Hopen 0%nat). discriminate Hopen.
Qed.

(** And a call that raises after it has created its figure leaves the
    figure open, also when [displayToScreen] is false: here option
    [axisFontSize] is missing. *)
Example figure_left_open_by_a_call_that_raises :
  let run := run_plot_call Sample.ext Sample.timeseries_call
               (Sample2.world_without "axisFontSize") in
  fst run = Raise Library (NoOptionError "axisFontSize" "plot") /\
  getboolean (Sample2.without "axisFontSize") "plot" "displayToScreen"
  = Success false /\
  open_figures 0 (w_trace (snd run)) = 1%nat.
Proof.
  vm_compute. repeat split.
Qed.

(** ** Loops that skip every element *)

Lemma for_each_skip {Config X S} (xs : list X) (body : X -> S -> M Config S)
    (s : S) (w : world Config) :
  (forall x, In x xs -> forall s' w', body x s' w' = (Ok s', w')) ->
  for_each xs body s w = (Ok s, w).
Proof.
  intros Hskip. induction xs as [|x xs IH]; cbn [for_each]; [reflexivity|].
  unfold bind. rewrite Hskip by (left; reflexivity).
  apply IH. intros y Hy. apply Hskip. right. exact Hy.
Qed.

Lemma subscript_repeat {A} (a : A) (n i : nat) :
  i < n -> subscript (repeat a n) i = Success a.
Proof.
  intros Hi. unfold subscript. rewrite nth_error_repeat by exact Hi. reflexivity.
Qed.

(** C3.  With no data set at all ([dsvalues] a list of [None]s of any
    length), [timeseries_analysis_plot] does not complete: nothing binds
    [mean] and [minDays] stays empty, so either the y=0 line reads the
    unbound [mean] or [np.amin(minDays)] in [plot_xtick_format] fails, unless
    the configuration fails first. *)
Theorem timeseries_analysis_plot_all_None_raises
    {Config : Type} {CP : ConfigParser Config} (ext : External)
    (n : nat) (N : Z) (title xlabel ylabel fileout : option string)
    (lineStyles : list string) (lineWidths : list Q) (legendText : list string)
    (calendar : string) (titleFontSize : option Z) (figsize : Q * Q)
    (dpi : option Z) (maxXTicks : Z) (w : world Config) :
  exists o e,
    fst (timeseries_analysis_plot ext (repeat None n) N title xlabel ylabel fileout
           lineStyles lineWidths legendText calendar titleFontSize figsize dpi
           maxXTicks w)
    = Raise o e.
Proof.
  unfold timeseries_analysis_plot.
  unfold bind at 1.
  destruct (match dpi with
            | Some dpi0 => ret dpi0
            | None => config_getint "plot" "dpi"
            end w) as [[d|o e] w1]; [|eexists; eexists; reflexivity].
  unfold bind at 1. cbn [emit].
  unfold bind at 1.
  rewrite for_each_skip.
  2:{ intros i Hi [[minDays maxDays] mean] w'.
      unfold range in Hi. apply in_seq in Hi. rewrite repeat_length in Hi.
      unfold bind, runtime. rewrite subscript_repeat by lia. reflexivity. }
  unfold bind, emit, config_get, get_ylim, local, plot_xtick_format, lib, runtime.
  cbn.
  repeat match goal with
         | |- context [match ?x with _ => _ end] =>
             destruct x; cbn; try (eexists; eexists; reflexivity)
         end.
Qed.

(* ================================================================== *)
(** * The exceptions of the module *)

Section Exceptions.

Context {Config : Type} {CP : ConfigParser Config}.
Variable c : Config.
Variable ext : External.

Lemma runs_try_except {A} (m : M Config A) (handles : exn -> bool)
    (handler : M Config A) (Q : list kev -> result A -> Prop) :
  runs c m (fun k1 r =>
              match r with
              | Ok a => Q k1 (Ok a)
              | Raise o e =>
                  if handles e
                  then runs c handler (fun k2 r' => Q (k1 ++ k2) r')
                  else Q k1 (Raise o e)
              end) ->
  runs c (try_except m handles handler) Q.
Proof.
  intros H w Hw. destruct (H w Hw) as [Hc [evs [Ht HQ]]].
  unfold try_except. destruct (m w) as [[a|o e] w1]; cbn in *.
  - split; [assumption|]. exists evs. auto.
  - destruct (handles e).
    + destruct (HQ w1 Hc) as [Hc2 [evs2 [Ht2 HQ2]]].
      split; [assumption|]. exists (evs ++ evs2).
      rewrite Ht2, Ht, app_assoc, keyevs_app. auto.
    + split; [assumption|]. exists evs. auto.
Qed.

(** The only [raise] of [setup_colormap] is the length check. *)
Lemma setup_colormap_runs (configSectionName suffix : string) :
  runs c (setup_colormap ext configSectionName suffix)
    (fun ks r =>
       ks = [] /\
       forall e, r = Raise Explicit e ->
         e = ValueError "length mismatch between indices and colorbarLevels").
Proof.
  unfold setup_colormap.
  apply runs_bind, runs_config_get.
  destruct (get c configSectionName _); cbn [tag];
    [|split; [reflexivity | intros e0 [=]]].
  apply runs_neutral_bind; [apply neutral_lib | intros cm
                           | intros o e0 Ho; split; [reflexivity | congruence]].
  apply runs_bind, runs_config_getExpression.
  destruct (getExpression c configSectionName _ true) as [indices|e1]; cbn [tag];
    [|split; [reflexivity | intros e0 [=]]].
  assert (Hrest : forall levels : option (list Z),
    runs c
      (match levels with
       | Some levels0 =>
           first <- runtime (py_index indices 0) ;;
           last_ <- runtime (py_index indices (-1)) ;;
           indices0 <-
             (if Nat.eqb (List.length levels0 + 1) (List.length indices)
              then ret (py_slice indices 1 (-1))
              else if negb (Z.of_nat (List.length levels0) - 1
                            =? Z.of_nat (List.length indices))%Z
                   then raise (ValueError
                          "length mismatch between indices and colorbarLevels")
                   else ret indices) ;;
           ret (set_over
                  (set_under
                     (ListedColormap (map (cmap_call cm) indices0)
                        (String.append "colormapName" suffix) None None)
                     (cmap_call cm first))
                  (cmap_call cm last_), levels)
       | None => ret (cm, levels)
       end)
      (fun ks r =>
         ks = [] /\
         forall e, r = Raise Explicit e ->
           e = ValueError "length mismatch between indices and colorbarLevels")).
  { intros [levels|].
    - apply runs_neutral_bind; [apply neutral_runtime | intros first
                               | intros o e0 Ho; split; [reflexivity | congruence]].
      apply runs_neutral_bind; [apply neutral_runtime | intros last_
                               | intros o e0 Ho; split; [reflexivity | congruence]].
      destruct (Nat.eqb (List.length levels + 1) (List.length indices)).
      + apply runs_bind, runs_ret, runs_ret. split; [reflexivity | intros e0 [=]].
      + destruct (negb _).
        * apply runs_bind, runs_raise. split; [reflexivity|].
          intros e0 [= <-]. reflexivity.
        * apply runs_bind, runs_ret, runs_ret.
          split; [reflexivity | intros e0 [=]].
    - apply runs_ret. split; [reflexivity | intros e0 [=]]. }
  apply runs_bind, runs_try_except.
  apply runs_bind, runs_config_getExpression.
  destruct (getExpression c configSectionName _ true) as [levels|e2]; cbn [tag].
  - apply runs_ret. exact (Hrest (Some levels)).
  - destruct (is_NoOptionError e2).
    + apply runs_ret. exact (Hrest None).
    + split; [reflexivity | intros e0 [=]].
Qed.

(** Every call into the module leaves the configuration alone, and what it
    raises itself is one of the two checks. *)
Lemma run_module_call_runs (call : module_call) :
  runs c (run_module_call ext call)
    (fun ks r => forall e, r = Raise Explicit e -> explicit_error call e).
Proof.
  destruct call as [pc| section suffix | calendar minDays maxDays maxXTicks
                   | xaxisValues data]; cbn [run_module_call explicit_error].
  - eapply runs_conseq; [apply run_plot_call_runs|].
    intros ks r Hp e ->. cbn in Hp. destruct Hp as [_ Hp].
    apply Hp. reflexivity.
  - unfold void. apply runs_bind.
    eapply runs_conseq; [apply setup_colormap_runs|].
    intros ks [a|o e0] [Hks He].
    + apply runs_ret. intros e [=].
    + intros e [= -> ->]. apply He. reflexivity.
  - eapply runs_conseq; [apply neutral_plot_xtick_format|].
    intros ks r [_ Hr] e ->. exact (Hr e eq_refl).
  - eapply runs_conseq; [apply neutral_void, neutral_plot_size_y_axis|].
    intros ks r [_ Hr] e ->. exact (Hr e eq_refl).
Qed.

End Exceptions.

(** The handler of [setup_colormap]: a missing [colorbarLevels] option is
    [None]; any other failure of reading it leaves the routine as it is. *)
Lemma setup_colormap_levels_failure
    {Config : Type} {CP : ConfigParser Config} (ext : External)
    (section suffix : string) (w : world Config)
    (name : string) (cm : Colormap) (indices : list Z) (e : exn) :
  get (w_config w) section (String.append "colormapName" suffix) = Success name ->
  get_cmap ext name = Success cm ->
  getExpression (w_config w) section (String.append "colormapIndices" suffix) true
    = Success indices ->
  getExpression (w_config w) section (String.append "colorbarLevels" suffix) true
    = Failure e ->
  setup_colormap ext section suffix w
  = if is_NoOptionError e then (Ok (cm, None), w) else (Raise Library e, w).
Proof.
  intros Hname Hcm Hind Hlev.
  unfold setup_colormap, bind, try_except, config_get, config_getExpression, lib.
  cbv beta. rewrite Hname. cbn [tag]. cbv beta iota.
  rewrite Hcm. cbn [tag]. cbv beta iota.
  rewrite Hind. cbn [tag]. cbv beta iota.
  rewrite Hlev. cbn [tag]. cbv beta iota.
  destruct (is_NoOptionError e); reflexivity.
Qed.

(** C1, as the code has it.  An exception raised by a [raise] statement of
    the module is the shape mismatch of [plot_vertical_section] or the
    length mismatch between indices and colorbar levels of
    [setup_colormap]; and the module catches one exception, the
    [NoOptionError] of a missing [colorbarLevels] option in
    [setup_colormap], while any other failure of that read reaches the
    caller as the library raised it. *)
Theorem explicit_errors_of_the_module
    {Config : Type} {CP : ConfigParser Config} (ext : External) :
  (forall (call : module_call) (w : world Config) (e : exn),
     fst (run_module_call ext call w) = Raise Explicit e ->
     explicit_error call e) /\
  (forall (section suffix : string) (w : world Config)
          (name : string) (cm : Colormap) (indices : list Z) (e : exn),
     get (w_config w) section (String.append "colormapName" suffix) = Success name ->
     get_cmap ext name = Success cm ->
     getExpression (w_config w) section (String.append "colormapIndices" suffix) true
       = Success indices ->
     getExpression (w_config w) section (String.append "colorbarLevels" suffix) true
       = Failure e ->
     setup_colormap ext section suffix w
     = if is_NoOptionError e then (Ok (cm, None), w) else (Raise Library e, w)).
Proof.
  split.
  - intros call w e Hr.
    destruct (run_module_call_runs (w_config w) ext call w eq_refl)
      as [_ [evs [_ He]]].
    apply He. exact Hr.
  - apply setup_colormap_levels_failure.
Qed.

Lemma explicit_errors_of_the_module_witness :
  explicit_error (SetupColormap "tooManyIndices" "")
    (ValueError "length mismatch between indices and colorbarLevels") /\
  setup_colormap Sample.ext "noLevels" "" Sample.w0
  = (Ok (Registered "viridis" 256, None), Sample.w0).
Proof.
  split.
  - apply (proj1 (explicit_errors_of_the_module Sample.ext)
             (SetupColormap "tooManyIndices" "") Sample.w0).
    vm_compute. reflexivity.
  - apply (proj2 (explicit_errors_of_the_module Sample.ext)
             "noLevels" "" Sample.w0 "viridis" (Registered "viridis" 256)
             [0; 255]%Z (NoOptionError "colorbarLevels" "noLevels"));
      reflexivity.
Defined.

(** C1 as stated fails: [setup_colormap] raises a [ValueError] of its own
    that is no shape mismatch between coordinate and field arrays. *)
Lemma not_only_shape_mismatch_is_raised : ~ only_shape_mismatch_is_raised.
Proof.
  intros H.
  specialize (H Sample.TableConfig Sample.TableConfigParser Sample.ext
                (SetupColormap "tooManyIndices" "") Sample.w0
                (ValueError "length mismatch between indices and colorbarLevels")
                eq_refl).
  destruct H as [H|H]; discriminate H.
Qed.

(* ================================================================== *)
(** * [plot_polar_comparison]: the default layout *)



(* ================================================================== *)
(** * [setup_colormap] *)

Lemma removelast_length {A} (l : list A) :
  List.length (removelast l) = List.length l - 1.
Proof.
  rewrite removelast_firstn_len, length_firstn. lia.
Qed.

Lemma py_index_first {A} (l : list A) (d : A) :
  l <> [] -> py_index l 0 = Success (hd d l).
Proof.
  destruct l as [|a l]; [congruence|]. intros _. reflexivity.
Qed.

Lemma py_index_last {A} (l : list A) (d : A) :
  l <> [] -> py_index l (-1) = Success (last l d).
Proof.
  intros Hl. unfold py_index.
  assert (Hlen : 0 < List.length l) by (destruct l; [congruence | cbn; lia]).
  change (0 <=? -1)%Z with false. cbv iota.
  destruct (Z.leb_spec 0 (Z.of_nat (List.length l) + -1)); [|lia].
  replace (Z.to_nat (Z.of_nat (List.length l) + -1)) with (List.length l - 1) by lia.
  unfold subscript.
  rewrite (app_removelast_last d Hl) at 1.
  rewrite nth_error_app2; rewrite removelast_length; [|lia].
  rewrite Nat.sub_diag. reflexivity.
Qed.

(** [indices[1:-1]] drops the first and the last element. *)
Lemma py_slice_inner {A} (l : list A) : py_slice l 1 (-1) = removelast (tl l).
Proof.
  destruct l as [|a l]; [reflexivity|].
  unfold py_slice, clamp_bound. cbn [List.length tl].
  change (1 <? 0)%Z with false. change (-1 <? 0)%Z with true. cbv iota.
  replace (Z.to_nat (Z.min 1 (Z.of_nat (S (List.length l))))) with 1 by lia.
  replace (Z.to_nat (Z.max (Z.of_nat (S (List.length l)) + -1) 0))
    with (List.length l) by lia.
  cbn [skipn]. rewrite removelast_firstn_len.
  f_equal. lia.
Qed.

Lemma length_removelast_tl {A} (l : list A) :
  List.length (removelast (tl l)) = List.length l - 2.
Proof.
  destruct l as [|a l]; [reflexivity|]. cbn [tl].
  rewrite removelast_length. cbn [List.length]. lia.
Qed.

(** X19.  With [colorbarLevels] present and a list of indices that is not
    empty, [setup_colormap] raises its [ValueError] exactly when
    [len(indices)] is neither [len(colorbarLevels)+1] nor
    [len(colorbarLevels)-1].  With one index more than levels, the first
    and last index give the under and over colours and the colours of the
    indices between them are listed, [len(colorbarLevels)-1] of them when
    there is a level; with one index less, all indices are listed and the
    first and last give the under and over colours too.  With
    [colorbarLevels] absent the registry colormap is returned as it is,
    with [None]. *)
Theorem setup_colormap_lengths
    {Config : Type} {CP : ConfigParser Config} (ext : External)
    (section suffix : string) (w : world Config)
    (name : string) (cm : Colormap) (indices : list Z) :
  get (w_config w) section (String.append "colormapName" suffix) = Success name ->
  get_cmap ext name = Success cm ->
  getExpression (w_config w) section (String.append "colormapIndices" suffix) true
    = Success indices ->
  (forall levels,
     getExpression (w_config w) section (String.append "colorbarLevels" suffix) true
       = Success levels ->
     indices <> [] ->
     (List.length indices = List.length levels + 1 ->
      exists cmap',
        setup_colormap ext section suffix w = (Ok (cmap', Some levels), w) /\
        cmap_colors cmap' = map (cmap_call cm) (removelast (tl indices)) /\
        cmap_under cmap' = Some (cmap_call cm (hd 0%Z indices)) /\
        cmap_over cmap' = Some (cmap_call cm (last indices 0%Z)) /\
        (levels <> [] ->
         Z.of_nat (List.length (cmap_colors cmap'))
         = (Z.of_nat (List.length levels) - 1)%Z)) /\
     (Z.of_nat (List.length indices) = (Z.of_nat (List.length levels) - 1)%Z ->
      exists cmap',
        setup_colormap ext section suffix w = (Ok (cmap', Some levels), w) /\
        cmap_colors cmap' = map (cmap_call cm) indices /\
        cmap_under cmap' = Some (cmap_call cm (hd 0%Z indices)) /\
        cmap_over cmap' = Some (cmap_call cm (last indices 0%Z)) /\
        Z.of_nat (List.length (cmap_colors cmap'))
        = (Z.of_nat (List.length levels) - 1)%Z) /\
     (List.length indices <> List.length levels + 1 ->
      Z.of_nat (List.length indices) <> (Z.of_nat (List.length levels) - 1)%Z ->
      setup_colormap ext section suffix w
      = (Raise Explicit
           (ValueError "length mismatch between indices and colorbarLevels"), w))) /\
  (forall option section',
     getExpression (w_config w) section (String.append "colorbarLevels" suffix) true
       = Failure (NoOptionError option section') ->
     setup_colormap ext section suffix w = (Ok (cm, None), w)).
Proof.
  intros Hname Hcm Hind. split.
  - intros levels Hlev Hne.
    assert (Hrun : setup_colormap ext section suffix w
      = if Nat.eqb (List.length levels + 1) (List.length indices) then
          (Ok (ListedColormap (map (cmap_call cm) (removelast (tl indices)))
                 (String.append "colormapName" suffix)
                 (Some (cmap_call cm (hd 0%Z indices)))
                 (Some (cmap_call cm (last indices 0%Z))), Some levels), w)
        else if negb (Z.of_nat (List.length levels) - 1
                      =? Z.of_nat (List.length indices))%Z then
          (Raise Explicit
             (ValueError "length mismatch between indices and colorbarLevels"), w)
        else
          (Ok (ListedColormap (map (cmap_call cm) indices)
                 (String.append "colormapName" suffix)
                 (Some (cmap_call cm (hd 0%Z indices)))
                 (Some (cmap_call cm (last indices 0%Z))), Some levels), w)).
    { unfold setup_colormap, bind, try_except, config_get, config_getExpression,
        lib, runtime, ret, raise.
      cbv beta. rewrite Hname. cbn [tag]. cbv beta iota.
      rewrite Hcm. cbn [tag]. cbv beta iota.
      rewrite Hind. cbn [tag]. cbv beta iota.
      rewrite Hlev. cbn [tag]. cbv beta iota.
      rewrite (py_index_first indices 0%Z Hne). cbn [tag]. cbv beta iota.
      rewrite (py_index_last indices 0%Z Hne). cbn [tag]. cbv beta iota.
      rewrite py_slice_inner.
      destruct (Nat.eqb (List.length levels + 1) (List.length indices));
        [reflexivity|].
      destruct (negb _); reflexivity. }
    rewrite Hrun. split; [|split].
    + intros Hlen.
      destruct (Nat.eqb_spec (List.length levels + 1) (List.length indices));
        [|lia].
      eexists. split; [reflexivity|]. cbn [cmap_colors cmap_under cmap_over].
      repeat split.
      intros Hlevels. rewrite length_map, length_removelast_tl.
      destruct levels; [congruence | cbn [List.length] in *; lia].
    + intros Hlen.
      destruct (Nat.eqb_spec (List.length levels + 1) (List.length indices));
        [lia|].
      destruct (Z.eqb_spec (Z.of_nat (List.length levels) - 1)
                           (Z.of_nat (List.length indices))); [|lia].
      cbn [negb].
      eexists. split; [reflexivity|]. cbn [cmap_colors cmap_under cmap_over].
      repeat split. rewrite length_map. lia.
    + intros Hlen1 Hlen2.
      destruct (Nat.eqb_spec (List.length levels + 1) (List.length indices));
        [lia|].
      destruct (Z.eqb_spec (Z.of_nat (List.length levels) - 1)
                           (Z.of_nat (List.length indices))); [lia|].
      reflexivity.
  - intros option section' Hlev.
    rewrite (setup_colormap_levels_failure ext section suffix w name cm indices _
               Hname Hcm Hind Hlev).
    reflexivity.
Qed.

Lemma setup_colormap_lengths_witness :
  setup_colormap Sample.ext "fitting" "" Sample.w0
  = (Ok (ListedColormap [ColorAt "RdYlBu_r" 40; ColorAt "RdYlBu_r" 80]
           "colormapName" (Some (ColorAt "RdYlBu_r" 0))
           (Some (ColorAt "RdYlBu_r" 120)), Some [-2; 0; 2]%Z), Sample.w0) /\
  setup_colormap Sample.ext "tooManyIndices" "" Sample.w0
  = (Raise Explicit
       (ValueError "length mismatch between indices and colorbarLevels"),
     Sample.w0) /\
  setup_colormap Sample.ext "noLevels" "" Sample.w0
  = (Ok (Registered "viridis" 256, None), Sample.w0).
Proof.
  pose proof (setup_colormap_lengths Sample.ext "fitting" "" Sample.w0
                "RdYlBu_r" (Registered "RdYlBu_r" 256) [0; 40; 80; 120]%Z
                eq_refl eq_refl eq_refl) as [Hfit _].
  pose proof (setup_colormap_lengths Sample.ext "tooManyIndices" "" Sample.w0
                "RdYlBu_r" (Registered "RdYlBu_r" 256) [0; 40; 80; 120; 160]%Z
                eq_refl eq_refl eq_refl) as [Hmany _].
  pose proof (setup_colormap_lengths Sample.ext "noLevels" "" Sample.w0
                "viridis" (Registered "viridis" 256) [0; 255]%Z
                eq_refl eq_refl eq_refl) as [_ Hnone].
  split; [|split].
  - destruct (Hfit [-2; 0; 2]%Z eq_refl ltac:(discriminate)) as [Hplus _].
    destruct (Hplus eq_refl) as [cmap' [Hrun _]].
    rewrite Hrun. vm_compute in Hrun. injection Hrun as <-. reflexivity.
  - destruct (Hmany [-2; 0; 2]%Z eq_refl ltac:(discriminate)) as [_ [_ Hraise]].
    apply Hraise; cbn; lia.
  - apply (Hnone "colorbarLevels" "noLevels"). reflexivity.
Defined.

(** C8.  With [colorbarLevels] present and no index at all,
    [setup_colormap] raises the [IndexError] of the subscript
    [indices[0]], whatever the levels are: the lengths are never compared,
    and the [ValueError] of the length check is not raised. *)
Theorem setup_colormap_empty_indices
    {Config : Type} {CP : ConfigParser Config} (ext : External)
    (section suffix : string) (w : world Config)
    (name : string) (cm : Colormap) (levels : list Z) :
  get (w_config w) section (String.append "colormapName" suffix) = Success name ->
  get_cmap ext name = Success cm ->
  getExpression (w_config w) section (String.append "colormapIndices" suffix) true
    = Success [] ->
  getExpression (w_config w) section (String.append "colorbarLevels" suffix) true
    = Success levels ->
  setup_colormap ext section suffix w
  = (Raise Runtime (IndexError "list index out of range"), w).
Proof.
  intros Hname Hcm Hind Hlev.
  unfold setup_colormap, bind, try_except, config_get, config_getExpression,
    lib, runtime, ret.
  cbv beta. rewrite Hname. cbn [tag]. cbv beta iota.
  rewrite Hcm. cbn [tag]. cbv beta iota.
  rewrite Hind. cbn [tag]. cbv beta iota.
  rewrite Hlev. cbn [tag]. cbv beta iota.
  reflexivity.
Qed.

Lemma setup_colormap_empty_indices_witness :
  getExpression Sample.config "noIndices" "colorbarLevels" true
  = Success [0; 1]%Z /\
  setup_colormap Sample.ext "noIndices" "" Sample.w0
  = (Raise Runtime (IndexError "list index out of range"), Sample.w0).
Proof.
  split; [reflexivity|].
  apply (setup_colormap_empty_indices Sample.ext "noIndices" "" Sample.w0
           "RdYlBu_r" (Registered "RdYlBu_r" 256) [0; 1]%Z); reflexivity.
Defined.

(** So the sentence of the specification does not hold of the code as it
    is written. *)
Lemma not_setup_colormap_raises_ValueError_unless_lengths_fit :
  ~ setup_colormap_raises_ValueError_unless_lengths_fit.
Proof.
  intros H.
  destruct (H Sample.TableConfig Sample.TableConfigParser Sample.ext "noIndices" "" Sample.w0
              "RdYlBu_r" (Registered "RdYlBu_r" 256) []%Z [0; 1]%Z
              eq_refl eq_refl eq_refl eq_refl)
    as [o [msg Hr]].
  - cbn. lia.
  - cbn. lia.
  - vm_compute in Hr. discriminate Hr.
Qed.

(* ================================================================== *)
(** * The moving average of [plot_vertical_section] *)

(** A loop whose body keeps an invariant of the loop variable and leaves
    the world alone. *)
Lemma for_each_invariant {Config X S} (I : S -> Prop) (xs : list X)
    (body : X -> S -> M Config S) (s s' : S) (w w' : world Config) :
  (forall x s0 w0 s1 w1,
     In x xs -> I s0 -> body x s0 w0 = (Ok s1, w1) -> I s1 /\ w1 = w0) ->
  I s ->
  for_each xs body s w = (Ok s', w') ->
  I s' /\ w' = w.
Proof.
  revert s w. induction xs as [|x xs IH]; intros s w Hbody Hs Hrun.
  - cbn in Hrun. injection Hrun as <- <-. auto.
  - cbn [for_each] in Hrun. unfold bind in Hrun.
    destruct (body x s w) as [[s1|o e] w1] eqn:Hx; [|discriminate Hrun].
    destruct (Hbody x s w s1 w1 (or_introl eq_refl) Hs Hx) as [Hs1 ->].
    apply (IH s1 w); [|exact Hs1|exact Hrun].
    intros y s0 w0 s2 w2 Hy. apply Hbody. right. exact Hy.
Qed.

Lemma subscript_In {A} (l : list A) (i : nat) (a : A) :
  subscript l i = Success a -> In a l.
Proof.
  unfold subscript. destruct (nth_error l i) eqn:E; [|discriminate].
  intros [= <-]. eapply nth_error_In. exact E.
Qed.

(** C9, as the code has it.  For every [N > 1], the moving average leaves
    the world alone and trims [xArray] and every smoothed depth slice to
    one length, which is the second dimension of the new field array when
    there is a depth level.  For [N >= 3] and an [xArray] of at least
    [N - 1] points, exactly [N - 1] points are removed from each. *)
Theorem moving_average_lengths
    {Config : Type} {CP : ConfigParser Config} (ext : External)
    (N : Z) (xArray depthArray : list Q) (fieldArray : Array2D)
    (w w' : world Config) (xArray' : list Q) (fieldArray' : Array2D) :
  rolling_preserves_length ext ->
  (1 < N)%Z ->
  List.length xArray = shape1 fieldArray ->
  List.length depthArray = shape0 fieldArray ->
  wf_Array2D fieldArray ->
  moving_average ext N xArray depthArray fieldArray w
    = (Ok (xArray', fieldArray'), w') ->
  w' = w /\
  Forall (fun slice => List.length slice = List.length xArray') (rows fieldArray') /\
  (rows fieldArray' <> [] -> shape1 fieldArray' = List.length xArray') /\
  ((3 <= N)%Z -> (N - 1 <= Z.of_nat (List.length xArray))%Z ->
   Z.of_nat (List.length xArray')
   = (Z.of_nat (List.length xArray) - (N - 1))%Z /\
   Forall (fun slice => Z.of_nat (List.length slice)
                        = (Z.of_nat (shape1 fieldArray) - (N - 1))%Z)
          (rows fieldArray')).
Proof.
  intros Hroll HN Hx Hdepth Hwf Hrun.
  unfold moving_average, bind in Hrun.
  destruct (for_each _ _ _ w) as [[slices|o e] w1] eqn:Hloop; [|discriminate Hrun].
  cbn in Hrun. injection Hrun as <- <- <-.
  apply (for_each_invariant
           (fun acc => Forall (fun slice => List.length slice
                                            = List.length (trim_window N xArray)) acc))
    in Hloop.
  - destruct Hloop as [Hslices ->].
    split; [reflexivity|]. split; [exact Hslices|]. split.
    + cbn. destruct slices as [|r rs]; [congruence|]. intros _.
      inversion Hslices; assumption.
    + intros H3 Hlen.
      assert (Hcount : Z.of_nat (List.length (trim_window N xArray))
                       = (Z.of_nat (List.length xArray) - (N - 1))%Z).
      { rewrite trim_window_length by exact H3. lia. }
      split; [exact Hcount|]. cbn.
      eapply Forall_impl; [|exact Hslices].
      intros slice Hs. cbv beta in Hs. rewrite Hs, <- Hx. exact Hcount.
  - intros nVertLevel acc w0 acc1 w2 _ Hacc Hbody.
    unfold bind, lib in Hbody.
    destruct (subscript (rows fieldArray) nVertLevel) as [depthSlice|e] eqn:Hrow;
      [|discriminate Hbody].
    cbn in Hbody.
    destruct (rolling_mean ext N depthSlice) as [mean|e] eqn:Hmean;
      [|discriminate Hbody].
    cbn in Hbody. injection Hbody as <- <-.
    split; [|reflexivity].
    apply Forall_app. split; [exact Hacc|]. constructor; [|constructor].
    apply trim_window_length_eq.
    rewrite (Hroll _ _ _ Hmean).
    apply subscript_In in Hrow.
    unfold wf_Array2D in Hwf. rewrite Forall_forall in Hwf.
    rewrite (Hwf _ Hrow). symmetry. exact Hx.
  - constructor.
Qed.

Lemma rolling_center_preserves_length : rolling_preserves_length Sample.ext.
Proof.
  intros N s s' H. cbn in H. unfold Sample.rolling_center in H.
  destruct (N <? 1)%Z; [discriminate H|].
  injection H as <-. rewrite length_map, length_seq. reflexivity.
Qed.

Lemma moving_average_lengths_witness :
  moving_average Sample.ext 3 [0; 1; 2]%Q [10; 20]%Q Sample.field Sample.w0
  = (Ok ([1%Q], mkArray2D 1 [[Some 2%Q]; [Some 5%Q]]), Sample.w0) /\
  Z.of_nat (List.length [1%Q]) = (Z.of_nat (List.length [0; 1; 2]%Q) - (3 - 1))%Z /\
  Forall (fun slice => List.length slice = List.length [1%Q])
         [[Some 2%Q]; [Some 5%Q]].
Proof.
  assert (Hrun : moving_average Sample.ext 3 [0; 1; 2]%Q [10; 20]%Q Sample.field
                   Sample.w0
                 = (Ok ([1%Q], mkArray2D 1 [[Some 2%Q]; [Some 5%Q]]), Sample.w0))
    by (vm_compute; reflexivity).
  split; [exact Hrun|].
  destruct (moving_average_lengths Sample.ext 3 [0; 1; 2]%Q [10; 20]%Q Sample.field
              Sample.w0 Sample.w0 [1%Q] (mkArray2D 1 [[Some 2%Q]; [Some 5%Q]])
              rolling_center_preserves_length ltac:(lia) eq_refl eq_refl
              ltac:(repeat constructor) Hrun)
    as [_ [Hslices [_ Hcount]]].
  split; [|exact Hslices].
  apply Hcount; cbn; lia.
Defined.

(** C9 as stated fails: a window of five points over three x values
    leaves none, which is three points less and not four. *)
Lemma not_moving_average_removes_N_minus_1_points :
  ~ moving_average_removes_N_minus_1_points.
Proof.
  intros H.
  destruct (H Sample.TableConfig Sample.TableConfigParser Sample.ext 5%Z
              [0; 1; 2]%Q [10; 20]%Q Sample.field Sample.w0 Sample.w0
              [] (mkArray2D 0 [[]; []])
              rolling_center_preserves_length ltac:(lia) eq_refl eq_refl
              ltac:(repeat constructor) ltac:(vm_compute; reflexivity))
    as [_ [Hcount _]].
  cbn in Hcount. discriminate Hcount.
Qed.

(** A window of two points leaves no point at all: the stop index of the
    slice is [-0]. *)
Lemma moving_average_window_2
    {Config : Type} {CP : ConfigParser Config} (ext : External)
    (xArray depthArray : list Q) (fieldArray : Array2D)
    (w w' : world Config) (xArray' : list Q) (fieldArray' : Array2D) :
  moving_average ext 2 xArray depthArray fieldArray w
    = (Ok (xArray', fieldArray'), w') ->
  xArray' = [].
Proof.
  intros Hrun. unfold moving_average, bind in Hrun.
  destruct (for_each _ _ _ w) as [[slices|o e] w1]; [|discriminate Hrun].
  cbn in Hrun. injection Hrun as <- <- <-. apply trim_window_2.
Qed.

Example moving_average_window_2_sample :
  moving_average Sample.ext 2 [0; 1; 2]%Q [10; 20]%Q Sample.field Sample.w0
  = (Ok ([], mkArray2D 0 [[]; []]), Sample.w0).
Proof. vm_compute. reflexivity. Qed.

(** [plot_1D] on empty lists reads the loop variable [dsIndex] that no
    iteration has bound. *)
Example plot_1D_empty_raises :
  plot_1D [] [] [] [] [] [] None None None (Some "plot_1D.png") (10, 4)%Q None
    None None false Sample.w0
  = (Raise Runtime (UnboundLocalError "dsIndex"),
     mkWorld Sample.config [EFigure (10, 4)%Q 200; EGrid; EAxhline 0 "-" "k"]).
Proof. vm_compute. reflexivity. Qed.

(** The call of C3 on the sample configuration: the figure is created and
    left open, and no file is written. *)
Example timeseries_analysis_plot_None_sample :
  timeseries_analysis_plot Sample.ext [None] 1 (Some "SST") None None
    (Some "sst.png") ["r-"] [2%Q] ["model"] "gregorian" None (15, 6)%Q None 20
    Sample.w0
  = (Raise Library
       (ValueError
          "zero-size array to reduction operation minimum which has no identity"),
     mkWorld Sample.config
       [EFigure (15, 6)%Q 200; ELegend (Some "lower left"); EGca; EGca]).
Proof. vm_compute. reflexivity. Qed.

(* ================================================================== *)
(** * Rules of the logic of observations *)

Section SeesRules.

Context {Config : Type} {CP : ConfigParser Config} {K : Type}.
Variable see : event -> list K.
Variable c : Config.

Lemma sees_conseq {A} (m : M Config A) (Q Q' : list K -> result A -> Prop) :
  sees see c m Q -> (forall ks r, Q ks r -> Q' ks r) -> sees see c m Q'.
Proof.
  intros H HQ w Hw. destruct (H w Hw) as [Hc [evs [Ht Hq]]].
  split; [assumption|]. exists evs. auto.
Qed.

(** Two facts about one run hold together. *)
Lemma sees_and {A} (m : M Config A) (Q1 Q2 : list K -> result A -> Prop) :
  sees see c m Q1 -> sees see c m Q2 ->
  sees see c m (fun ks r => Q1 ks r /\ Q2 ks r).
Proof.
  intros H1 H2 w Hw.
  destruct (H1 w Hw) as [Hc [evs1 [Ht1 Hq1]]].
  destruct (H2 w Hw) as [_ [evs2 [Ht2 Hq2]]].
  split; [assumption|]. exists evs1. split; [assumption|].
  rewrite Ht1 in Ht2. apply app_inv_head in Ht2. subst evs2. auto.
Qed.

(** A fact about the result that holds from every world. *)
Lemma sees_result {A} (m : M Config A) (Q : list K -> result A -> Prop)
    (P : result A -> Prop) :
  sees see c m Q -> (forall w, P (fst (m w))) ->
  sees see c m (fun ks r => Q ks r /\ P r).
Proof.
  intros H HP w Hw. destruct (H w Hw) as [Hc [evs [Ht Hq]]].
  split; [assumption|]. exists evs. auto.
Qed.

Lemma sees_pure {A} (r : result A) (Q : list K -> result A -> Prop) :
  Q [] r -> sees see c (fun w => (r, w)) Q.
Proof.
  intros HQ w Hw. cbn. split; [assumption|].
  exists []. rewrite app_nil_r. auto.
Qed.

Lemma sees_ret {A} (a : A) (Q : list K -> result A -> Prop) :
  Q [] (Ok a) -> sees see c (ret a) Q.
Proof. apply sees_pure. Qed.

Lemma sees_raise {A} (e : exn) (Q : list K -> result A -> Prop) :
  Q [] (Raise Explicit e) -> sees see c (raise e) Q.
Proof. apply sees_pure. Qed.

Lemma sees_runtime {A} (r : Except A) (Q : list K -> result A -> Prop) :
  Q [] (tag Runtime r) -> sees see c (runtime r) Q.
Proof. apply sees_pure. Qed.

Lemma sees_lib {A} (r : Except A) (Q : list K -> result A -> Prop) :
  Q [] (tag Library r) -> sees see c (lib r) Q.
Proof. apply sees_pure. Qed.

Lemma sees_emit (e : event) (Q : list K -> result unit -> Prop) :
  Q (see e) (Ok tt) -> sees see c (emit e) Q.
Proof.
  intros HQ w Hw. cbn. split; [assumption|].
  exists [e]. split; [reflexivity|]. cbn. rewrite app_nil_r. assumption.
Qed.

Lemma sees_config_get (s o : string) (Q : list K -> result string -> Prop) :
  Q [] (tag Library (get c s o)) -> sees see c (config_get s o) Q.
Proof.
  intros HQ w Hw. unfold config_get. cbn. rewrite Hw. split; [reflexivity|].
  exists []. rewrite app_nil_r. auto.
Qed.

Lemma sees_config_getint (s o : string) (Q : list K -> result Z -> Prop) :
  Q [] (tag Library (getint c s o)) -> sees see c (config_getint s o) Q.
Proof.
  intros HQ w Hw. unfold config_getint. cbn. rewrite Hw. split; [reflexivity|].
  exists []. rewrite app_nil_r. auto.
Qed.

Lemma sees_config_getboolean (s o : string) (Q : list K -> result bool -> Prop) :
  Q [] (tag Library (getboolean c s o)) -> sees see c (config_getboolean s o) Q.
Proof.
  intros HQ w Hw. unfold config_getboolean. cbn. rewrite Hw. split; [reflexivity|].
  exists []. rewrite app_nil_r. auto.
Qed.

Lemma sees_config_getExpression (s o : string) (b : bool)
    (Q : list K -> result (list Z) -> Prop) :
  Q [] (tag Library (getExpression c s o b)) ->
  sees see c (config_getExpression s o b) Q.
Proof.
  intros HQ w Hw. unfold config_getExpression. cbn. rewrite Hw.
  split; [reflexivity|].
  exists []. rewrite app_nil_r. auto.
Qed.

Lemma sees_get_ylim (ext : External) (Q : list K -> result (Q * Q) -> Prop) :
  (forall lim, Q [] (Ok lim)) -> sees see c (get_ylim ext) Q.
Proof.
  intros HQ w Hw. cbn. split; [assumption|]. exists [].
  rewrite app_nil_r. split; [reflexivity | apply HQ].
Qed.

Lemma sees_get_xlim (ext : External) (Q : list K -> result (Q * Q) -> Prop) :
  (forall lim, Q [] (Ok lim)) -> sees see c (get_xlim ext) Q.
Proof.
  intros HQ w Hw. cbn. split; [assumption|]. exists [].
  rewrite app_nil_r. split; [reflexivity | apply HQ].
Qed.

Lemma sees_bind {A B} (m : M Config A) (k : A -> M Config B)
    (Q : list K -> result B -> Prop) :
  sees see c m (fun k1 r =>
                  match r with
                  | Ok a => sees see c (k a) (fun k2 r' => Q (k1 ++ k2) r')
                  | Raise o e => Q k1 (Raise o e)
                  end) ->
  sees see c (bind m k) Q.
Proof.
  intros H w Hw. destruct (H w Hw) as [Hc [evs [Ht HQ]]].
  unfold bind. destruct (m w) as [[a|o e] w1]; cbn in *.
  - destruct (HQ w1 Hc) as [Hc2 [evs2 [Ht2 HQ2]]].
    split; [assumption|]. exists (evs ++ evs2).
    rewrite Ht2, Ht, app_assoc, flat_map_app. auto.
  - split; [assumption|]. exists evs. auto.
Qed.

Lemma sees_try_except {A} (m : M Config A) (handles : exn -> bool)
    (handler : M Config A) (Q : list K -> result A -> Prop) :
  sees see c m (fun k1 r =>
                  match r with
                  | Ok a => Q k1 (Ok a)
                  | Raise o e =>
                      if handles e
                      then sees see c handler (fun k2 r' => Q (k1 ++ k2) r')
                      else Q k1 (Raise o e)
                  end) ->
  sees see c (try_except m handles handler) Q.
Proof.
  intros H w Hw. destruct (H w Hw) as [Hc [evs [Ht HQ]]].
  unfold try_except. destruct (m w) as [[a|o e] w1]; cbn in *.
  - split; [assumption|]. exists evs. auto.
  - destruct (handles e).
    + destruct (HQ w1 Hc) as [Hc2 [evs2 [Ht2 HQ2]]].
      split; [assumption|]. exists (evs ++ evs2).
      rewrite Ht2, Ht, app_assoc, flat_map_app. auto.
    + split; [assumption|]. exists evs. auto.
Qed.

(** A loop that shows [g x] for every [x] it completes. *)
Lemma sees_for_each {X S} (g : X -> list K) (xs : list X)
    (body : X -> S -> M Config S) (s : S) :
  (forall x s0,
     sees see c (body x s0)
       (fun ks r => match r with Ok _ => ks = g x | Raise _ _ => True end)) ->
  sees see c (for_each xs body s)
    (fun ks r => match r with Ok _ => ks = flat_map g xs | Raise _ _ => True end).
Proof.
  intros Hbody. revert s.
  induction xs as [|x xs IH]; intros s; cbn [for_each flat_map].
  - apply sees_ret. reflexivity.
  - apply sees_bind. eapply sees_conseq; [apply Hbody|].
    intros ks [s1|o e] Hks; [|exact I]. subst ks.
    eapply sees_conseq; [apply IH|].
    intros ks [s2|o e] Hks; [|exact I]. subst ks. reflexivity.
Qed.

(** ** Statements that show nothing *)

Lemma unseen_pure {A} (r : result A) : unseen see c (fun w => (r, w)).
Proof. apply sees_pure. reflexivity. Qed.

Lemma unseen_ret {A} (a : A) : unseen see c (ret a).
Proof. apply unseen_pure. Qed.

Lemma unseen_raise {A} (e : exn) : unseen see c (@raise Config A e).
Proof. apply unseen_pure. Qed.

Lemma unseen_runtime {A} (r : Except A) : unseen see c (runtime r).
Proof. apply unseen_pure. Qed.

Lemma unseen_lib {A} (r : Except A) : unseen see c (lib r).
Proof. apply unseen_pure. Qed.

Lemma unseen_local {A} (name : string) (v : option A) : unseen see c (local name v).
Proof. destruct v; [apply unseen_ret | apply unseen_runtime]. Qed.

Lemma unseen_emit (e : event) : see e = [] -> unseen see c (emit e).
Proof. intros He. apply sees_emit. exact He. Qed.

Lemma unseen_config_get (s o : string) : unseen see c (config_get s o).
Proof. apply sees_config_get. reflexivity. Qed.

Lemma unseen_config_getint (s o : string) : unseen see c (config_getint s o).
Proof. apply sees_config_getint. reflexivity. Qed.

Lemma unseen_config_getboolean (s o : string) : unseen see c (config_getboolean s o).
Proof. apply sees_config_getboolean. reflexivity. Qed.

Lemma unseen_config_getExpression (s o : string) (b : bool) :
  unseen see c (config_getExpression s o b).
Proof. apply sees_config_getExpression. reflexivity. Qed.

Lemma unseen_get_ylim (ext : External) : unseen see c (get_ylim ext).
Proof. apply sees_get_ylim. reflexivity. Qed.

Lemma unseen_get_xlim (ext : External) : unseen see c (get_xlim ext).
Proof. apply sees_get_xlim. reflexivity. Qed.

Lemma unseen_bind {A B} (m : M Config A) (k : A -> M Config B) :
  unseen see c m -> (forall a, unseen see c (k a)) -> unseen see c (bind m k).
Proof.
  intros Hm Hk. apply sees_bind. eapply sees_conseq; [exact Hm|].
  intros ks [a|o e] Hks; subst ks; [|reflexivity].
  eapply sees_conseq; [apply Hk|]. intros ks r H. exact H.
Qed.

Lemma unseen_try_except {A} (m : M Config A) (handles : exn -> bool)
    (handler : M Config A) :
  unseen see c m -> unseen see c handler ->
  unseen see c (try_except m handles handler).
Proof.
  intros Hm Hh. apply sees_try_except. eapply sees_conseq; [exact Hm|].
  intros ks [a|o e] Hks; subst ks; [reflexivity|].
  destruct (handles e); [|reflexivity].
  eapply sees_conseq; [exact Hh|]. intros ks r H. exact H.
Qed.

Lemma unseen_for_each {X S} (xs : list X) (body : X -> S -> M Config S) (s : S) :
  (forall x s', unseen see c (body x s')) -> unseen see c (for_each xs body s).
Proof.
  intros Hbody. revert s.
  induction xs as [|x xs IH]; intros s; cbn [for_each].
  - apply unseen_ret.
  - apply unseen_bind; [apply Hbody | exact IH].
Qed.

Lemma unseen_if_not_None {A} (x : option A) (body : A -> M Config unit) :
  (forall a, unseen see c (body a)) -> unseen see c (if_not_None x body).
Proof.
  intros Hbody. destruct x; cbn; [apply Hbody | apply unseen_ret].
Qed.

Lemma unseen_if_truthy {A} (x : option (list A)) (body : list A -> M Config unit) :
  (forall l, unseen see c (body l)) -> unseen see c (if_truthy x body).
Proof.
  intros Hbody. destruct x as [[|a l]|]; cbn;
    [apply unseen_ret | apply Hbody | apply unseen_ret].
Qed.

Lemma unseen_void {A} (m : M Config A) : unseen see c m -> unseen see c (void m).
Proof.
  intros Hm. apply unseen_bind; [assumption|]. intros a. apply unseen_ret.
Qed.

(** An unseen statement in front of [k]. *)
Lemma sees_unseen_bind {A B} (m : M Config A) (k : A -> M Config B)
    (Q : list K -> result B -> Prop) :
  unseen see c m ->
  (forall a, sees see c (k a) Q) ->
  (forall o e, Q [] (Raise o e)) ->
  sees see c (bind m k) Q.
Proof.
  intros Hm Hk HQ. apply sees_bind. eapply sees_conseq; [exact Hm|].
  intros ks [a|o e] Hks; subst ks; [apply Hk | apply HQ].
Qed.

End SeesRules.

Create HintDb unseen.

(** One step of a proof that a block shows nothing. *)
Ltac unseen_step :=
  lazymatch goal with
  | |- unseen _ _ (ret _) => apply unseen_ret
  | |- unseen _ _ (raise _) => apply unseen_raise
  | |- unseen _ _ (runtime _) => apply unseen_runtime
  | |- unseen _ _ (lib _) => apply unseen_lib
  | |- unseen _ _ (local _ _) => apply unseen_local
  | |- unseen _ _ (config_get _ _) => apply unseen_config_get
  | |- unseen _ _ (config_getint _ _) => apply unseen_config_getint
  | |- unseen _ _ (config_getboolean _ _) => apply unseen_config_getboolean
  | |- unseen _ _ (config_getExpression _ _ _) => apply unseen_config_getExpression
  | |- unseen _ _ (get_ylim _) => apply unseen_get_ylim
  | |- unseen _ _ (get_xlim _) => apply unseen_get_xlim
  | |- unseen _ _ (emit _) => apply unseen_emit; reflexivity
  | |- unseen _ _ (bind _ _) => apply unseen_bind; [|intros]
  | |- unseen _ _ (try_except _ _ _) => apply unseen_try_except
  | |- unseen _ _ (for_each _ _ _) => apply unseen_for_each; intros
  | |- unseen _ _ (if_not_None _ _) => apply unseen_if_not_None; intros
  | |- unseen _ _ (if_truthy _ _) => apply unseen_if_truthy; intros
  | |- unseen _ _ (void _) => apply unseen_void
  | |- unseen _ _ (match ?x with _ => _ end) => destruct x
  | |- unseen _ _ (plot_xtick_format _ _ _ _ _) => unfold plot_xtick_format
  | |- unseen _ _ (do_subplot _ _ _ _ _ _ _ _ _ _ _ _) => unfold do_subplot
  | |- unseen _ _ (polar_tick_locs _) => unfold polar_tick_locs
  | |- unseen _ _ (moving_average _ _ _ _ _) => unfold moving_average
  | |- unseen _ _ _ => solve [auto with unseen]
  end.

Ltac prove_unseen := repeat unseen_step.

(** Pass the statements in front that show nothing; [leaf] closes the case
    that one of them raises. *)
Ltac pass leaf :=
  repeat (cbv beta iota;
          lazymatch goal with
          | |- sees _ _ (bind (bind _ _) _) _ => fail
          | |- sees _ _ (bind _ _) _ =>
              apply sees_unseen_bind;
              [solve [prove_unseen] | intros | intros; solve [leaf]]
          end).

(** Pass one statement that shows nothing. *)
Ltac pass1 leaf :=
  cbv beta iota;
  lazymatch goal with
  | |- sees _ _ (bind _ _) _ =>
      apply sees_unseen_bind;
      [solve [prove_unseen] | intros | intros; solve [leaf]]
  end.

Section UnseenBlocks.

Context {Config : Type} {CP : ConfigParser Config} {K : Type}.
Variable see : event -> list K.
Variable c : Config.
Variable ext : External.

Lemma unseen_polar_tick_locs : unseen see c (polar_tick_locs ext).
Proof. unfold polar_tick_locs. prove_unseen. Qed.

Lemma unseen_moving_average (N : Z) (xArray depthArray : list Q)
    (fieldArray : Array2D) :
  unseen see c (moving_average ext N xArray depthArray fieldArray).
Proof. unfold moving_average. prove_unseen. Qed.

Lemma unseen_setup_colormap (configSectionName suffix : string) :
  unseen see c (setup_colormap ext configSectionName suffix).
Proof. unfold setup_colormap. prove_unseen. Qed.

End UnseenBlocks.

#[export] Hint Resolve unseen_polar_tick_locs unseen_moving_average
  unseen_setup_colormap : unseen.

(* ================================================================== *)
(** * More about the plotting routines *)

(** What is seen of the whole trace is the trace. *)
Lemma flat_map_see_all (evs : list event) : flat_map see_all evs = evs.
Proof.
  induction evs as [|e evs IH]; [reflexivity|]. cbn. rewrite IH. reflexivity.
Qed.

(** A computation that shows nothing at all leaves the world as it is. *)
Lemma unseen_all_world {Config} {CP : ConfigParser Config} {A}
    (m : M Config A) (w : world Config) :
  unseen see_all (w_config w) m -> snd (m w) = w.
Proof.
  intros H. destruct (H w eq_refl) as [Hc [evs [Ht Hevs]]].
  rewrite flat_map_see_all in Hevs. subst evs. rewrite app_nil_r in Ht.
  destruct (snd (m w)) as [c' t'], w as [c t]. cbn in *. congruence.
Qed.

(** X1.  [plot_vertical_section] raises an error of its own exactly on a
    shape mismatch, and the message names the array: [xArray] is checked
    first, [depthArray] only when [xArray] fits. *)
Theorem plot_vertical_section_own_error
    {Config : Type} {CP : ConfigParser Config} (ext : External)
    xArray depthArray fieldArray colormapName colorbarLevels contourLevels
    colorbarLabel title xlabel ylabel fileout figsize dpi xLim yLim linewidths
    invertYAxis xArrayIsTime N maxXTicks calendar (w : world Config) :
  let r := fst (plot_vertical_section ext xArray depthArray fieldArray
                  colormapName colorbarLevels contourLevels colorbarLabel title
                  xlabel ylabel fileout figsize dpi xLim yLim linewidths
                  invertYAxis xArrayIsTime N maxXTicks calendar w) in
  (List.length xArray <> shape1 fieldArray ->
   r = Raise Explicit (ValueError "size mismatch between xArray and fieldArray")) /\
  (List.length xArray = shape1 fieldArray ->
   List.length depthArray <> shape0 fieldArray ->
   r = Raise Explicit
         (ValueError "size mismatch between depthArray and fieldArray")) /\
  (List.length xArray = shape1 fieldArray ->
   List.length depthArray = shape0 fieldArray ->
   forall e, r <> Raise Explicit e).
Proof.
  cbv zeta. split; [|split].
  - intros Hx. unfold plot_vertical_section, bind.
    destruct (Nat.eqb_spec (List.length xArray) (shape1 fieldArray)); [contradiction|].
    reflexivity.
  - intros Hx Hd. unfold plot_vertical_section, bind.
    destruct (Nat.eqb_spec (List.length xArray) (shape1 fieldArray)); [|contradiction].
    destruct (Nat.eqb_spec (List.length depthArray) (shape0 fieldArray));
      [contradiction|].
    reflexivity.
  - intros Hx Hd e Hr.
    pose (call := PlotVerticalSection xArray depthArray fieldArray colormapName
                    colorbarLevels contourLevels colorbarLabel title xlabel ylabel
                    fileout figsize dpi xLim yLim linewidths invertYAxis
                    xArrayIsTime N maxXTicks calendar).
    destruct (plot_call_effect ext call w) as [evs [_ [_ [_ Hp]]]].
    cbn [run_plot_call call] in Hp. rewrite Hr in Hp.
    destruct Hp as [_ Hp]. destruct (Hp eq_refl) as [Hs _].
    unfold call in Hs. cbn [shape_error] in Hs.
    rewrite Hx, Hd, !Nat.eqb_refl in Hs. discriminate Hs.
Qed.

Lemma plot_vertical_section_own_error_witness :
  fst (run_plot_call Sample.ext Sample.mismatched_call Sample.w0)
  = Raise Explicit (ValueError "size mismatch between xArray and fieldArray") /\
  forall e, fst (run_plot_call Sample.ext Sample.vertical_section_call Sample.w0)
            <> Raise Explicit e.
Proof.
  split.
  - apply (plot_vertical_section_own_error Sample.ext). cbn. discriminate.
  - apply (plot_vertical_section_own_error Sample.ext); reflexivity.
Defined.

(** X2.  With [dpi] omitted and option [dpi] unreadable, a plotting call
    whose shapes fit ends with the exception of the configuration before
    it has called pyplot: the world is as before. *)
Theorem plot_call_without_dpi
    {Config : Type} {CP : ConfigParser Config} (ext : External)
    (call : plot_call) (w : world Config) (e : exn) :
  call_dpi call = None ->
  shape_error call = None ->
  getint (w_config w) "plot" "dpi" = Failure e ->
  run_plot_call ext call w = (Raise Library e, w).
Proof.
  intros Hdpi Hshape Hget.
  destruct call; cbn [call_dpi] in Hdpi; subst dpi; cbn [run_plot_call].
  - unfold timeseries_analysis_plot, bind, config_getint. rewrite Hget. reflexivity.
  - unfold timeseries_analysis_plot_polar, bind, config_getint. rewrite Hget.
    reflexivity.
  - unfold plot_polar_comparison, bind, config_getint. rewrite Hget. reflexivity.
  - unfold plot_global_comparison, bind, config_getint. rewrite Hget. reflexivity.
  - unfold plot_1D, bind, config_getint. rewrite Hget. reflexivity.
  - cbn [shape_error] in Hshape.
    unfold plot_vertical_section, bind, config_getint.
    destruct (negb (Nat.eqb (List.length xArray) (shape1 fieldArray)));
      [discriminate Hshape|].
    destruct (negb (Nat.eqb (List.length depthArray) (shape0 fieldArray)));
      [discriminate Hshape|].
    cbn. rewrite Hget. reflexivity.
Qed.

Lemma plot_call_without_dpi_witness :
  run_plot_call Sample.ext Sample.vertical_section_call (Sample2.world_without "dpi")
  = (Raise Library (NoOptionError "dpi" "plot"), Sample2.world_without "dpi").
Proof.
  apply (plot_call_without_dpi Sample.ext); reflexivity.
Defined.

(** Pass the statements of a routine up to the read of [axisFontSize],
    which fails. *)
Ltac until_axisFontSize H :=
  repeat (cbv beta iota;
          lazymatch goal with
          | |- sees _ _ (bind (config_get "plot" "axisFontSize") _) _ =>
              apply sees_bind, sees_config_get; rewrite H; cbn [tag]; discriminate
          | |- sees _ _ (bind _ _) _ =>
              apply sees_unseen_bind;
              [solve [prove_unseen] | intros | intros; discriminate]
          | |- sees _ _ (match ?x with _ => _ end) _ => destruct x
          end).

Lemma plot_call_needs_axisFontSize
    {Config : Type} {CP : ConfigParser Config} (c : Config) (ext : External)
    (call : plot_call) (e : exn) :
  get c "plot" "axisFontSize" = Failure e ->
  sees see_none c (run_plot_call ext call) (fun _ r => r <> Ok tt).
Proof.
  intros H. destruct call; cbn [run_plot_call].
  - unfold timeseries_analysis_plot. until_axisFontSize H.
  - unfold timeseries_analysis_plot_polar. until_axisFontSize H.
  - unfold plot_polar_comparison. until_axisFontSize H.
  - unfold plot_global_comparison. until_axisFontSize H.
  - unfold plot_1D. until_axisFontSize H.
  - unfold plot_vertical_section. until_axisFontSize H.
Qed.

(** X3.  Every plotting routine needs the options [axisFontSize] and
    [displayToScreen] of section [plot], whatever its arguments: a call
    with one of them unreadable does not return. *)
Theorem plot_call_needs_options
    {Config : Type} {CP : ConfigParser Config} (ext : External)
    (call : plot_call) (w : world Config) (e : exn) :
  get (w_config w) "plot" "axisFontSize" = Failure e \/
  getboolean (w_config w) "plot" "displayToScreen" = Failure e ->
  fst (run_plot_call ext call w) <> Ok tt.
Proof.
  intros [H|H] Hok.
  - destruct (plot_call_needs_axisFontSize (w_config w) ext call e H w eq_refl)
      as [_ [evs [_ Hr]]].
    apply Hr. exact Hok.
  - destruct (plot_call_effect ext call w) as [evs [_ [_ [_ Hp]]]].
    rewrite Hok in Hp. destruct Hp as [_ [b Hb]]. congruence.
Qed.

Lemma plot_call_needs_options_witness :
  fst (run_plot_call Sample.ext Sample.polar_call
         (Sample2.world_without "axisFontSize")) <> Ok tt /\
  fst (run_plot_call Sample.ext Sample.plot_1D_call
         (Sample2.world_without "displayToScreen")) <> Ok tt.
Proof.
  split.
  - apply (plot_call_needs_options Sample.ext Sample.polar_call
             (Sample2.world_without "axisFontSize")
             (NoOptionError "axisFontSize" "plot")).
    left. reflexivity.
  - apply (plot_call_needs_options Sample.ext Sample.plot_1D_call
             (Sample2.world_without "displayToScreen")
             (NoOptionError "displayToScreen" "plot")).
    right. reflexivity.
Defined.

Lemma expected_figure_sizes {Config : Type} {CP : ConfigParser Config}
    (c : Config) (call : plot_call) :
  exists s, k_figure_sizes (expected_keys c call) = [s].
Proof.
  destruct call; cbn [expected_keys];
    unfold k_title, k_epilogue, polar_subplots;
    repeat match goal with
           | |- context [match ?x with _ => _ end] => destruct x
           end;
    eexists; reflexivity.
Qed.

(** X4.  A plotting call creates at most one figure, however it ends, and
    exactly one when it returns. *)
Theorem plot_call_one_figure
    {Config : Type} {CP : ConfigParser Config} (ext : External)
    (call : plot_call) (w : world Config) :
  exists evs,
    w_trace (snd (run_plot_call ext call w)) = w_trace w ++ evs /\
    List.length (figure_sizes evs) <= 1 /\
    (fst (run_plot_call ext call w) = Ok tt ->
     List.length (figure_sizes evs) = 1).
Proof.
  destruct (plot_call_effect ext call w) as [evs [Ht [_ [[rest Hk] Hp]]]].
  destruct (expected_figure_sizes (w_config w) call) as [s Hs].
  exists evs. split; [exact Ht|]. rewrite figure_sizes_keyevs. split.
  - rewrite Hk, k_figure_sizes_app in Hs.
    apply (f_equal (@List.length _)) in Hs. rewrite length_app in Hs.
    cbn in Hs. lia.
  - intros Hok. rewrite Hok in Hp. destruct Hp as [Hfull _].
    rewrite Hfull, Hs. reflexivity.
Qed.

Lemma plot_call_one_figure_witness :
  exists evs,
    w_trace (snd (run_plot_call Sample.ext Sample.timeseries_call Sample.w0))
    = w_trace Sample.w0 ++ evs /\
    List.length (figure_sizes evs) = 1.
Proof.
  destruct (plot_call_one_figure Sample.ext Sample.timeseries_call Sample.w0)
    as [evs [Ht [_ Hone]]].
  exists evs. split; [exact Ht|]. apply Hone. vm_compute. reflexivity.
Defined.

(* ================================================================== *)
(** * More about [setup_colormap] *)

(** X5.  [setup_colormap] calls nothing of pyplot that draws and leaves
    the configuration alone: the world after the call is the world before
    it, whether the call returns or raises. *)
Theorem setup_colormap_draws_nothing
    {Config : Type} {CP : ConfigParser Config} (ext : External)
    (configSectionName suffix : string) (w : world Config) :
  snd (setup_colormap ext configSectionName suffix w) = w.
Proof.
  apply unseen_all_world. apply unseen_setup_colormap.
Qed.

(** X6.  Only the option [colorbarLevels] may be missing: a failure to read
    [colormapName], an unknown colormap name, and a failure to read
    [colormapIndices] (a [NoOptionError] too) reach the caller as they
    are. *)
Theorem setup_colormap_required_options
    {Config : Type} {CP : ConfigParser Config} (ext : External)
    (section suffix : string) (w : world Config) (e : exn) :
  (get (w_config w) section (String.append "colormapName" suffix) = Failure e ->
   setup_colormap ext section suffix w = (Raise Library e, w)) /\
  (forall name,
     get (w_config w) section (String.append "colormapName" suffix) = Success name ->
     get_cmap ext name = Failure e ->
     setup_colormap ext section suffix w = (Raise Library e, w)) /\
  (forall name cm,
     get (w_config w) section (String.append "colormapName" suffix) = Success name ->
     get_cmap ext name = Success cm ->
     getExpression (w_config w) section (String.append "colormapIndices" suffix) true
       = Failure e ->
     setup_colormap ext section suffix w = (Raise Library e, w)).
Proof.
  unfold setup_colormap, bind, config_get, config_getExpression, lib.
  split; [|split].
  - intros Hname. cbv beta. rewrite Hname. reflexivity.
  - intros name Hname Hcm. cbv beta. rewrite Hname. cbn [tag]. cbv beta iota.
    rewrite Hcm. reflexivity.
  - intros name cm Hname Hcm Hind. cbv beta. rewrite Hname. cbn [tag].
    cbv beta iota. rewrite Hcm. cbn [tag]. cbv beta iota.
    rewrite Hind. reflexivity.
Qed.

(* ================================================================== *)
(** * Runs that return *)

Lemma bind_Ok_inv {Config A B} (m : M Config A) (k : A -> M Config B)
    (w w' : world Config) (b : B) :
  bind m k w = (Ok b, w') ->
  exists a w1, m w = (Ok a, w1) /\ k a w1 = (Ok b, w').
Proof.
  unfold bind. destruct (m w) as [[a|o e] w1]; [|discriminate].
  intros H. exists a, w1. auto.
Qed.

Lemma lib_Ok_inv {Config A} (r : Except A) (w w' : world Config) (a : A) :
  lib r w = (Ok a, w') -> r = Success a /\ w' = w.
Proof.
  unfold lib. destruct r; cbn; [|discriminate]. intros [= -> <-]. auto.
Qed.

Lemma runtime_Ok_inv {Config A} (r : Except A) (w w' : world Config) (a : A) :
  runtime r w = (Ok a, w') -> r = Success a /\ w' = w.
Proof.
  unfold runtime. destruct r; cbn; [|discriminate]. intros [= -> <-]. auto.
Qed.

(** A loop that appends [n] elements in every round and leaves the world
    alone. *)
Lemma for_each_length {Config X A} (n : nat) (xs : list X)
    (body : X -> list A -> M Config (list A)) (acc acc' : list A)
    (w w' : world Config) :
  (forall x a0 w0 a1 w1,
     body x a0 w0 = (Ok a1, w1) ->
     w1 = w0 /\ List.length a1 = List.length a0 + n) ->
  for_each xs body acc w = (Ok acc', w') ->
  w' = w /\ List.length acc' = List.length acc + n * List.length xs.
Proof.
  intros Hbody. revert acc w.
  induction xs as [|x xs IH]; intros acc w Hrun; cbn [for_each] in Hrun.
  - injection Hrun as <- <-. split; [reflexivity | cbn; lia].
  - apply bind_Ok_inv in Hrun. destruct Hrun as [a1 [w1 [Hx Hrest]]].
    destruct (Hbody _ _ _ _ _ Hx) as [-> Hlen].
    destruct (IH _ _ Hrest) as [-> Hlen'].
    split; [reflexivity|]. cbn [List.length]. lia.
Qed.

(* ================================================================== *)
(** * More about the moving average *)

(** X7.  With a window of two points the moving average leaves no point
    of [xArray] and none of any depth slice: the stop index of the slice,
    [-int(round(N/2.0)-1)], is [-0]. *)
Theorem moving_average_window_2_leaves_nothing
    {Config : Type} {CP : ConfigParser Config} (ext : External)
    (xArray depthArray : list Q) (fieldArray : Array2D)
    (w w' : world Config) (xArray' : list Q) (fieldArray' : Array2D) :
  moving_average ext 2 xArray depthArray fieldArray w
    = (Ok (xArray', fieldArray'), w') ->
  xArray' = [] /\ Forall (eq []) (rows fieldArray') /\ shape1 fieldArray' = 0.
Proof.
  intros Hrun. unfold moving_average in Hrun.
  apply bind_Ok_inv in Hrun. destruct Hrun as [slices [w1 [Hloop Hret]]].
  injection Hret as <- <- <-.
  split; [apply trim_window_2|].
  apply (for_each_invariant (fun acc => Forall (eq []) acc)) in Hloop.
  - destruct Hloop as [Hslices _]. split; [exact Hslices|].
    unfold shape1. cbn. destruct slices as [|r rs]; [reflexivity|].
    inversion Hslices; subst. reflexivity.
  - intros nVertLevel acc w0 acc1 w2 _ Hacc Hbody.
    apply bind_Ok_inv in Hbody. destruct Hbody as [row [w3 [Hrow Hbody]]].
    apply lib_Ok_inv in Hrow. destruct Hrow as [_ ->].
    apply bind_Ok_inv in Hbody. destruct Hbody as [mean [w4 [Hmean Hbody]]].
    apply lib_Ok_inv in Hmean. destruct Hmean as [_ ->].
    injection Hbody as <- <-. split; [|reflexivity].
    apply Forall_app. split; [exact Hacc|].
    constructor; [|constructor]. symmetry. apply trim_window_2.
  - constructor.
Qed.

Lemma moving_average_window_2_leaves_nothing_witness :
  moving_average Sample.ext 2 [0; 1; 2]%Q [10; 20]%Q Sample.field Sample.w0
  = (Ok ([], mkArray2D 0 [[]; []]), Sample.w0) /\
  Forall (eq []) (rows (mkArray2D 0 ([[]; []] : list (list value)))).
Proof.
  assert (Hrun : moving_average Sample.ext 2 [0; 1; 2]%Q [10; 20]%Q Sample.field
                   Sample.w0 = (Ok ([], mkArray2D 0 [[]; []]), Sample.w0))
    by (vm_compute; reflexivity).
  split; [exact Hrun|].
  apply (moving_average_window_2_leaves_nothing Sample.ext _ _ _ _ _ _ _ Hrun).
Defined.

(** X8.  The moving average never touches the world, and the field it
    returns has one row for every depth level, and the trimmed [xArray]
    beside it. *)
Theorem moving_average_depth_levels
    {Config : Type} {CP : ConfigParser Config} (ext : External)
    (N : Z) (xArray depthArray : list Q) (fieldArray : Array2D)
    (w : world Config) :
  snd (moving_average ext N xArray depthArray fieldArray w) = w /\
  forall xArray' fieldArray',
    fst (moving_average ext N xArray depthArray fieldArray w)
      = Ok (xArray', fieldArray') ->
    shape0 fieldArray' = List.length depthArray /\
    xArray' = trim_window N xArray.
Proof.
  split.
  - apply unseen_all_world. apply unseen_moving_average.
  - intros xArray' fieldArray' Hok.
    destruct (moving_average ext N xArray depthArray fieldArray w) as [r w'] eqn:Hrun.
    cbn in Hok. subst r. unfold moving_average in Hrun.
    apply bind_Ok_inv in Hrun. destruct Hrun as [slices [w1 [Hloop Hret]]].
    injection Hret as <- <- <-.
    apply (for_each_length 1) in Hloop.
    + destruct Hloop as [_ Hlen]. split; [|reflexivity].
      unfold shape0. cbn [rows from_rows]. rewrite Hlen.
      unfold range. rewrite length_seq. cbn. lia.
    + intros nVertLevel acc w0 acc1 w2 Hbody.
      apply bind_Ok_inv in Hbody. destruct Hbody as [row [w3 [Hrow Hbody]]].
      apply lib_Ok_inv in Hrow. destruct Hrow as [_ ->].
      apply bind_Ok_inv in Hbody. destruct Hbody as [mean [w4 [Hmean Hbody]]].
      apply lib_Ok_inv in Hmean. destruct Hmean as [_ ->].
      injection Hbody as <- <-. split; [reflexivity|].
      rewrite length_app. cbn. lia.
Qed.

Lemma moving_average_depth_levels_witness :
  shape0 (mkArray2D 1 [[Some 2%Q]; [Some 5%Q]]) = List.length [10; 20]%Q /\
  [1%Q] = trim_window 3 [0; 1; 2]%Q.
Proof.
  apply (proj2 (moving_average_depth_levels Sample.ext 3 [0; 1; 2]%Q [10; 20]%Q
                  Sample.field Sample.w0)).
  vm_compute. reflexivity.
Defined.

(* ================================================================== *)
(** * The ticks of the time axis *)

Lemma length_zrange (a b : Z) : List.length (zrange a b) = Z.to_nat (b - a).
Proof.
  unfold zrange. rewrite length_map, length_seq. reflexivity.
Qed.

(** X9.  When [plot_xtick_format] returns, both ends of the time axis had
    a date; with more than [maxXTicks/2] years between them it has set one
    tick per year and labels without month, and otherwise twelve ticks per
    year and labels with month. *)
Theorem plot_xtick_format_ticks (ext : External)
    {Config : Type} {CP : ConfigParser Config}
    (calendar : string) (minDays maxDays : list Q) (maxXTicks : Z)
    (w : world Config) :
  fst (plot_xtick_format ext calendar minDays maxDays maxXTicks w) = Ok tt ->
  exists lo hi start end_ major,
    np_amin minDays = Success lo /\
    np_amax maxDays = Success hi /\
    days_to_datetime ext lo calendar = Success start /\
    days_to_datetime ext hi calendar = Success end_ /\
    let yearly := (year end_ - year start >? maxXTicks / 2)%Z in
    let years := Z.to_nat (year end_ + 1 - year start) in
    w_trace (snd (plot_xtick_format ext calendar minDays maxDays maxXTicks w))
    = w_trace w ++ [EGca; ESetMajorLocator major maxXTicks;
                    ESetMajorFormatter calendar (negb yearly);
                    ESetpRotation 30; EAutoscale "x"] /\
    List.length major = (if yearly then 1 else 12) * years.
Proof.
  intros Hok.
  destruct (plot_xtick_format ext calendar minDays maxDays maxXTicks w)
    as [r w'] eqn:Hrun.
  cbn in Hok. subst r. unfold plot_xtick_format in Hrun.
  apply bind_Ok_inv in Hrun. destruct Hrun as [[] [w1 [Hgca Hrun]]].
  injection Hgca as <-.
  apply bind_Ok_inv in Hrun. destruct Hrun as [lo [w2 [Hlo Hrun]]].
  apply lib_Ok_inv in Hlo. destruct Hlo as [Hlo ->].
  apply bind_Ok_inv in Hrun. destruct Hrun as [start [w2 [Hstart Hrun]]].
  apply lib_Ok_inv in Hstart. destruct Hstart as [Hstart ->].
  apply bind_Ok_inv in Hrun. destruct Hrun as [hi [w2 [Hhi Hrun]]].
  apply lib_Ok_inv in Hhi. destruct Hhi as [Hhi ->].
  apply bind_Ok_inv in Hrun. destruct Hrun as [end_ [w2 [Hend Hrun]]].
  apply lib_Ok_inv in Hend. destruct Hend as [Hend ->].
  apply bind_Ok_inv in Hrun. destruct Hrun as [[major incl] [w2 [Hmajor Hrun]]].
  exists lo, hi, start, end_, major. repeat (split; [assumption|]).
  cbv zeta.
  assert (Hstep : forall (month : Z) (year0 : Z) (a0 : list Q) (w0 : world Config)
                         (a1 : list Q) (w3 : world Config),
            (d <- lib (date_to_days ext year0 month calendar) ;; ret (a0 ++ [d])) w0
              = (Ok a1, w3) ->
            w3 = w0 /\ List.length a1 = List.length a0 + 1).
  { intros month year0 a0 w0 a1 w3 H.
    apply bind_Ok_inv in H. destruct H as [d [w4 [Hd H]]].
    apply lib_Ok_inv in Hd. destruct Hd as [_ ->].
    injection H as <- <-. split; [reflexivity|]. rewrite length_app. cbn. lia. }
  destruct (year end_ - year start >? maxXTicks / 2)%Z.
  - apply bind_Ok_inv in Hmajor. destruct Hmajor as [major' [w3 [Hloop Hret]]].
    injection Hret as <- <- <-.
    apply (for_each_length 1) in Hloop; [|intros x a0 w0 a1 w4; apply (Hstep 1%Z)].
    destruct Hloop as [-> Hlen].
    cbn in Hrun. injection Hrun as <-. cbn [snd w_trace negb].
    split.
    + rewrite <- !app_assoc. reflexivity.
    + rewrite Hlen, length_zrange. cbn [List.length]. lia.
  - apply bind_Ok_inv in Hmajor. destruct Hmajor as [major' [w3 [Hloop Hret]]].
    injection Hret as <- <- <-.
    apply (for_each_length 12) in Hloop.
    + destruct Hloop as [-> Hlen].
      cbn in Hrun. injection Hrun as <-. cbn [snd w_trace negb].
      split.
      * rewrite <- !app_assoc. reflexivity.
      * rewrite Hlen, length_zrange. cbn [List.length]. lia.
    + intros year0 a0 w0 a1 w4 Hinner.
      apply (for_each_length 1) in Hinner;
        [|intros x a2 w5 a3 w6; apply (Hstep x year0)].
      rewrite length_zrange in Hinner. cbn in Hinner. exact Hinner.
Qed.

Lemma plot_xtick_format_ticks_witness :
  exists lo hi start end_ major,
    np_amin [0%Q] = Success lo /\
    np_amax [1095%Q] = Success hi /\
    days_to_datetime Sample.ext lo "gregorian" = Success start /\
    days_to_datetime Sample.ext hi "gregorian" = Success end_ /\
    let yearly := (year end_ - year start >? 20 / 2)%Z in
    let years := Z.to_nat (year end_ + 1 - year start) in
    w_trace (snd (plot_xtick_format Sample.ext "gregorian" [0%Q] [1095%Q] 20
                    Sample.w0))
    = w_trace Sample.w0 ++ [EGca; ESetMajorLocator major 20;
                            ESetMajorFormatter "gregorian" (negb yearly);
                            ESetpRotation 30; EAutoscale "x"] /\
    List.length major = (if yearly then 1 else 12) * years.
Proof.
  apply (plot_xtick_format_ticks Sample.ext "gregorian" [0%Q] [1095%Q] 20 Sample.w0).
  vm_compute. reflexivity.
Defined.

(* ================================================================== *)
(** * What the routines draw *)

Lemma subscript_nth {A} (l : list A) (i : nat) (a d : A) :
  subscript l i = Success a -> nth i l d = a.
Proof.
  unfold subscript. destruct (nth_error l i) eqn:E; [|discriminate].
  intros [= <-]. apply nth_error_nth. exact E.
Qed.

(** The last statement of a routine shows nothing. *)
Lemma sees_unseen_last {Config : Type} {CP : ConfigParser Config} {K : Type}
    (see : event -> list K) (c : Config) {A} (m : M Config A)
    (Q : list K -> result A -> Prop) :
  unseen see c m -> (forall r, Q [] r) -> sees see c m Q.
Proof.
  intros Hm HQ. eapply sees_conseq; [exact Hm|].
  intros ks r ->. apply HQ.
Qed.

(** Show what an [emit] in front shows. *)
Ltac shown :=
  cbv beta iota;
  lazymatch goal with
  | |- sees _ _ (bind (emit _) _) _ => apply sees_bind, sees_emit
  end.

Section Lines.

Context {Config : Type} {CP : ConfigParser Config}.
Variable c : Config.
Variable ext : External.

Lemma timeseries_analysis_plot_sees dsvalues N title xlabel ylabel fileout
    lineStyles lineWidths legendText calendar titleFontSize figsize dpi maxXTicks :
  sees see_line c
    (timeseries_analysis_plot ext dsvalues N title xlabel ylabel fileout
       lineStyles lineWidths legendText calendar titleFontSize figsize dpi
       maxXTicks)
    (fun ks r =>
       r = Ok tt ->
       ks = flat_map (timeseries_line dsvalues lineStyles lineWidths legendText)
              (range (List.length dsvalues))).
Proof.
  unfold timeseries_analysis_plot.
  pass ltac:(intros; discriminate).
  apply sees_bind.
  eapply sees_conseq.
  { apply (sees_for_each see_line c
             (timeseries_line dsvalues lineStyles lineWidths legendText)).
    intros dsIndex [[minDays maxDays] mean].
    apply sees_bind, sees_runtime. unfold subscript at 1, timeseries_line.
    destruct (nth_error dsvalues dsIndex) as [[dsvalue|]|]; cbn [tag];
      [|apply sees_ret; reflexivity|exact I].
    do 3 pass1 ltac:(exact I).
    apply sees_bind, sees_runtime.
    destruct (subscript lineStyles dsIndex) as [style|] eqn:Hstyle; cbn [tag];
      [|exact I].
    apply sees_bind, sees_runtime.
    destruct (subscript lineWidths dsIndex) as [width|] eqn:Hwidth; cbn [tag];
      [|exact I].
    apply sees_bind, sees_runtime.
    destruct (subscript legendText dsIndex) as [label|] eqn:Hlabel; cbn [tag];
      [|exact I].
    shown. apply sees_ret. cbn.
    rewrite (subscript_nth _ _ _ "" Hstyle), (subscript_nth _ _ _ 0%Q Hwidth),
      (subscript_nth _ _ _ "" Hlabel).
    reflexivity. }
  intros ks [[[minDays maxDays] mean]|o e] Hks; [|intros; discriminate].
  subst ks.
  pass ltac:(intros; discriminate).
  apply sees_unseen_last; [prove_unseen|].
  intros r _. cbv beta. cbn [app]. rewrite ?app_nil_r. reflexivity.
Qed.

Lemma timeseries_analysis_plot_polar_sees dsvalues N title fileout lineStyles
    lineWidths legendText titleFontSize figsize dpi :
  sees see_polar c
    (timeseries_analysis_plot_polar ext dsvalues N title fileout lineStyles
       lineWidths legendText titleFontSize figsize dpi)
    (fun ks r =>
       r = Ok tt ->
       ks = flat_map (timeseries_polar_line dsvalues lineStyles lineWidths
                        legendText)
              (range (List.length dsvalues))).
Proof.
  unfold timeseries_analysis_plot_polar.
  pass ltac:(intros; discriminate).
  apply sees_bind.
  eapply sees_conseq.
  { apply (sees_for_each see_polar c
             (timeseries_polar_line dsvalues lineStyles lineWidths legendText)).
    intros dsIndex [[minDays maxDays] mean].
    apply sees_bind, sees_runtime. unfold subscript at 1, timeseries_polar_line.
    destruct (nth_error dsvalues dsIndex) as [[dsvalue|]|]; cbn [tag];
      [|apply sees_ret; reflexivity|exact I].
    do 3 pass1 ltac:(exact I).
    apply sees_bind, sees_runtime.
    destruct (subscript lineStyles dsIndex) as [style|] eqn:Hstyle; cbn [tag];
      [|exact I].
    apply sees_bind, sees_runtime.
    destruct (subscript lineWidths dsIndex) as [width|] eqn:Hwidth; cbn [tag];
      [|exact I].
    apply sees_bind, sees_runtime.
    destruct (subscript legendText dsIndex) as [label|] eqn:Hlabel; cbn [tag];
      [|exact I].
    shown. apply sees_ret. cbn.
    rewrite (subscript_nth _ _ _ "" Hstyle), (subscript_nth _ _ _ 0%Q Hwidth),
      (subscript_nth _ _ _ "" Hlabel).
    reflexivity. }
  intros ks [[[minDays maxDays] mean]|o e] Hks; [|intros; discriminate].
  subst ks.
  pass ltac:(intros; discriminate).
  apply sees_unseen_last; [prove_unseen|].
  intros r _. cbv beta. cbn [app]. rewrite ?app_nil_r. reflexivity.
Qed.

End Lines.

(** Counting by index is counting the elements. *)
Lemma length_flat_map_index {A B} (p : A -> bool) (l : list A) (g : nat -> list B)
    (a : nat) :
  (forall i x, nth_error l i = Some x ->
     List.length (g (a + i)) = if p x then 1 else 0) ->
  List.length (flat_map g (seq a (List.length l))) = List.length (filter p l).
Proof.
  revert a. induction l as [|x l IH]; intros a Hg; [reflexivity|].
  cbn [List.length seq flat_map filter]. rewrite length_app.
  rewrite (IH (S a)).
  - specialize (Hg 0 x eq_refl). rewrite Nat.add_0_r in Hg. rewrite Hg.
    destruct (p x); reflexivity.
  - intros i y Hy. replace (S a + i) with (a + S i) by lia. apply Hg. exact Hy.
Qed.

(** X10.  When [timeseries_analysis_plot] returns, the labelled lines it
    has drawn are those of the data sets that are not [None], in the order
    of the list, each with the style, width and legend text at its own
    index: a [None] entry is skipped and shifts nothing. *)
Theorem timeseries_analysis_plot_lines
    {Config : Type} {CP : ConfigParser Config} (ext : External)
    dsvalues N title xlabel ylabel fileout lineStyles lineWidths legendText
    calendar titleFontSize figsize dpi maxXTicks (w : world Config) :
  let run := timeseries_analysis_plot ext dsvalues N title xlabel ylabel fileout
               lineStyles lineWidths legendText calendar titleFontSize figsize
               dpi maxXTicks w in
  fst run = Ok tt ->
  exists evs,
    w_trace (snd run) = w_trace w ++ evs /\
    labelled_lines evs
    = flat_map (timeseries_line dsvalues lineStyles lineWidths legendText)
        (range (List.length dsvalues)) /\
    List.length (labelled_lines evs) = List.length (filter is_Some_b dsvalues).
Proof.
  cbv zeta. intros Hok.
  destruct (timeseries_analysis_plot_sees (w_config w) ext dsvalues N title xlabel
              ylabel fileout lineStyles lineWidths legendText calendar
              titleFontSize figsize dpi maxXTicks w eq_refl)
    as [_ [evs [Ht Hlines]]].
  specialize (Hlines Hok). exists evs. split; [exact Ht|].
  split; [exact Hlines|].
  unfold labelled_lines. rewrite Hlines. unfold range.
  apply length_flat_map_index.
  intros i x Hx. unfold timeseries_line. cbn [Nat.add]. rewrite Hx.
  destruct x; reflexivity.
Qed.

Lemma timeseries_analysis_plot_lines_witness :
  exists evs,
    w_trace (snd (run_plot_call Sample.ext Sample.timeseries_call Sample.w0))
    = w_trace Sample.w0 ++ evs /\
    labelled_lines evs = [(Some "r-", None, 2%Q, "model")] /\
    List.length (labelled_lines evs) = 1.
Proof.
  apply (timeseries_analysis_plot_lines Sample.ext [Some Sample.series; None] 1
           (Some "SST") (Some "Time") None (Some "sst.png") ["r-"; "b-"] [2; 2]%Q
           ["model"; "obs"] "gregorian" None (15, 6)%Q None 20 Sample.w0).
  vm_compute. reflexivity.
Defined.

(** X11.  The same for [timeseries_analysis_plot_polar]: one polar line
    for every data set that is not [None], with the style, width and legend
    text at its index. *)
Theorem timeseries_analysis_plot_polar_lines
    {Config : Type} {CP : ConfigParser Config} (ext : External)
    dsvalues N title fileout lineStyles lineWidths legendText titleFontSize
    figsize dpi (w : world Config) :
  let run := timeseries_analysis_plot_polar ext dsvalues N title fileout
               lineStyles lineWidths legendText titleFontSize figsize dpi w in
  fst run = Ok tt ->
  exists evs,
    w_trace (snd run) = w_trace w ++ evs /\
    polar_lines evs
    = flat_map (timeseries_polar_line dsvalues lineStyles lineWidths legendText)
        (range (List.length dsvalues)) /\
    List.length (polar_lines evs) = List.length (filter is_Some_b dsvalues).
Proof.
  cbv zeta. intros Hok.
  destruct (timeseries_analysis_plot_polar_sees (w_config w) ext dsvalues N title
              fileout lineStyles lineWidths legendText titleFontSize figsize dpi
              w eq_refl)
    as [_ [evs [Ht Hlines]]].
  specialize (Hlines Hok). exists evs. split; [exact Ht|].
  split; [exact Hlines|].
  unfold polar_lines. rewrite Hlines. unfold range.
  apply length_flat_map_index.
  intros i x Hx. unfold timeseries_polar_line. cbn [Nat.add]. rewrite Hx.
  destruct x; reflexivity.
Qed.

Lemma timeseries_analysis_plot_polar_lines_witness :
  exists evs,
    w_trace (snd (run_plot_call Sample.ext Sample.polar_call Sample.w0))
    = w_trace Sample.w0 ++ evs /\
    polar_lines evs = [("r-", 2%Q, "model")] /\
    List.length (polar_lines evs) = 1.
Proof.
  apply (timeseries_analysis_plot_polar_lines Sample.ext [Some Sample.series] 1
           (Some "Ice area") (Some "ice.png") ["r-"] [2]%Q ["model"] None
           (15, 6)%Q None Sample.w0).
  vm_compute. reflexivity.
Defined.

(* ================================================================== *)
(** * [plot_1D] *)

Section Plot1D.

Context {Config : Type} {CP : ConfigParser Config}.
Variable c : Config.

(** The body of the loop of [plot_1D] shows the line of its entry. *)
Lemma plot_1D_sees_lines xArrays fieldArrays errArrays lineColors lineWidths
    legendText title xlabel ylabel fileout figsize dpi xLim yLim invertYAxis :
  sees see_line c
    (plot_1D xArrays fieldArrays errArrays lineColors lineWidths legendText
       title xlabel ylabel fileout figsize dpi xLim yLim invertYAxis)
    (fun ks r =>
       r = Ok tt ->
       ks = flat_map (plot_1D_line xArrays lineColors lineWidths legendText)
              (range (List.length xArrays))).
Proof.
  unfold plot_1D.
  pass ltac:(intros; discriminate).
  apply sees_bind.
  eapply sees_conseq.
  { apply (sees_for_each see_line c
             (plot_1D_line xArrays lineColors lineWidths legendText)).
    intros dsIndex s0.
    apply sees_bind, sees_runtime. unfold subscript at 1, plot_1D_line.
    destruct (nth_error xArrays dsIndex) as [xArray|]; cbn [tag]; [|exact I].
    do 2 pass1 ltac:(exact I).
    destruct xArray as [xArray|]; [|apply sees_ret; reflexivity].
    apply sees_bind.
    match goal with
    | |- sees _ _ (match ?err with _ => _ end) _ => destruct err as [errArray|]
    end.
    - apply sees_bind, sees_runtime.
      destruct (subscript lineColors dsIndex) as [color|] eqn:Hcolor; cbn [tag];
        [|exact I].
      apply sees_bind, sees_runtime.
      destruct (subscript lineWidths dsIndex) as [width|] eqn:Hwidth; cbn [tag];
        [|exact I].
      apply sees_bind, sees_runtime.
      destruct (subscript legendText dsIndex) as [label|] eqn:Hlabel; cbn [tag];
        [|exact I].
      shown.
      pass ltac:(exact I).
      apply sees_unseen_last; [prove_unseen|].
      intros [[]|o e]; [|exact I]. apply sees_ret. cbn.
      rewrite (subscript_nth _ _ _ "" Hcolor), (subscript_nth _ _ _ 0%Q Hwidth),
        (subscript_nth _ _ _ "" Hlabel).
      reflexivity.
    - apply sees_bind, sees_runtime.
      destruct (subscript lineColors dsIndex) as [color|] eqn:Hcolor; cbn [tag];
        [|exact I].
      apply sees_bind, sees_runtime.
      destruct (subscript lineWidths dsIndex) as [width|] eqn:Hwidth; cbn [tag];
        [|exact I].
      apply sees_bind, sees_runtime.
      destruct (subscript legendText dsIndex) as [label|] eqn:Hlabel; cbn [tag];
        [|exact I].
      apply sees_emit. apply sees_ret. cbn.
      rewrite (subscript_nth _ _ _ "" Hcolor), (subscript_nth _ _ _ 0%Q Hwidth),
        (subscript_nth _ _ _ "" Hlabel).
      reflexivity. }
  intros ks [dsIndex|o e] Hks; [|intros; discriminate].
  subst ks.
  pass ltac:(intros; discriminate).
  apply sees_unseen_last; [prove_unseen|].
  intros r _. cbv beta. cbn [app]. rewrite ?app_nil_r. reflexivity.
Qed.

End Plot1D.

Lemma last_cons_default {A} (a d : A) (l : list A) : last (a :: l) d = last l a.
Proof.
  revert a d. induction l as [|b l IH]; intros a d; [reflexivity|].
  change (last (a :: b :: l) d) with (last (b :: l) d).
  rewrite (IH b d), (IH b a). reflexivity.
Qed.

Lemma last_map_seq {A} (h : nat -> A) (a k : nat) (d : A) :
  last (map h (seq a (S k))) d = h (a + k).
Proof.
  revert a d. induction k as [|k IH]; intros a d.
  - cbn. rewrite Nat.add_0_r. reflexivity.
  - change (seq a (S (S k))) with (a :: seq (S a) (S k)).
    cbn [map]. rewrite last_cons_default, IH. f_equal. lia.
Qed.

(** The loop variable after a loop: the last element, or what it was
    before an empty loop. *)
Lemma for_each_last {Config X S} (h : X -> S) (xs : list X)
    (body : X -> S -> M Config S) (s s' : S) (w w' : world Config) :
  (forall x s0 w0 s1 w1, body x s0 w0 = (Ok s1, w1) -> s1 = h x) ->
  for_each xs body s w = (Ok s', w') ->
  s' = last (map h xs) s.
Proof.
  intros Hbody. revert s w.
  induction xs as [|x xs IH]; intros s w Hrun; cbn [for_each] in Hrun.
  - injection Hrun as <- _. reflexivity.
  - apply bind_Ok_inv in Hrun. destruct Hrun as [s1 [w1 [Hx Hrest]]].
    apply Hbody in Hx. subst s1.
    cbn [map]. rewrite last_cons_default. exact (IH _ _ Hrest).
Qed.

Section Plot1DMore.

Context {Config : Type} {CP : ConfigParser Config}.
Variable c : Config.

Lemma plot_1D_sees_bands xArrays fieldArrays errArrays lineColors lineWidths
    legendText title xlabel ylabel fileout figsize dpi xLim yLim invertYAxis :
  sees see_band c
    (plot_1D xArrays fieldArrays errArrays lineColors lineWidths legendText
       title xlabel ylabel fileout figsize dpi xLim yLim invertYAxis)
    (fun ks r =>
       r = Ok tt ->
       ks = flat_map (plot_1D_band xArrays fieldArrays errArrays)
              (range (List.length xArrays))).
Proof.
  unfold plot_1D.
  pass ltac:(intros; discriminate).
  apply sees_bind.
  eapply sees_conseq.
  { apply (sees_for_each see_band c (plot_1D_band xArrays fieldArrays errArrays)).
    intros dsIndex s0.
    apply sees_bind, sees_runtime. unfold subscript at 1, plot_1D_band.
    destruct (nth_error xArrays dsIndex) as [xArray|]; cbn [tag]; [|exact I].
    apply sees_bind, sees_runtime. unfold subscript at 1.
    destruct (nth_error fieldArrays dsIndex) as [fieldArray|]; cbn [tag];
      [|exact I].
    apply sees_bind, sees_runtime. unfold subscript at 1.
    destruct (nth_error errArrays dsIndex) as [errArray|]; cbn [tag]; [|exact I].
    destruct xArray as [xArray|]; [|apply sees_ret; reflexivity].
    apply sees_bind.
    destruct errArray as [errArray|].
    - do 4 pass1 ltac:(exact I).
      apply sees_bind, sees_lib.
      destruct (np_binop Qplus fieldArray errArray) as [upper|]; cbn [tag];
        [|exact I].
      pass1 ltac:(exact I).
      shown.
      apply sees_bind, sees_lib.
      destruct (np_binop Qminus fieldArray errArray) as [lower|]; cbn [tag];
        [|exact I].
      pass1 ltac:(exact I).
      apply sees_emit. apply sees_ret. reflexivity.
    - pass ltac:(exact I).
      apply sees_unseen_last; [prove_unseen|].
      intros [[]|o e]; [|exact I]. apply sees_ret. reflexivity. }
  intros ks [dsIndex|o e] Hks; [|intros; discriminate].
  subst ks.
  pass ltac:(intros; discriminate).
  apply sees_unseen_last; [prove_unseen|].
  intros r _. cbv beta. cbn [app]. rewrite ?app_nil_r. reflexivity.
Qed.

Lemma plot_1D_sees_legend xArrays fieldArrays errArrays lineColors lineWidths
    legendText title xlabel ylabel fileout figsize dpi xLim yLim invertYAxis :
  sees see_legend c
    (plot_1D xArrays fieldArrays errArrays lineColors lineWidths legendText
       title xlabel ylabel fileout figsize dpi xLim yLim invertYAxis)
    (fun ks r =>
       r = Ok tt ->
       xArrays <> [] /\
       ks = if Nat.ltb 1 (List.length xArrays) then [None] else []).
Proof.
  unfold plot_1D.
  do 2 pass1 ltac:(intros; discriminate).
  apply sees_bind.
  eapply sees_conseq.
  { refine (sees_result see_legend c _ _
              (fun r => forall v, r = Ok v ->
                        v = last (map Some (range (List.length xArrays))) None)
              (_ : unseen see_legend c _) _).
    - prove_unseen.
    - intros w v Hv.
      match goal with
      | H : fst (?loop w) = Ok v |- _ => destruct (loop w) as [r w'] eqn:Hrun
      end.
      cbn in Hv. subst r.
      apply (for_each_last Some) in Hrun; [exact Hrun|].
      intros x s0 w0 s1 w1 Hbody.
      apply bind_Ok_inv in Hbody. destruct Hbody as [xArray [w2 [_ Hbody]]].
      apply bind_Ok_inv in Hbody. destruct Hbody as [fieldArray [w3 [_ Hbody]]].
      apply bind_Ok_inv in Hbody. destruct Hbody as [errArray [w4 [_ Hbody]]].
      destruct xArray as [xArray|].
      + apply bind_Ok_inv in Hbody. destruct Hbody as [u [w5 [_ Hbody]]].
        injection Hbody as <- _. reflexivity.
      + injection Hbody as <- _. reflexivity. }
  intros ks [dsIndex|o e] [Hks Hv]; [|intros; discriminate].
  subst ks. specialize (Hv dsIndex eq_refl). subst dsIndex.
  do 2 pass1 ltac:(intros; discriminate).
  unfold range.
  destruct (List.length xArrays) as [|k] eqn:Hn.
  - apply sees_bind, sees_runtime. cbn. discriminate.
  - rewrite last_map_seq. cbn [Nat.add local].
    apply sees_bind, sees_ret.
    assert (Hne : xArrays <> []) by (intros ->; discriminate Hn).
    apply sees_bind.
    change (Nat.ltb 1 (S k)) with (Nat.ltb 0 k).
    destruct (Nat.ltb 0 k).
    + apply sees_emit.
      pass ltac:(intros; discriminate).
      apply sees_unseen_last; [prove_unseen|].
      intros r _. split; [exact Hne | reflexivity].
    + apply sees_ret.
      pass ltac:(intros; discriminate).
      apply sees_unseen_last; [prove_unseen|].
      intros r _. split; [exact Hne | reflexivity].
Qed.

End Plot1DMore.

(** X12.  When [plot_1D] returns, its list of x arrays was not empty; it
    has drawn one labelled line for every entry whose x array is not
    [None], with the colour, width and legend text at the entry's index;
    two error bands, from the field to field plus error and to field minus
    error, for every such entry that has an error array; and a legend if
    and only if the list has more than one entry, [None] entries counted. *)
Theorem plot_1D_draws
    {Config : Type} {CP : ConfigParser Config}
    xArrays fieldArrays errArrays lineColors lineWidths legendText title xlabel
    ylabel fileout figsize dpi xLim yLim invertYAxis (w : world Config) :
  let run := plot_1D xArrays fieldArrays errArrays lineColors lineWidths
               legendText title xlabel ylabel fileout figsize dpi xLim yLim
               invertYAxis w in
  fst run = Ok tt ->
  xArrays <> [] /\
  exists evs,
    w_trace (snd run) = w_trace w ++ evs /\
    labelled_lines evs
    = flat_map (plot_1D_line xArrays lineColors lineWidths legendText)
        (range (List.length xArrays)) /\
    bands evs
    = flat_map (plot_1D_band xArrays fieldArrays errArrays)
        (range (List.length xArrays)) /\
    legends evs = if Nat.ltb 1 (List.length xArrays) then [None] else [].
Proof.
  cbv zeta. intros Hok.
  destruct (plot_1D_sees_lines (w_config w) xArrays fieldArrays errArrays
              lineColors lineWidths legendText title xlabel ylabel fileout
              figsize dpi xLim yLim invertYAxis w eq_refl)
    as [_ [evs [Ht Hlines]]].
  destruct (plot_1D_sees_bands (w_config w) xArrays fieldArrays errArrays
              lineColors lineWidths legendText title xlabel ylabel fileout
              figsize dpi xLim yLim invertYAxis w eq_refl)
    as [_ [evs2 [Ht2 Hbands]]].
  destruct (plot_1D_sees_legend (w_config w) xArrays fieldArrays errArrays
              lineColors lineWidths legendText title xlabel ylabel fileout
              figsize dpi xLim yLim invertYAxis w eq_refl)
    as [_ [evs3 [Ht3 Hlegend]]].
  rewrite Ht in Ht2, Ht3.
  apply app_inv_head in Ht2. apply app_inv_head in Ht3. subst evs2 evs3.
  destruct (Hlegend Hok) as [Hne Hleg].
  split; [exact Hne|]. exists evs.
  split; [exact Ht|]. split; [exact (Hlines Hok)|].
  split; [exact (Hbands Hok) | exact Hleg].
Qed.

(* ================================================================== *)
(** * Colorbars and contours *)

(** Go through a routine: pass what shows nothing, show what an [emit]
    shows, enter the nested blocks. *)
Ltac observe leaf :=
  repeat (cbv beta iota zeta;
          lazymatch goal with
          | |- sees _ _ (bind (emit _) _) _ =>
              first [pass1 leaf | apply sees_bind, sees_emit]
          | |- sees _ _ (bind (bind _ _) _) _ => apply sees_bind
          | |- sees _ _ (bind (do_subplot _ _ _ _ _ _ _ _ _ _ _ _) _) _ =>
              unfold do_subplot at 1
          | |- sees _ _ (bind _ _) _ => pass1 leaf
          | |- sees _ _ (emit _) _ => apply sees_emit
          | |- sees _ _ (match ?x with _ => _ end) _ => destruct x
          end).

(** The rest of the routine shows nothing. *)
Ltac finish_unseen :=
  cbv beta iota zeta;
  first [ apply sees_unseen_last; [prove_unseen | intros r _; reflexivity]
        | intros _; reflexivity ].

Section Colorbars.

Context {Config : Type} {CP : ConfigParser Config}.
Variable c : Config.

Lemma plot_global_comparison_sees Lons Lats modelArray obsArray diffArray
    cmapModelObs clevsModelObs cmapDiff clevsDiff fileout title modelTitle
    obsTitle diffTitle cbarlabel titleFontSize figsize dpi :
  sees see_colorbar c
    (plot_global_comparison Lons Lats modelArray obsArray diffArray cmapModelObs
       clevsModelObs cmapDiff clevsDiff fileout title modelTitle obsTitle
       diffTitle cbarlabel titleFontSize figsize dpi)
    (fun ks r =>
       r = Ok tt ->
       ks = [(Some clevsModelObs, Some clevsModelObs);
             (Some clevsModelObs, Some clevsModelObs);
             (Some clevsDiff, Some clevsModelObs)]).
Proof.
  unfold plot_global_comparison.
  observe ltac:(intros; discriminate).
  all: finish_unseen.
Qed.

Lemma plot_polar_comparison_sees Lons Lats modelArray obsArray diffArray
    cmapModelObs clevsModelObs cmapDiff clevsDiff fileout title plotProjection
    latmin lon0 modelTitle obsTitle diffTitle cbarlabel titleFontSize figsize dpi
    vertical :
  sees see_colorbar c
    (plot_polar_comparison Lons Lats modelArray obsArray diffArray cmapModelObs
       clevsModelObs cmapDiff clevsDiff fileout title plotProjection latmin lon0
       modelTitle obsTitle diffTitle cbarlabel titleFontSize figsize dpi vertical)
    (fun ks r =>
       r = Ok tt ->
       ks = [(Some clevsModelObs, Some clevsModelObs);
             (Some clevsModelObs, Some clevsModelObs);
             (Some clevsDiff, Some clevsDiff)]).
Proof.
  unfold plot_polar_comparison. destruct vertical.
  - observe ltac:(intros; discriminate).
    all: finish_unseen.
  - observe ltac:(intros; discriminate).
    all: finish_unseen.
Qed.

Variable ext : External.

Lemma plot_vertical_section_sees_contours xArray depthArray fieldArray
    colormapName colorbarLevels contourLevels colorbarLabel title xlabel ylabel
    fileout figsize dpi xLim yLim linewidths invertYAxis xArrayIsTime N maxXTicks
    calendar :
  sees see_contour c
    (plot_vertical_section ext xArray depthArray fieldArray colormapName
       colorbarLevels contourLevels colorbarLabel title xlabel ylabel fileout
       figsize dpi xLim yLim linewidths invertYAxis xArrayIsTime N maxXTicks
       calendar)
    (fun ks r =>
       r = Ok tt ->
       ks = match contourLevels with
            | None => []
            | Some [] => [None]
            | Some (l :: ls) => [Some (l :: ls)]
            end).
Proof.
  unfold plot_vertical_section.
  do 3 pass1 ltac:(intros; discriminate).
  pass1 ltac:(intros; discriminate).
  destruct a2 as [xArray' fieldArray'].
  cbv beta iota zeta.
  destruct (np_meshgrid xArray' depthArray) as [x y].
  pass1 ltac:(intros; discriminate).
  destruct contourLevels as [[|l ls]|]; cbn [if_not_None List.length Nat.eqb].
  - shown.
    pass ltac:(intros; discriminate).
    all: finish_unseen.
  - shown.
    pass ltac:(intros; discriminate).
    all: finish_unseen.
  - pass ltac:(intros; discriminate).
    all: finish_unseen.
Qed.

(** With a window of two points no x value is left for the first tick of
    the time axis. *)
Lemma plot_vertical_section_hovmoller_2 xArray depthArray fieldArray
    colormapName colorbarLevels contourLevels colorbarLabel title xlabel ylabel
    fileout figsize dpi xLim yLim linewidths invertYAxis maxXTicks calendar :
  sees see_none c
    (plot_vertical_section ext xArray depthArray fieldArray colormapName
       colorbarLevels contourLevels colorbarLabel title xlabel ylabel fileout
       figsize dpi xLim yLim linewidths invertYAxis true (Some 2%Z) maxXTicks
       calendar)
    (fun _ r => r <> Ok tt).
Proof.
  unfold plot_vertical_section.
  do 3 pass1 ltac:(discriminate).
  apply sees_bind.
  change (negb (2 =? 1)%Z) with true. cbv iota.
  eapply sees_conseq.
  { refine (sees_result see_none c _ _
              (fun r => forall x' F', r = Ok (x', F') -> x' = [])
              (_ : unseen see_none c _) _).
    - prove_unseen.
    - intros w x' F' Hr.
      destruct (moving_average ext 2 xArray depthArray fieldArray w)
        as [r w'] eqn:Hrun.
      cbn in Hr. subst r.
      exact (moving_average_window_2 ext _ _ _ _ _ _ _ Hrun). }
  intros ks [[x' F']|o e] [_ Hx]; [|discriminate].
  rewrite (Hx x' F' eq_refl).
  cbv beta iota zeta.
  destruct (np_meshgrid [] depthArray) as [x y].
  pass ltac:(discriminate).
  apply sees_bind, sees_bind, sees_runtime. cbn. discriminate.
Qed.

End Colorbars.

(** X13.  When they return, both comparison routines have drawn three
    colorbars, the first two with the levels of model and observations as
    ticks and boundaries.  The third has the levels of the difference as
    ticks; its boundaries are these levels in [plot_polar_comparison] but
    the levels of model and observations in [plot_global_comparison]. *)
Theorem comparison_colorbars
    {Config : Type} {CP : ConfigParser Config}
    Lons Lats modelArray obsArray diffArray cmapModelObs clevsModelObs cmapDiff
    clevsDiff fileout title plotProjection latmin lon0 modelTitle obsTitle
    diffTitle cbarlabel titleFontSize figsize figsize' dpi vertical
    (w : world Config) :
  let polar := plot_polar_comparison Lons Lats modelArray obsArray diffArray
                 cmapModelObs clevsModelObs cmapDiff clevsDiff fileout title
                 plotProjection latmin lon0 modelTitle obsTitle diffTitle
                 cbarlabel titleFontSize figsize dpi vertical w in
  let global := plot_global_comparison Lons Lats modelArray obsArray diffArray
                  cmapModelObs clevsModelObs cmapDiff clevsDiff fileout title
                  modelTitle obsTitle diffTitle cbarlabel titleFontSize figsize'
                  dpi w in
  (fst polar = Ok tt ->
   exists evs,
     w_trace (snd polar) = w_trace w ++ evs /\
     colorbars evs = [(Some clevsModelObs, Some clevsModelObs);
                      (Some clevsModelObs, Some clevsModelObs);
                      (Some clevsDiff, Some clevsDiff)]) /\
  (fst global = Ok tt ->
   exists evs,
     w_trace (snd global) = w_trace w ++ evs /\
     colorbars evs = [(Some clevsModelObs, Some clevsModelObs);
                      (Some clevsModelObs, Some clevsModelObs);
                      (Some clevsDiff, Some clevsModelObs)]).
Proof.
  cbv zeta. split; intros Hok.
  - destruct (plot_polar_comparison_sees (w_config w) Lons Lats modelArray
                obsArray diffArray cmapModelObs clevsModelObs cmapDiff clevsDiff
                fileout title plotProjection latmin lon0 modelTitle obsTitle
                diffTitle cbarlabel titleFontSize figsize dpi vertical w eq_refl)
      as [_ [evs [Ht Hk]]].
    exists evs. split; [exact Ht | exact (Hk Hok)].
  - destruct (plot_global_comparison_sees (w_config w) Lons Lats modelArray
                obsArray diffArray cmapModelObs clevsModelObs cmapDiff clevsDiff
                fileout title modelTitle obsTitle diffTitle cbarlabel
                titleFontSize figsize' dpi w eq_refl)
      as [_ [evs [Ht Hk]]].
    exists evs. split; [exact Ht | exact (Hk Hok)].
Qed.

Lemma comparison_colorbars_witness :
  (exists evs,
     w_trace (snd (run_plot_call Sample.ext (Sample.polar_comparison_call false)
                     Sample.w0)) = w_trace Sample.w0 ++ evs /\
     colorbars evs = [(Some [0; 1; 2]%Z, Some [0; 1; 2]%Z);
                      (Some [0; 1; 2]%Z, Some [0; 1; 2]%Z);
                      (Some [-1; 0; 1]%Z, Some [-1; 0; 1]%Z)]) /\
  (exists evs,
     w_trace (snd (run_plot_call Sample.ext Sample.global_call Sample.w0))
     = w_trace Sample.w0 ++ evs /\
     colorbars evs = [(Some [0; 1; 2]%Z, Some [0; 1; 2]%Z);
                      (Some [0; 1; 2]%Z, Some [0; 1; 2]%Z);
                      (Some [-1; 0; 1]%Z, Some [0; 1; 2]%Z)]).
Proof.
  destruct (comparison_colorbars Sample.grid Sample.grid Sample.grid Sample.grid
              Sample.grid (Registered "viridis" 256) [0; 1; 2]%Z
              (Registered "RdYlBu_r" 256) [-1; 0; 1]%Z (Some "polar.png")
              (Some "Ice concentration") "npstere" 50 0 "Model" "Observations"
              "Model-Observations" "units" None None (8, 12)%Q None false
              Sample.w0) as [Hpolar _].
  destruct (comparison_colorbars Sample.grid Sample.grid Sample.grid Sample.grid
              Sample.grid (Registered "viridis" 256) [0; 1; 2]%Z
              (Registered "RdYlBu_r" 256) [-1; 0; 1]%Z (Some "global.png")
              (Some "SST") "npstere" 50 0 "Model" "Observations"
              "Model-Observations" "units" None None (8, 12)%Q None false
              Sample.w0) as [_ Hglobal].
  split.
  - apply Hpolar. vm_compute. reflexivity.
  - apply Hglobal. vm_compute. reflexivity.
Defined.

(** X14.  When [plot_vertical_section] returns, it has drawn contour lines
    exactly if [contourLevels] is not [None]: at the given levels, and at
    levels pyplot chooses itself when the list is empty. *)
Theorem plot_vertical_section_contours
    {Config : Type} {CP : ConfigParser Config} (ext : External)
    xArray depthArray fieldArray colormapName colorbarLevels contourLevels
    colorbarLabel title xlabel ylabel fileout figsize dpi xLim yLim linewidths
    invertYAxis xArrayIsTime N maxXTicks calendar (w : world Config) :
  let run := plot_vertical_section ext xArray depthArray fieldArray colormapName
               colorbarLevels contourLevels colorbarLabel title xlabel ylabel
               fileout figsize dpi xLim yLim linewidths invertYAxis xArrayIsTime
               N maxXTicks calendar w in
  fst run = Ok tt ->
  exists evs,
    w_trace (snd run) = w_trace w ++ evs /\
    contours evs = match contourLevels with
                   | None => []
                   | Some [] => [None]
                   | Some (l :: ls) => [Some (l :: ls)]
                   end.
Proof.
  cbv zeta. intros Hok.
  destruct (plot_vertical_section_sees_contours (w_config w) ext xArray depthArray
              fieldArray colormapName colorbarLevels contourLevels colorbarLabel
              title xlabel ylabel fileout figsize dpi xLim yLim linewidths
              invertYAxis xArrayIsTime N maxXTicks calendar w eq_refl)
    as [_ [evs [Ht Hk]]].
  exists evs. split; [exact Ht | exact (Hk Hok)].
Qed.

Lemma plot_vertical_section_contours_witness :
  exists evs,
    w_trace (snd (run_plot_call Sample.ext (Sample2.hovmoller_call None)
                    Sample.w0)) = w_trace Sample.w0 ++ evs /\
    contours evs = [None].
Proof.
  apply (plot_vertical_section_contours Sample.ext [0; 365; 730]%Q [10; 20]%Q
           Sample.field (Registered "viridis" 256) None (Some []) None (Some "T")
           None None (Some "hovmoller.png") (10, 4)%Q None None None 2 true true
           None 20 "gregorian" Sample.w0).
  vm_compute. reflexivity.
Defined.

(** X15.  A depth-time section ([xArrayIsTime]) with a moving average over
    two points never returns: the average leaves no x value, and the first
    tick of the time axis is taken from [xArray[0]]. *)
Theorem plot_vertical_section_hovmoller_window_2
    {Config : Type} {CP : ConfigParser Config} (ext : External)
    xArray depthArray fieldArray colormapName colorbarLevels contourLevels
    colorbarLabel title xlabel ylabel fileout figsize dpi xLim yLim linewidths
    invertYAxis maxXTicks calendar (w : world Config) :
  fst (plot_vertical_section ext xArray depthArray fieldArray colormapName
         colorbarLevels contourLevels colorbarLabel title xlabel ylabel fileout
         figsize dpi xLim yLim linewidths invertYAxis true (Some 2%Z) maxXTicks
         calendar w)
  <> Ok tt.
Proof.
  destruct (plot_vertical_section_hovmoller_2 (w_config w) ext xArray depthArray
              fieldArray colormapName colorbarLevels contourLevels colorbarLabel
              title xlabel ylabel fileout figsize dpi xLim yLim linewidths
              invertYAxis maxXTicks calendar w eq_refl)
    as [_ [evs [_ Hr]]].
  exact Hr.
Qed.

(* ================================================================== *)
(** * Samples of the colormap options and of [plot_1D] *)

Lemma setup_colormap_required_options_witness :
  setup_colormap Sample.ext "plot" "" Sample.w0
  = (Raise Library (NoOptionError "colormapName" "plot"), Sample.w0) /\
  setup_colormap Sample.ext "unknownName" "" (mkWorld Sample2.colormap_config [])
  = (Raise Library (ValueError "Colormap is not recognized"),
     mkWorld Sample2.colormap_config []) /\
  setup_colormap Sample.ext "nameOnly" "" (mkWorld Sample2.colormap_config [])
  = (Raise Library (NoOptionError "colormapIndices" "nameOnly"),
     mkWorld Sample2.colormap_config []).
Proof.
  split; [|split].
  - apply (proj1 (setup_colormap_required_options Sample.ext "plot" ""
                    Sample.w0 (NoOptionError "colormapName" "plot"))).
    reflexivity.
  - apply (proj1 (proj2 (setup_colormap_required_options Sample.ext "unknownName"
                           "" (mkWorld Sample2.colormap_config [])
                           (ValueError "Colormap is not recognized")))
             "jet2"); reflexivity.
  - apply (proj2 (proj2 (setup_colormap_required_options Sample.ext "nameOnly" ""
                           (mkWorld Sample2.colormap_config [])
                           (NoOptionError "colormapIndices" "nameOnly")))
             "viridis" (Registered "viridis" 256)); reflexivity.
Defined.

Lemma plot_1D_draws_witness :
  exists evs,
    w_trace (snd (run_plot_call Sample.ext Sample2.plot_1D_two Sample.w0))
    = w_trace Sample.w0 ++ evs /\
    labelled_lines evs
    = [(None, Some "r", 2%Q, "model"); (None, Some "b", 1%Q, "obs")] /\
    bands evs
    = [([0; 1]%Q, [Some 1; Some 2]%Q, [Some (1 + 1); Some (2 + 1)]%Q);
       ([0; 1]%Q, [Some 1; Some 2]%Q, [Some (1 - 1); Some (2 - 1)]%Q)] /\
    legends evs = [None].
Proof.
  apply (plot_1D_draws [Some [0; 1]%Q; Some [0; 1]%Q]
           [[Some 1; Some 2]%Q; [Some 3; Some 4]%Q]
           [Some [Some 1; Some 1]%Q; None] ["r"; "b"] [2; 1]%Q ["model"; "obs"]
           (Some "MOC") None None (Some "plot_1D.png") (10, 4)%Q None None None
           false Sample.w0).
  vm_compute. reflexivity.
Defined.

(* ================================================================== *)
(** * [plot_size_y_axis] *)

Lemma Qle_bool_false_le (x y : Q) : Qle_bool y x = false -> (x <= y)%Q.
Proof.
  intros E. apply Qlt_le_weak, Qnot_le_lt. intros H.
  apply Qle_bool_iff in H. congruence.
Qed.

Lemma Qmax_list_ge_start (x : Q) (l : list Q) : (x <= Qmax_list x l)%Q.
Proof.
  unfold Qmax_list. revert x. induction l as [|y l IH]; intros x; cbn [fold_left].
  - apply Qle_refl.
  - destruct (Qle_bool y x) eqn:E; [apply IH|].
    eapply Qle_trans; [|apply IH]. apply Qle_bool_false_le, E.
Qed.

Lemma Qmax_list_ge (x : Q) (l : list Q) (y : Q) :
  In y (x :: l) -> (y <= Qmax_list x l)%Q.
Proof.
  revert x. induction l as [|z l IH]; intros x Hy.
  - destruct Hy as [->|[]]. apply Qle_refl.
  - destruct Hy as [->|Hy]; [apply Qmax_list_ge_start|].
    change (y <= Qmax_list (if Qle_bool z x then x else z) l)%Q.
    destruct Hy as [->|Hy].
    + destruct (Qle_bool y x) eqn:E.
      * eapply Qle_trans; [|apply Qmax_list_ge_start].
        apply Qle_bool_iff, E.
      * apply Qmax_list_ge_start.
    + apply IH. right. exact Hy.
Qed.

Lemma Qmax_list_In (x : Q) (l : list Q) : In (Qmax_list x l) (x :: l).
Proof.
  unfold Qmax_list. revert x. induction l as [|z l IH]; intros x; cbn [fold_left].
  - left. reflexivity.
  - destruct (IH (if Qle_bool z x then x else z)) as [H|H].
    + rewrite <- H. destruct (Qle_bool z x); [left|right; left]; reflexivity.
    + right. right. exact H.
Qed.

(** An array without NaN is the array of its numbers. *)
Lemma numbers_Some (l : list value) (qs : list Q) :
  numbers l = Some qs -> l = map Some qs.
Proof.
  revert qs. induction l as [|[q|] l IH]; intros qs H; cbn [numbers] in H.
  - injection H as <-. reflexivity.
  - destruct (numbers l) as [qs'|]; [|discriminate H].
    injection H as <-. cbn [map]. rewrite (IH qs' eq_refl). reflexivity.
  - discriminate H.
Qed.

Lemma numbers_None (l : list value) : numbers l = None -> In None l.
Proof.
  induction l as [|[q|] l IH]; intros H; cbn [numbers] in H.
  - discriminate H.
  - right. apply IH. destruct (numbers l); [discriminate H | reflexivity].
  - left. reflexivity.
Qed.

(** The maximum of a window without NaN. *)
Lemma np_max_Success (l : list value) (t : value) :
  np_max l = Success t -> ~ In None l ->
  exists x qs, l = map Some (x :: qs) /\ t = Some (Qmax_list x qs).
Proof.
  intros H Hnan. destruct l as [|a l]; [discriminate H|].
  unfold np_max in H.
  destruct (numbers (a :: l)) as [[|x qs]|] eqn:Hn.
  - apply numbers_Some in Hn. discriminate Hn.
  - injection H as <-. exists x, qs. split; [apply numbers_Some, Hn | reflexivity].
  - exfalso. apply Hnan, numbers_None, Hn.
Qed.

Section SizeYAxis.

Context {Config : Type} {CP : ConfigParser Config}.
Variables i j : nat.

(** The loop over the curves leaves the world alone. *)
Lemma size_loop_world (data : list (string * list value)) (s r : value)
    (w w' : world Config) :
  for_each data
    (fun entry maxCurveVal =>
       bind (lib (np_max (py_slice (snd entry) (Z.of_nat i) (Z.of_nat j))))
            (fun maxTemp => ret (py_max maxTemp maxCurveVal)))
    s w = (Ok r, w') ->
  w' = w.
Proof.
  intros Hrun.
  apply (for_each_invariant (fun _ => True)) in Hrun; [tauto| |exact I].
  intros x s0 w0 s1 w1 _ _ Hbody. split; [exact I|].
  unfold bind, lib in Hbody.
  destruct (np_max (py_slice (snd x) (Z.of_nat i) (Z.of_nat j)));
    cbn in Hbody; [|discriminate Hbody].
  injection Hbody as _ <-. reflexivity.
Qed.

(** Over windows without NaN the running maximum only grows, bounds every
    window, and is the start value or a value of a window. *)
Lemma size_loop (data : list (string * list value)) (s : Q) (r : value)
    (w w' : world Config) :
  (forall key curve,
     In (key, curve) data ->
     ~ In None (py_slice curve (Z.of_nat i) (Z.of_nat j))) ->
  for_each data
    (fun entry maxCurveVal =>
       bind (lib (np_max (py_slice (snd entry) (Z.of_nat i) (Z.of_nat j))))
            (fun maxTemp => ret (py_max maxTemp maxCurveVal)))
    (Some s) w = (Ok r, w') ->
  exists v,
    r = Some v /\ (s <= v)%Q /\
    (forall key curve y,
       In (key, curve) data ->
       In (Some y) (py_slice curve (Z.of_nat i) (Z.of_nat j)) -> (y <= v)%Q) /\
    (v = s \/
     exists key curve,
       In (key, curve) data /\
       In (Some v) (py_slice curve (Z.of_nat i) (Z.of_nat j))).
Proof.
  revert s w. induction data as [|[key curve] data IH]; intros s w Hnan Hrun.
  - cbn in Hrun. injection Hrun as <- _. exists s.
    repeat split; [apply Qle_refl | intros ? ? ? [] | left; reflexivity].
  - cbn [for_each] in Hrun. unfold bind at 1 in Hrun.
    unfold bind at 1 in Hrun. unfold lib at 1 in Hrun. cbn [snd] in Hrun.
    destruct (np_max (py_slice curve (Z.of_nat i) (Z.of_nat j))) as [t|e] eqn:Hmax;
      cbn [tag ret] in Hrun; [|discriminate Hrun].
    cbv beta iota in Hrun.
    destruct (np_max_Success _ _ Hmax (Hnan key curve (or_introl eq_refl)))
      as (x & qs & Hs & ->).
    cbn [py_max] in Hrun.
    assert (Hstep : exists s1,
               (if Qltb (Qmax_list x qs) s then Some s else Some (Qmax_list x qs))
               = Some s1 /\ (s <= s1)%Q /\ (Qmax_list x qs <= s1)%Q /\
               (s1 = s \/ s1 = Qmax_list x qs)).
    { unfold Qltb. destruct (Qle_bool s (Qmax_list x qs)) eqn:E; cbn [negb].
      - exists (Qmax_list x qs). repeat split;
          [apply Qle_bool_iff, E | apply Qle_refl | right; reflexivity].
      - exists s. repeat split;
          [apply Qle_refl | apply Qle_bool_false_le, E | left; reflexivity]. }
    destruct Hstep as (s1 & Hs1 & Hle1 & Hle2 & Hor).
    match type of Hrun with
    | for_each ?d ?b _ ?w0 = ?rhs =>
        assert (Hrest : for_each d b (Some s1) w0 = rhs)
          by (rewrite <- Hs1; exact Hrun)
    end.
    apply IH in Hrest;
      [|intros k' c' Hin; apply (Hnan k' c'); right; exact Hin].
    destruct Hrest as (v & -> & Hle & Hall & Hin).
    exists v. repeat split.
    + eapply Qle_trans; [exact Hle1 | exact Hle].
    + intros key' curve' y [Heq|Hin'] Hy.
      * injection Heq as <- <-. rewrite Hs in Hy.
        apply in_map_iff in Hy. destruct Hy as (y' & [= ->] & Hy').
        eapply Qle_trans; [apply Qmax_list_ge, Hy'|].
        eapply Qle_trans; [exact Hle2 | exact Hle].
      * eapply Hall; eassumption.
    + destruct Hin as [->|(key' & curve' & Hin' & Hv)].
      * destruct Hor as [->| ->]; [left; reflexivity|].
        right. exists key, curve. split; [left; reflexivity|].
        rewrite Hs. apply in_map. apply Qmax_list_In.
      * right. exists key', curve'. split; [right; exact Hin' | exact Hv].
Qed.

Lemma size_loop_empty_window (data : list (string * list value)) (s : value)
    (w : world Config) :
  (j <= i)%nat -> data <> [] ->
  for_each data
    (fun entry maxCurveVal =>
       bind (lib (np_max (py_slice (snd entry) (Z.of_nat i) (Z.of_nat j))))
            (fun maxTemp => ret (py_max maxTemp maxCurveVal)))
    s w
  = (Raise Library (ValueError
       "zero-size array to reduction operation maximum which has no identity"), w).
Proof.
  intros Hji Hdata. destruct data as [|[key curve] data]; [contradiction|].
  cbn [for_each]. unfold bind at 1. unfold bind at 1. unfold lib. cbn [snd].
  assert (Hs : py_slice curve (Z.of_nat i) (Z.of_nat j) = []).
  { unfold py_slice, clamp_bound.
    destruct (Z.of_nat i <? 0)%Z eqn:Ei; [lia|].
    destruct (Z.of_nat j <? 0)%Z eqn:Ej; [lia|].
    replace (Z.to_nat (Z.min (Z.of_nat j) (Z.of_nat (List.length curve)))
             - Z.to_nat (Z.min (Z.of_nat i) (Z.of_nat (List.length curve))))%nat
      with 0%nat by lia.
    reflexivity. }
  rewrite Hs. reflexivity.
Qed.

End SizeYAxis.

(** What [plot_size_y_axis] does once numpy has picked the two indices. *)
Lemma plot_size_y_axis_run
    {Config : Type} {CP : ConfigParser Config} (ext : External)
    (xaxisValues : list value) (data : list (string * list value))
    (w : world Config) (minIndex maxIndex : nat) :
  let xlim := ax_get_xlim ext (w_trace w ++ [EGca]) in
  argmin (np_abs (np_sub_scalar ext xaxisValues (fst xlim))) = Success minIndex ->
  argmin (np_abs (np_sub_scalar ext xaxisValues (snd xlim))) = Success maxIndex ->
  plot_size_y_axis ext xaxisValues data w
  = for_each data
      (fun entry maxCurveVal =>
         bind (lib (np_max (py_slice (snd entry)
                              (Z.of_nat minIndex) (Z.of_nat maxIndex))))
              (fun maxTemp => ret (py_max maxTemp maxCurveVal)))
      (Some (- (100000000000000000000))%Q)
      (mkWorld (w_config w) (w_trace w ++ [EGca])).
Proof.
  cbv zeta. intros Hmin Hmax. unfold plot_size_y_axis.
  unfold bind at 1. unfold emit at 1. cbv beta iota.
  unfold bind at 1. unfold get_xlim at 1. cbv beta iota.
  unfold bind at 1. unfold get_xlim at 1. cbv beta iota.
  cbn [w_trace w_config].
  unfold bind at 1. unfold lib at 1. cbv beta iota. rewrite Hmin.
  cbn [tag]. cbv beta iota.
  unfold bind at 1. unfold lib at 1. cbv beta iota. rewrite Hmax.
  cbn [tag]. cbv beta iota.
  reflexivity.
Qed.

(** X16.  Let [minIndex] and [maxIndex] be the indices numpy picks for the
    x values nearest the left and the right x limit, and let no curve hold
    a NaN from [minIndex] up to, but without, [maxIndex].  When
    [plot_size_y_axis] returns, it has only asked pyplot for the current
    axes; the value it returns is a number, at least [-1E20] and at least
    every value of every curve in that window; and it is [-1E20] or one of
    these values. *)
Theorem plot_size_y_axis_bounds
    {Config : Type} {CP : ConfigParser Config} (ext : External)
    (xaxisValues : list value) (data : list (string * list value))
    (w : world Config) (minIndex maxIndex : nat) (r : value) :
  let run := plot_size_y_axis ext xaxisValues data w in
  let xlim := ax_get_xlim ext (w_trace w ++ [EGca]) in
  argmin (np_abs (np_sub_scalar ext xaxisValues (fst xlim))) = Success minIndex ->
  argmin (np_abs (np_sub_scalar ext xaxisValues (snd xlim))) = Success maxIndex ->
  (forall key curve,
     In (key, curve) data ->
     ~ In None (py_slice curve (Z.of_nat minIndex) (Z.of_nat maxIndex))) ->
  fst run = Ok r ->
  snd run = mkWorld (w_config w) (w_trace w ++ [EGca]) /\
  exists v,
    r = Some v /\
    (- (100000000000000000000) <= v)%Q /\
    (forall key curve y,
       In (key, curve) data ->
       In (Some y) (py_slice curve (Z.of_nat minIndex) (Z.of_nat maxIndex)) ->
       (y <= v)%Q) /\
    (v = (- (100000000000000000000))%Q \/
     exists key curve,
       In (key, curve) data /\
       In (Some v) (py_slice curve (Z.of_nat minIndex) (Z.of_nat maxIndex))).
Proof.
  cbv zeta. intros Hmin Hmax Hnan Hok.
  rewrite (plot_size_y_axis_run ext xaxisValues data w minIndex maxIndex Hmin Hmax)
    in *.
  match type of Hok with
  | fst (?m ?w0) = _ => destruct (m w0) as [r' w'] eqn:Hrun
  end.
  cbn [fst snd] in *. subst r'.
  split; [exact (size_loop_world minIndex maxIndex _ _ _ _ _ Hrun)|].
  exact (size_loop minIndex maxIndex data _ r _ _ Hnan Hrun).
Qed.

Lemma plot_size_y_axis_bounds_witness :
  snd (plot_size_y_axis Sample2.wide_axes [Some 0; Some 1; Some 2; Some 3]%Q
         [("model", [Some 5; Some 9; Some 7; Some 20]%Q);
          ("obs", [Some 6; Some 2; Some 8; Some 30]%Q)] Sample.w0)
  = mkWorld Sample.config [EGca] /\
  exists v,
    Some 9%Q = Some v /\
    (- (100000000000000000000) <= v)%Q /\
    (forall key curve y,
       In (key, curve) [("model", [Some 5; Some 9; Some 7; Some 20]%Q);
                        ("obs", [Some 6; Some 2; Some 8; Some 30]%Q)] ->
       In (Some y) (py_slice curve 0 3) -> (y <= v)%Q) /\
    (v = (- (100000000000000000000))%Q \/
     exists key curve,
       In (key, curve) [("model", [Some 5; Some 9; Some 7; Some 20]%Q);
                        ("obs", [Some 6; Some 2; Some 8; Some 30]%Q)] /\
       In (Some v) (py_slice curve 0 3)).
Proof.
  apply (plot_size_y_axis_bounds Sample2.wide_axes
           [Some 0; Some 1; Some 2; Some 3]%Q
           [("model", [Some 5; Some 9; Some 7; Some 20]%Q);
            ("obs", [Some 6; Some 2; Some 8; Some 30]%Q)] Sample.w0
           0%nat 3%nat (Some 9%Q)).
  - vm_compute. reflexivity.
  - vm_compute. reflexivity.
  - intros key curve [H|[H|[]]]; injection H as <- <-; vm_compute;
      intros H; repeat (destruct H as [H|H]; [discriminate H|]); exact H.
  - vm_compute. reflexivity.
Defined.

(** X17.  When the index numpy picks for the x value nearest the right
    limit of the axes is not greater than the one for the left limit, and
    there is a curve, [plot_size_y_axis] raises the [ValueError] of the
    maximum of an empty array. *)
Theorem plot_size_y_axis_empty_window
    {Config : Type} {CP : ConfigParser Config} (ext : External)
    (xaxisValues : list value) (data : list (string * list value))
    (w : world Config) (minIndex maxIndex : nat) :
  let xlim := ax_get_xlim ext (w_trace w ++ [EGca]) in
  argmin (np_abs (np_sub_scalar ext xaxisValues (fst xlim))) = Success minIndex ->
  argmin (np_abs (np_sub_scalar ext xaxisValues (snd xlim))) = Success maxIndex ->
  (maxIndex <= minIndex)%nat ->
  data <> [] ->
  fst (plot_size_y_axis ext xaxisValues data w)
  = Raise Library (ValueError
      "zero-size array to reduction operation maximum which has no identity").
Proof.
  cbv zeta. intros Hmin Hmax Hle Hdata.
  rewrite (plot_size_y_axis_run ext xaxisValues data w minIndex maxIndex Hmin Hmax).
  rewrite (size_loop_empty_window minIndex maxIndex data _ _ Hle Hdata).
  reflexivity.
Qed.

Lemma plot_size_y_axis_empty_window_witness :
  fst (plot_size_y_axis Sample.ext [Some 0; Some 10; Some 20]%Q
         [("model", [Some 5; Some 9; Some 7]%Q)] Sample.w0)
  = Raise Library (ValueError
      "zero-size array to reduction operation maximum which has no identity").
Proof.
  apply (plot_size_y_axis_empty_window Sample.ext [Some 0; Some 10; Some 20]%Q
           [("model", [Some 5; Some 9; Some 7]%Q)] Sample.w0 0%nat 0%nat).
  - vm_compute. reflexivity.
  - vm_compute. reflexivity.
  - lia.
  - discriminate.
Defined.

(** The indices follow the rounding of the floats: [|0.5 - 1e16|] rounds to
    [1e16] and ties with [|2e16 - 1e16|], so the left index is 0 and the
    window holds the first two values. *)
Example plot_size_y_axis_rounding_sample :
  argmin (np_abs (np_sub_scalar Sample2.far_axes
                    [Some 20000000000000000; Some (1 # 2); Some 30000000000000000]%Q
                    10000000000000000))
  = Success 0%nat /\
  fst (plot_size_y_axis Sample2.far_axes
         [Some 20000000000000000; Some (1 # 2); Some 30000000000000000]%Q
         [("curve", [Some 100; Some 1; Some 5]%Q)] Sample.w0)
  = Ok (Some 100%Q).
Proof.
  split; vm_compute; reflexivity.
Qed.

(** A NaN in the window of one curve makes the curves before it forgotten:
    [max(maxTemp, maxCurveVal)] returns its first argument when a
    comparison involves NaN. *)
Example plot_size_y_axis_nan_sample :
  fst (plot_size_y_axis Sample2.wide_axes [Some 0; Some 1; Some 2; Some 3]%Q
         [("a", [Some 50; Some 9; Some 7; Some 20]%Q);
          ("b", [Some 6; None; Some 8; Some 30]%Q);
          ("c", [Some 1; Some 2; Some 3; Some 4]%Q)] Sample.w0)
  = Ok (Some 3%Q).
Proof.
  vm_compute. reflexivity.
Qed.

(* ================================================================== *)
(** * The azimuthal ticks of [timeseries_analysis_plot_polar] *)

Section PolarTicks.

Context {Config : Type} {CP : ConfigParser Config}.
Variable ext : External.


Variable c : Config.


End PolarTicks.



(* ================================================================== *)
(** * Omitted parameters *)

(** The title of the figure among the expected key events. *)
Lemma expected_title_sizes {Config : Type} {CP : ConfigParser Config}
    (c : Config) (call : plot_call) :
  k_title_font_sizes (expected_keys c call)
  = match call_title call with
    | Some _ => [fd_size (eff_title_font c (call_titleFontSize call))]
    | None => []
    end.
Proof.
  destruct call; cbn [expected_keys call_title call_titleFontSize];
    unfold k_title, k_epilogue, eff_title_font, eff_axis_font, polar_subplots;
    repeat match goal with
           | |- context [match ?x with _ => _ end] => destruct x
           end;
    reflexivity.
Qed.

(** Read option [dpi], which succeeds with [d]. *)
Ltac read_dpi Hd :=
  apply sees_bind, sees_config_getint; rewrite Hd; cbn [tag];
  cbv beta iota zeta.

(** The figure is created, and no other one after it. *)
Ltac figure_then_none :=
  shown;
  apply sees_unseen_last; [prove_unseen | intros r; reflexivity].

(** With [dpi] omitted and readable, a call whose shapes fit creates its
    figure, however it ends afterwards. *)
Lemma plot_call_sees_figure {Config : Type} {CP : ConfigParser Config}
    (c : Config) (ext : External) (call : plot_call) (d : Z) :
  call_dpi call = None ->
  shape_error call = None ->
  getint c "plot" "dpi" = Success d ->
  sees see_figure_dpi c (run_plot_call ext call) (fun ks _ => ks = [d]).
Proof.
  intros Hdpi Hshape Hd.
  destruct call; cbn [call_dpi] in Hdpi; subst dpi; cbn [run_plot_call].
  - unfold timeseries_analysis_plot. read_dpi Hd. figure_then_none.
  - unfold timeseries_analysis_plot_polar. read_dpi Hd. figure_then_none.
  - unfold plot_polar_comparison. read_dpi Hd.
    destruct vertical; cbv beta iota zeta; figure_then_none.
  - unfold plot_global_comparison. read_dpi Hd. figure_then_none.
  - unfold plot_1D. read_dpi Hd. figure_then_none.
  - cbn [shape_error] in Hshape. unfold plot_vertical_section.
    destruct (negb (Nat.eqb (List.length xArray) (shape1 fieldArray)));
      [discriminate Hshape|].
    destruct (negb (Nat.eqb (List.length depthArray) (shape0 fieldArray)));
      [discriminate Hshape|].
    apply sees_bind, sees_ret. cbv beta iota zeta.
    read_dpi Hd. figure_then_none.
Qed.

(** C4.  With [dpi] omitted and option [dpi] of section [plot] read as [d]:
    every figure the call creates and every file it saves has [d] dots per
    inch; a call whose shapes fit has created exactly one figure, with [d],
    however it ends; and a call that returns has used [d].  With
    [titleFontSize] omitted (or no such parameter) and option
    [titleFontSize] read as [s]: every title drawn with the title font has
    size [s], and a call that returns has drawn exactly one such title if
    it was given a title, and none otherwise. *)
Theorem omitted_parameters_read_from_config
    {Config : Type} {CP : ConfigParser Config} (ext : External)
    (call : plot_call) (w : world Config) :
  exists evs,
    w_trace (snd (run_plot_call ext call w)) = w_trace w ++ evs /\
    (call_dpi call = None ->
     forall d, getint (w_config w) "plot" "dpi" = Success d ->
       Forall (eq d) (dpis evs) /\
       (shape_error call = None -> figure_dpis evs = [d]) /\
       (fst (run_plot_call ext call w) = Ok tt -> In d (dpis evs))) /\
    (call_titleFontSize call = None ->
     forall s, get (w_config w) "plot" "titleFontSize" = Success s ->
       Forall (eq (SizeStr s)) (title_font_sizes evs) /\
       (fst (run_plot_call ext call w) = Ok tt ->
        title_font_sizes evs
        = match call_title call with
          | Some _ => [SizeStr s]
          | None => []
          end)).
Proof.
  destruct (plot_call_effect ext call w) as [evs [Ht [_ [[rest Hk] Hp]]]].
  exists evs. split; [exact Ht|]. split.
  - intros Hdpi d Hd.
    pose proof (expected_dpis (w_config w) call) as Hf.
    rewrite Hdpi in Hf. unfold eff_dpi, cfg_dpi in Hf. rewrite Hd in Hf.
    split; [|split].
    + rewrite Hk, k_dpis_app, <- dpis_keyevs in Hf.
      apply Forall_app in Hf. tauto.
    + intros Hshape.
      destruct (plot_call_sees_figure (w_config w) ext call d Hdpi Hshape Hd
                  w eq_refl) as [_ [evs' [Ht' Hfig]]].
      rewrite Ht in Ht'. apply app_inv_head in Ht'. subst evs'. exact Hfig.
    + intros Hok. rewrite Hok in Hp. cbn in Hp. destruct Hp as [Hfull _].
      rewrite dpis_keyevs, Hfull.
      destruct (expected_figure (w_config w) call) as [fs [ks Hks]].
      rewrite Hks, Hdpi. unfold eff_dpi, cfg_dpi. rewrite Hd. cbn. left. reflexivity.
  - intros Htfs s Hs. split.
    + pose proof (expected_title_font_sizes (w_config w) call) as Hf.
      rewrite Htfs in Hf. unfold eff_title_font, cfg_str in Hf. cbn in Hf.
      rewrite Hs in Hf.
      rewrite Hk, k_title_font_sizes_app, <- title_font_sizes_keyevs in Hf.
      apply Forall_app in Hf. tauto.
    + intros Hok. rewrite Hok in Hp. cbn in Hp. destruct Hp as [Hfull _].
      rewrite title_font_sizes_keyevs, Hfull, expected_title_sizes, Htfs.
      unfold eff_title_font, cfg_str. cbn [fd_size]. rewrite Hs. reflexivity.
Qed.

Lemma omitted_parameters_read_from_config_witness :
  Forall (fun call =>
            exists evs,
              w_trace (snd (run_plot_call Sample.ext call Sample.w0))
                = w_trace Sample.w0 ++ evs /\
              Forall (eq 200%Z) (dpis evs) /\
              figure_dpis evs = [200%Z] /\
              title_font_sizes evs = [SizeStr "20"])
         [Sample.timeseries_call; Sample.polar_call;
          Sample.polar_comparison_call false; Sample.global_call;
          Sample.plot_1D_call; Sample.vertical_section_call].
Proof.
  repeat constructor;
    match goal with
    | |- exists evs, w_trace (snd (run_plot_call _ ?call _)) = _ /\ _ =>
        destruct (omitted_parameters_read_from_config Sample.ext call Sample.w0)
          as [evs [Ht [Hd Hs]]];
        exists evs; split; [exact Ht|];
        destruct (Hd eq_refl 200%Z eq_refl) as [Hall [Hfig _]];
        destruct (Hs eq_refl "20" eq_refl) as [_ Htitle];
        split; [exact Hall|];
        split; [apply Hfig; reflexivity | apply Htitle; vm_compute; reflexivity]
    end.
Defined.
